(** * PlanogramDeploy: the frame-sampling and evidence pipeline

    A shallow embedding of [app/analyze.py] ([extract_products_from_image],
    [analyze_video_for_query]) and of
    [GoogleVisionProductDetector.find_similar_products] from
    [google_vision.py], with the properties of the specification stated and
    proved over it; then the text helpers of the detector
    ([_extract_products_from_text], [_extract_attributes],
    [_fallback_product_detection], [_parse_text_to_products]) and further
    properties of the pipeline: its trace, its failures and its edge cases.

    Conventions.
    - Python [float] is IEEE 754 binary64; it is modelled by the Standard
      Library's [spec_float] at precision 53 and maximal exponent 1024, whose
      operations round to nearest, ties to even, exactly as the hardware does.
    - Python [str] is modelled by [string]: the UTF-8 bytes of the text.
      White space ([str.strip], [str.split]) is that of Unicode.  The case
      mapping [str.lower] is the ASCII one where [app/analyze.py] searches a
      text for its ASCII keywords and markers; where [google_vision.py]
      lower-cases product and query text, it is a parameter of the model, of
      which nothing is assumed.
    - The arithmetic of the specification is exact; a float is compared
      with it through its exact value, a rational.
    - Exceptions are values of [exn]; effectful code lives in the monad [M],
      which threads the temporary-file store and the trace of external
      events, and may raise.  A [print] is an event of the trace: the
      standard output is taken to accept every line (on an output that
      cannot encode a line, [print] itself raises). *)

From Stdlib Require Import ZArith List String Ascii Bool Lia DecimalString.
From Stdlib Require Import Sorting.Sorted Sorting.Permutation.
From Stdlib Require Import Floats QArith Qround.
From stdpp Require Import base strings gmap.
Import ListNotations.

Open Scope string_scope.
Open Scope list_scope.
Open Scope Z_scope.

(** ** Exceptions and results *)

Record exn : Type := Exn { exn_type : string; exn_msg : string }.

Inductive result (A : Type) : Type :=
| Ok (a : A)
| Raise (e : exn).
Arguments Ok {A} a.
Arguments Raise {A} e.

Definition rbind {A B : Type} (r : result A) (k : A -> result B) : result B :=
  match r with
  | Ok a => k a
  | Raise e => Raise e
  end.

(** ** Python floats *)

Module PyFloat.

Definition prec : Z := 53.
Definition emax : Z := 1024.

Definition fadd : spec_float -> spec_float -> spec_float := SFadd prec emax.
Definition fmul : spec_float -> spec_float -> spec_float := SFmul prec emax.
Definition fdiv : spec_float -> spec_float -> spec_float := SFdiv prec emax.
Definition fltb : spec_float -> spec_float -> bool := SFltb.

(** The literals of the program, as the parser rounds them. *)
Definition f0_0 : spec_float := S754_zero false.
Definition f0_3 : spec_float := S754_finite false 5404319552844595 (-54).
Definition f0_4 : spec_float := S754_finite false 7205759403792794 (-54).
Definition f0_5 : spec_float := S754_finite false 4503599627370496 (-53).
Definition f0_9 : spec_float := S754_finite false 8106479329266893 (-53).
Definition f1000 : spec_float := S754_finite false 8796093022208000 (-43).

Definition is_zero (f : spec_float) : bool :=
  match f with
  | S754_zero _ => true
  | _ => false
  end.

(** [bool(f)]: every float but the two zeros is true, NaN included. *)
Definition truthy (f : spec_float) : bool := negb (is_zero f).

(** [float(n)] for an [int]: correctly rounded, [OverflowError] when the
    rounded value is not finite. *)
Definition float_of_int (n : Z) : result spec_float :=
  match binary_normalize prec emax n 0 false with
  | S754_infinity _ =>
      Raise (Exn "OverflowError" "int too large to convert to float")
  | f => Ok f
  end.

(** [a / b] on floats. *)
Definition truediv (a b : spec_float) : result spec_float :=
  if is_zero b
  then Raise (Exn "ZeroDivisionError" "float division by zero")
  else Ok (fdiv a b).

(** [n / b] for an [int] [n] and a float [b]: [n] is converted first. *)
Definition int_truediv_float (n : Z) (b : spec_float) : result spec_float :=
  rbind (float_of_int n) (fun a => truediv a b).

(** [int(f)]: truncation toward zero. *)
Definition int_of_float (f : spec_float) : result Z :=
  match f with
  | S754_nan => Raise (Exn "ValueError" "cannot convert float NaN to integer")
  | S754_infinity _ =>
      Raise (Exn "OverflowError" "cannot convert float infinity to integer")
  | S754_zero _ => Ok 0
  | S754_finite s m e => Ok (cond_Zopp s (Z.shiftl (Zpos m) e))
  end.

(** [n < f] for an [int] [n] and a float [f]: the interpreter compares the
    two exactly, without rounding [n]. *)
Definition int_lt_float (n : Z) (f : spec_float) : bool :=
  match f with
  | S754_nan => false
  | S754_infinity s => negb s
  | S754_zero _ => n <? 0
  | S754_finite s m e =>
      if 0 <=? e
      then n <? cond_Zopp s (Zpos m) * 2 ^ e
      else n * 2 ^ (- e) <? cond_Zopp s (Zpos m)
  end.

(** [float(n)] for a length [n]: lengths are below [2^63], where the
    conversion cannot overflow. *)
Definition float_of_len (n : nat) : spec_float :=
  binary_normalize prec emax (Z.of_nat n) 0 false.

(** [a / b] for two lengths.  Below [2^53] both conversions are exact, so
    the rounded quotient of the converted values is the correctly rounded
    quotient that the interpreter returns. *)
Definition len_truediv (a b : nat) : result spec_float :=
  match b with
  | O => Raise (Exn "ZeroDivisionError" "division by zero")
  | _ => Ok (fdiv (float_of_len a) (float_of_len b))
  end.

(** Not below zero: a NaN, or a zero, infinity or finite float of positive
    sign. *)
Definition not_negative (f : spec_float) : Prop :=
  match f with
  | S754_nan => True
  | S754_zero s | S754_infinity s | S754_finite s _ _ => s = false
  end.

Definition is_nan (f : spec_float) : bool :=
  match f with
  | S754_nan => true
  | _ => false
  end.

End PyFloat.

(** ** Python strings *)

Module PyStr.

Definition lower_char (c : ascii) : ascii :=
  let n := nat_of_ascii c in
  if ((65 <=? n) && (n <=? 90))%nat then ascii_of_nat (n + 32) else c.

(** [s.lower()] *)
Fixpoint lower (s : string) : string :=
  match s with
  | EmptyString => EmptyString
  | String c s' => String (lower_char c) (lower s')
  end.

(** [s.startswith(p)] *)
Fixpoint startswith (p s : string) : bool :=
  match p with
  | EmptyString => true
  | String a p' =>
      match s with
      | EmptyString => false
      | String b s' => Ascii.eqb a b && startswith p' s'
      end
  end.

(** [p in s] *)
Fixpoint contains (p s : string) : bool :=
  startswith p s ||
  match s with
  | EmptyString => false
  | String _ s' => contains p s'
  end.

(** [s.endswith(p)] *)
Fixpoint endswith (p s : string) : bool :=
  String.eqb p s ||
  match s with
  | EmptyString => false
  | String _ s' => endswith p s'
  end.

(** A byte that continues a UTF-8 sequence. *)
Definition is_continuation (c : ascii) : bool :=
  let n := nat_of_ascii c in ((128 <=? n) && (n <? 192))%nat.

(** The UTF-8 bytes of a code point. *)
Definition utf8 (n : N) : string :=
  if (n <? 0x80)%N
  then String (ascii_of_N n) EmptyString
  else if (n <? 0x800)%N
  then String (ascii_of_N (0xC0 + n / 0x40))
         (String (ascii_of_N (0x80 + n mod 0x40)) EmptyString)
  else if (n <? 0x10000)%N
  then String (ascii_of_N (0xE0 + n / 0x1000))
         (String (ascii_of_N (0x80 + (n / 0x40) mod 0x40))
            (String (ascii_of_N (0x80 + n mod 0x40)) EmptyString))
  else String (ascii_of_N (0xF0 + n / 0x40000))
         (String (ascii_of_N (0x80 + (n / 0x1000) mod 0x40))
            (String (ascii_of_N (0x80 + (n / 0x40) mod 0x40))
               (String (ascii_of_N (0x80 + n mod 0x40)) EmptyString))).

(** The code points for which [str.isspace] holds; [str.strip] and
    [str.split] without argument remove and split at exactly these. *)
Definition whitespace_code_points : list N :=
  [0x9; 0xA; 0xB; 0xC; 0xD; 0x1C; 0x1D; 0x1E; 0x1F; 0x20; 0x85; 0xA0;
   0x1680; 0x2000; 0x2001; 0x2002; 0x2003; 0x2004; 0x2005; 0x2006; 0x2007;
   0x2008; 0x2009; 0x200A; 0x2028; 0x2029; 0x202F; 0x205F; 0x3000]%N.

(** A code point, given by its bytes, is white space. *)
Definition is_whitespace (c : string) : bool :=
  existsb (fun n => String.eqb c (utf8 n)) whitespace_code_points.

(** The code points of a text, each as its UTF-8 bytes: a byte that is not
    a continuation byte begins a code point.  The first component is the
    run of continuation bytes at the front. *)
Fixpoint code_points_from (s : string) : string * list string :=
  match s with
  | EmptyString => (EmptyString, [])
  | String c s' =>
      let (k, l) := code_points_from s' in
      if is_continuation c then (String c k, l)
      else (EmptyString, String c k :: l)
  end.

Definition code_points (s : string) : list string :=
  match code_points_from s with
  | (EmptyString, l) => l
  | (k, l) => k :: l
  end.

(** The text of a list of code points. *)
Definition text_of (l : list string) : string :=
  fold_right String.append EmptyString l.

Fixpoint lstrip_points (l : list string) : list string :=
  match l with
  | [] => []
  | c :: l' => if is_whitespace c then lstrip_points l' else l
  end.

Fixpoint rstrip_points (l : list string) : list string :=
  match l with
  | [] => []
  | c :: l' =>
      match rstrip_points l' with
      | [] => if is_whitespace c then [] else [c]
      | r => c :: r
      end
  end.

(** [s.strip()] *)
Definition strip (s : string) : string :=
  text_of (rstrip_points (lstrip_points (code_points s))).

Fixpoint split_points (cur : string) (l : list string) : list string :=
  match l with
  | [] => match cur with EmptyString => [] | _ => [cur] end
  | c :: l' =>
      if is_whitespace c
      then match cur with
           | EmptyString => split_points EmptyString l'
           | _ => cur :: split_points EmptyString l'
           end
      else split_points (cur ++ c) l'
  end.

(** [s.split()]: the maximal runs of code points that are not white
    space. *)
Definition split (s : string) : list string :=
  split_points EmptyString (code_points s).

(** A text is a sequence of code points: the first byte of each is not a
    continuation byte, the others are.  (A Python [str] has no other
    form; the list below also admits a run of continuation bytes at the
    front, so that every byte string has its list of code points.) *)
Fixpoint all_continuation (s : string) : bool :=
  match s with
  | EmptyString => true
  | String c s' => is_continuation c && all_continuation s'
  end.

Definition regular (c : string) : bool :=
  match c with
  | EmptyString => false
  | String a k => negb (is_continuation a) && all_continuation k
  end.

Definition well_formed (l : list string) : Prop :=
  match l with
  | [] => True
  | c :: l' =>
      (regular c = true \/ (c <> EmptyString /\ all_continuation c = true))
      /\ Forall (fun c => regular c = true) l'
  end.

(** [sep.join(l)] *)
Fixpoint join (sep : string) (l : list string) : string :=
  match l with
  | [] => EmptyString
  | [x] => x
  | x :: rest => x ++ sep ++ join sep rest
  end.

(** [str(n)] for an [int]. *)
Definition str_of_int (n : Z) : string := NilZero.string_of_int (Z.to_int n).

(** [str(x)] for an optional [int]: [None] prints as its name. *)
Definition str_of_opt_int (o : option Z) : string :=
  match o with
  | Some n => str_of_int n
  | None => "None"
  end.

(** Truth value of an optional string: [None] and the empty string are
    false. *)
Definition truthy (o : option string) : bool :=
  match o with
  | Some (String _ _) => true
  | _ => false
  end.

End PyStr.

(** ** Python integers *)

Module PyInt.

(** [a % b]: the remainder has the sign of the divisor, as [Z.modulo]. *)
Definition mod_ (a b : Z) : result Z :=
  if b =? 0
  then Raise (Exn "ZeroDivisionError" "integer modulo by zero")
  else Ok (a mod b).

End PyInt.

(** ** The environment of [app/analyze.py] *)

(** A decoded frame, represented by the image bytes that [cv2.imwrite] stores
    for it. *)
Definition frame : Type := string.

(** What [cv2.VideoCapture(path)] gives: whether the source opened, the two
    properties the program reads, and the frames that successive [read()]
    calls return before the first failed read. *)
Record capture : Type := Capture {
  cap_opened : bool;
  cap_fps : spec_float;
  cap_frame_count : spec_float;
  cap_frames : list frame
}.

(** [cap.get(prop)]: a capture that did not open answers [0.0] for every
    property. *)
Definition cap_get (prop : capture -> spec_float) (cap : capture)
  : spec_float :=
  if cap_opened cap then prop cap else PyFloat.f0_0.

(** An image path is the name of a temporary file of the store or any other
    path. *)
Inductive path : Type :=
| TmpFile (n : nat)
| UserFile (name : string).

(** A chat-completion request, by the fields its fixed prompt template
    interpolates.  [VisionReq ctx q img]: [ctx] is the frame number and
    timestamp of the location context (absent when the context is empty),
    [img] the bytes sent base64-encoded. *)
Inductive request : Type :=
| VisionReq (ctx : option (Z * Z)) (user_question : string) (image : string)
| SummaryReq (user_question : string) (combined_text : string)
| EvalReq (user_question generated_summary frame_analysis_text : string).

(** The externally visible actions, in the order they happen. *)
Inductive event : Type :=
| EvTmpCreate (n : nat)
| EvTmpRemove (n : nat)
| EvReadFile (p : path)
| EvChat (r : request)
| EvRelease
| EvPrint (s : string).

Definition is_tmp_event (e : event) : bool :=
  match e with
  | EvTmpCreate _ | EvTmpRemove _ => true
  | _ => false
  end.

Definition is_vision_request (e : event) : bool :=
  match e with
  | EvChat (VisionReq _ _ _) => true
  | _ => false
  end.

(** The frame number of a vision request that carries a frame context. *)
Definition vision_frame_number (e : event) : option Z :=
  match e with
  | EvChat (VisionReq (Some (n, _)) _ _) => Some n
  | _ => None
  end.

(** The frame numbers of the per-frame vision requests of a trace, in the
    order the requests were issued. *)
Definition vision_frame_numbers (tr : list event) : list Z :=
  omap vision_frame_number tr.

(** The process environment and the collaborators outside [src/]:
    the four configuration values, the video decoder, the file system outside
    the temporary directory, the hosted model (the message content of the
    first choice, or the exception the client raises) and
    [app.utils.product_extractor.extract_product_name]. *)
Record world : Type := World {
  AZURE_OPENAI_ENDPOINT : option string;
  AZURE_OPENAI_DEPLOYMENT_NAME : option string;
  AZURE_OPENAI_API_VERSION : option string;
  AZURE_OPENAI_API_KEY : option string;
  VideoCapture : string -> capture;
  read_file : string -> result string;
  chat_completions_create : request -> result string;
  extract_product_name : string -> option string
}.

(** The mutable state: the live temporary files with their contents, and the
    trace of events so far (oldest first). *)
Record state : Type := State {
  tmpfs : gmap nat frame;
  trace : list event
}.

(** ** The monad of effectful code *)

Definition M (A : Type) : Type := state -> result A * state.

Definition ret {A : Type} (a : A) : M A := fun s => (Ok a, s).

Definition raise {A : Type} (e : exn) : M A := fun s => (Raise e, s).

Definition bind {A B : Type} (m : M A) (k : A -> M B) : M B :=
  fun s =>
    match m s with
    | (Ok a, s') => k a s'
    | (Raise e, s') => (Raise e, s')
    end.

Definition lift {A : Type} (r : result A) : M A := fun s => (r, s).

(** [try: body except Exception as e: handler(e)] *)
Definition try_except {A : Type} (body : M A) (handler : exn -> M A) : M A :=
  fun s =>
    match body s with
    | (Ok a, s') => (Ok a, s')
    | (Raise e, s') => handler e s'
    end.

Definition emit (e : event) : M unit :=
  fun s => (Ok tt, State (tmpfs s) (trace s ++ [e])).

Declare Scope py_scope.
Delimit Scope py_scope with py.
Notation "'let*' x ':=' m 'in' k" := (bind m (fun x => k))
  (at level 10, x pattern, m at level 100, k at level 200) : py_scope.
Notation "m ';;' k" := (bind m (fun _ => k))
  (at level 100, k at level 200, right associativity) : py_scope.
Open Scope py_scope.

(** ** [app/analyze.py] *)

Module Analyze.

(** [int((frame_index / fps) * 1000)], lines 34 and 127. *)
Definition timestamp_ms (frame_index : Z) (fps : spec_float) : result Z :=
  rbind (PyFloat.int_truediv_float frame_index fps) (fun q =>
  PyFloat.int_of_float (PyFloat.fmul q PyFloat.f1000)).

(** Lines 32-37: the frame number and timestamp that the location context
    of the prompt carries, [None] when the context is empty. *)
Definition frame_context (frame_number : option Z) (fps : option spec_float)
  : result (option (Z * Z)) :=
  match frame_number, fps with
  | Some n, Some f =>
      if PyFloat.truthy f
      then rbind (timestamp_ms n f) (fun t => Ok (Some (n, t)))
      else Ok None
  | _, _ => Ok None
  end.

(** [end_threshold_ms], lines 151-152. *)
Definition end_threshold_ms (total_frames : Z) (fps : spec_float)
  : result spec_float :=
  rbind (PyFloat.int_truediv_float total_frames fps) (fun q =>
  let video_duration_ms := PyFloat.fmul q PyFloat.f1000 in
  Ok (PyFloat.fmul video_duration_ms PyFloat.f0_9)).

Definition presence_keywords : list string :=
  ["located"; "visible"; "is on"; "can be seen"; "placed"; "sitting";
   "present"; "seen"].

Definition uncertainty_keywords : list string :=
  ["not visible"; "not found"; "unclear"; "could be"; "might be";
   "probably"].

(** The test of lines 141-155 that guards the append of line 156. *)
Definition counts_as_evidence (response : string) (timestamp_ms : Z)
    (end_threshold_ms : spec_float) : bool :=
  let response_clean := PyStr.lower response in
  let keywords_present :=
    existsb (fun keyword => PyStr.contains keyword response_clean)
            presence_keywords in
  let uncertain_phrases :=
    existsb (fun phrase => PyStr.contains phrase response_clean)
            uncertainty_keywords in
  if keywords_present && negb uncertain_phrases
  then PyFloat.int_lt_float timestamp_ms end_threshold_ms
       || negb (PyStr.contains "end" response_clean)
  else false.

Definition credentials_error : string :=
  "Error: Azure OpenAI API credentials are missing. Please check your .env file.".

Definition skipped_timeout (frame_number : option Z) : string :=
  "[Skipped frame " ++ PyStr.str_of_opt_int frame_number
    ++ " due to timeout. Try again later.]".

Definition skipped_connection (frame_number : option Z) : string :=
  "[Skipped frame " ++ PyStr.str_of_opt_int frame_number
    ++ " due to connection error. Check your internet connection.]".

Definition skipped_other (frame_number : option Z) (error_type : string)
  : string :=
  "[Skipped frame " ++ PyStr.str_of_opt_int frame_number
    ++ " due to error: " ++ error_type ++ "]".

(** The entry appended to [frame_responses], line 136. *)
Definition frame_entry (frame_index timestamp_ms : Z) (response : string)
  : string :=
  "🖼 Frame " ++ PyStr.str_of_int frame_index ++ " ("
    ++ PyStr.str_of_int timestamp_ms ++ " ms):" ++ String "010" response.

(** The returned dictionary. *)
Record analysis : Type := Analysis {
  final_summary : string;
  timestamps : list Z;
  product_name : option string
}.

(** The variables of the sampling loop. *)
Record loop_vars : Type := LoopVars {
  frame_responses : list string;
  product_timestamps : list Z;
  frame_index : Z
}.

Section WithWorld.

Variable w : world.

(** [all([...])] over the four configuration values, line 40. *)
Definition credentials_loaded : bool :=
  PyStr.truthy (AZURE_OPENAI_ENDPOINT w)
  && PyStr.truthy (AZURE_OPENAI_DEPLOYMENT_NAME w)
  && PyStr.truthy (AZURE_OPENAI_API_VERSION w)
  && PyStr.truthy (AZURE_OPENAI_API_KEY w).

(** [open(image_path, "rb").read()]: a temporary file is read from the
    store, any other path from the outer file system. *)
Definition open_read (files : gmap nat frame) (image_path : path)
  : result string :=
  match image_path with
  | TmpFile n =>
      match files !! n with
      | Some bytes => Ok bytes
      | None => Raise (Exn "FileNotFoundError" "No such file or directory")
      end
  | UserFile name => read_file w name
  end.

(** [encode_image]: read the file; base64 is a transport encoding and
    the bytes stand for it. *)
Definition encode_image (image_path : path) : M string :=
  emit (EvReadFile image_path);;
  fun s => (open_read (tmpfs s) image_path, s).

Definition chat (r : request) : M string :=
  emit (EvChat r);; lift (chat_completions_create w r).

(** The [try] block of [extract_products_from_image], lines 30-91. *)
Definition extract_body (image_path : path) (user_question : string)
    (frame_number : option Z) (fps : option spec_float) : M string :=
  let* base64_image := encode_image image_path in
  let* ctx := lift (frame_context frame_number fps) in
  if negb credentials_loaded
  then ret credentials_error
  else
    let* content := chat (VisionReq ctx user_question base64_image) in
    ret (PyStr.strip content).

(** The [except] block, lines 93-106. *)
Definition extract_handler (frame_number : option Z) (e : exn) : M string :=
  let error_type := exn_type e in
  let error_message := exn_msg e in
  if PyStr.contains "timeout" (PyStr.lower error_message)
  then
    emit (EvPrint ("[⚠️ Skipping frame " ++ PyStr.str_of_opt_int frame_number
                    ++ " due to error: Request timed out.]"));;
    ret (skipped_timeout frame_number)
  else if existsb (fun net_err =>
                     PyStr.contains net_err (PyStr.lower error_message))
                  ["connection"; "network"; "connect"]
  then
    emit (EvPrint ("[⚠️ Skipping frame " ++ PyStr.str_of_opt_int frame_number
                    ++ " due to error: Connection error.]"));;
    ret (skipped_connection frame_number)
  else
    emit (EvPrint ("[⚠️ Skipping frame " ++ PyStr.str_of_opt_int frame_number
                    ++ " due to error: " ++ error_type ++ ": "
                    ++ error_message ++ "]"));;
    ret (skipped_other frame_number error_type).

Definition extract_products_from_image (image_path : path)
    (user_question : string) (frame_number : option Z)
    (fps : option spec_float) : M string :=
  try_except (extract_body image_path user_question frame_number fps)
             (extract_handler frame_number).

(** [evaluate_summary_accuracy], lines 226-267. *)
Definition evaluate_summary_accuracy (user_question generated_summary
    frame_analysis_text : string) : M string :=
  let* content :=
    chat (EvalReq user_question generated_summary frame_analysis_text) in
  ret (PyStr.strip content).

(** [tempfile.NamedTemporaryFile(suffix=".jpg", delete=False)]: a new,
    empty file under a name no live file has. *)
Definition named_temporary_file : M nat :=
  fun s =>
    let n := fresh (dom (tmpfs s)) in
    (Ok n, State (<[n := EmptyString]> (tmpfs s))
                 (trace s ++ [EvTmpCreate n])).

(** [cv2.imwrite(temp_filename, frame)] *)
Definition imwrite (n : nat) (fr : frame) : M unit :=
  fun s => (Ok tt, State (<[n := fr]> (tmpfs s)) (trace s)).

(** [os.remove(temp_filename)] *)
Definition os_remove (n : nat) : M unit :=
  fun s =>
    match tmpfs s !! n with
    | Some _ => (Ok tt, State (delete n (tmpfs s))
                              (trace s ++ [EvTmpRemove n]))
    | None =>
        (Raise (Exn "FileNotFoundError" "No such file or directory"), s)
    end.

Section WithQuery.

Variables (user_question : string) (frame_interval : Z).
Variables (fps : spec_float) (total_frames : Z).

(** Lines 123-158: what the loop does with a frame whose index is a
    multiple of the interval. *)
Definition analyze_frame (fr : frame) (v : loop_vars) : M loop_vars :=
  let* temp_filename := named_temporary_file in
  imwrite temp_filename fr;;
  let* timestamp := lift (timestamp_ms (frame_index v) fps) in
  let* response :=
    extract_products_from_image (TmpFile temp_filename) user_question
      (Some (frame_index v)) (Some fps) in
  let responses :=
    frame_responses v
      ++ [frame_entry (frame_index v) timestamp response] in
  let* threshold := lift (end_threshold_ms total_frames fps) in
  let positives :=
    if counts_as_evidence response timestamp threshold
    then product_timestamps v ++ [timestamp]
    else product_timestamps v in
  os_remove temp_filename;;
  ret (LoopVars responses positives (frame_index v)).

(** Lines 122-160: one iteration, for a frame that was read. *)
Definition loop_body (fr : frame) (v : loop_vars) : M loop_vars :=
  let* r := lift (PyInt.mod_ (frame_index v) frame_interval) in
  let* v' := if r =? 0 then analyze_frame fr v else ret v in
  ret (LoopVars (frame_responses v') (product_timestamps v')
                (frame_index v' + 1)).

(** Lines 117-160 on an opened source: one iteration per frame read,
    until a read fails. *)
Fixpoint read_loop (frames : list frame) (v : loop_vars) : M loop_vars :=
  match frames with
  | [] => ret v
  | fr :: rest => let* v' := loop_body fr v in read_loop rest v'
  end.

(** Lines 113-162: the sampling stage. *)
Definition sample_frames (cap : capture) : M loop_vars :=
  let v0 := LoopVars [] [] 0 in
  let* v := if cap_opened cap then read_loop (cap_frames cap) v0
            else ret v0 in
  emit EvRelease;;
  ret v.

End WithQuery.

(** Lines 197-198. *)
Definition final_timestamps (product_timestamps : list Z)
    (base_summary : string) : list Z :=
  if match product_timestamps with [] => true | _ => false end
     || PyStr.contains "not visible" (PyStr.lower base_summary)
  then []
  else product_timestamps.

(** Lines 204-207 and 216-219. *)
Definition choose_product_name (base_summary user_question : string)
  : M (option string) :=
  let product_name := extract_product_name w base_summary in
  let product_name :=
    if negb (PyStr.truthy product_name)
       || match product_name with
          | Some n => String.eqb (PyStr.lower n) "unknown"
          | None => false
          end
    then extract_product_name w user_question
    else product_name in
  emit (EvPrint ("[🛍️ Extracted Product Name]: "
                 ++ match product_name with
                    | Some n => n
                    | None => "None"
                    end));;
  ret product_name.

(** Lines 200-212: the branch taken for an image suffix. *)
Definition image_branch (video_path user_question base_summary
    combined_text : string) (product_timestamps : list Z) : M analysis :=
  let* response :=
    extract_products_from_image (UserFile video_path) user_question
      None None in
  let* evaluation_result :=
    evaluate_summary_accuracy user_question base_summary combined_text in
  emit (EvPrint (String "010" "--- Evaluation Summary ---"));;
  emit (EvPrint evaluation_result);;
  let* product_name := choose_product_name base_summary user_question in
  ret (Analysis base_summary product_timestamps product_name).

(** Lines 213-224: the branch taken otherwise. *)
Definition default_branch (user_question base_summary
    combined_text : string) (product_timestamps : list Z) : M analysis :=
  let* evaluation_result :=
    evaluate_summary_accuracy user_question base_summary combined_text in
  emit (EvPrint (String "010" "--- Evaluation Summary ---"));;
  emit (EvPrint evaluation_result);;
  let* product_name := choose_product_name base_summary user_question in
  ret (Analysis base_summary product_timestamps product_name).

Definition is_image_path (video_path : string) : bool :=
  existsb (fun suffix => PyStr.endswith suffix (PyStr.lower video_path))
          [".jpg"; ".jpeg"; ".png"].

(** Lines 164-194: the evidence document and the summary call. *)
Definition combined_text_of (frame_responses : list string) : string :=
  PyStr.join (String "010" (String "010" EmptyString)) frame_responses.

Definition summarize (user_question combined_text : string) : M string :=
  let* content := chat (SummaryReq user_question combined_text) in
  ret (PyStr.strip content).

(** Lines 194-224: everything after the summary call. *)
Definition finish (video_path user_question base_summary
    combined_text : string) (product_timestamps : list Z) : M analysis :=
  let product_timestamps :=
    final_timestamps product_timestamps base_summary in
  if is_image_path video_path
  then image_branch video_path user_question base_summary combined_text
         product_timestamps
  else default_branch user_question base_summary combined_text
         product_timestamps.

Definition analyze_video_for_query (video_path user_question : string)
    (frame_interval : Z) : M analysis :=
  let cap := VideoCapture w video_path in
  let fps := cap_get cap_fps cap in
  let* total_frames :=
    lift (PyFloat.int_of_float (cap_get cap_frame_count cap)) in
  let* v := sample_frames user_question frame_interval fps total_frames cap in
  let combined_text := combined_text_of (frame_responses v) in
  let* base_summary := summarize user_question combined_text in
  finish video_path user_question base_summary combined_text
    (product_timestamps v).

End WithWorld.

Definition default_frame_interval : Z := 23.

(** *** The pipeline seen as data

    The Frame Sampler's output, and what the loop derives from one sampled
    frame, written without the state: the theorems below relate the loop to
    them. *)

(** The frames the loop analyses, with their indices: those whose index,
    counted from [index], is a multiple of the interval. *)
Fixpoint sampled (frame_interval index : Z) (frames : list frame)
  : list (Z * frame) :=
  match frames with
  | [] => []
  | fr :: rest =>
      if index mod frame_interval =? 0
      then (index, fr) :: sampled frame_interval (index + 1) rest
      else sampled frame_interval (index + 1) rest
  end.

(** What the [except] block returns for an exception. *)
Definition error_response (frame_number : option Z) (e : exn) : string :=
  if PyStr.contains "timeout" (PyStr.lower (exn_msg e))
  then skipped_timeout frame_number
  else if existsb (fun net_err =>
                     PyStr.contains net_err (PyStr.lower (exn_msg e)))
                  ["connection"; "network"; "connect"]
  then skipped_connection frame_number
  else skipped_other frame_number (exn_type e).

(** The text the per-frame call returns for frame [i] with timestamp [t]
    and image bytes [fr]. *)
Definition frame_response (w : world) (user_question : string) (i t : Z)
    (fr : frame) : string :=
  if credentials_loaded w
  then match chat_completions_create w
               (VisionReq (Some (i, t)) user_question fr) with
       | Ok content => PyStr.strip content
       | Raise e => error_response (Some i) e
       end
  else credentials_error.

(** A FrameAnalysis: index, timestamp, response text and whether the
    timestamp counts as positive evidence. *)
Record frame_analysis : Type := FrameAnalysis {
  fa_index : Z;
  fa_timestamp : Z;
  fa_response : string;
  fa_positive : bool
}.

Definition fa_entry (a : frame_analysis) : string :=
  frame_entry (fa_index a) (fa_timestamp a) (fa_response a).

Definition fa_evidence (a : frame_analysis) : option Z :=
  if fa_positive a then Some (fa_timestamp a) else None.

Definition analysis_of_frame (w : world) (user_question : string)
    (fps : spec_float) (total_frames : Z) (i : Z) (fr : frame)
  : result frame_analysis :=
  rbind (timestamp_ms i fps) (fun t =>
  rbind (end_threshold_ms total_frames fps) (fun threshold =>
  let response := frame_response w user_question i t fr in
  Ok (FrameAnalysis i t response
        (counts_as_evidence response t threshold)))).

Fixpoint analyses_of (w : world) (user_question : string)
    (fps : spec_float) (total_frames : Z) (l : list (Z * frame))
  : result (list frame_analysis) :=
  match l with
  | [] => Ok []
  | (i, fr) :: rest =>
      rbind (analysis_of_frame w user_question fps total_frames i fr)
        (fun a =>
      rbind (analyses_of w user_question fps total_frames rest) (fun l' =>
      Ok (a :: l')))
  end.

(** The three conditions of the classification policy, on the lower-cased
    response text. *)
Definition positive_policy (response : string) (t : Z)
    (threshold : spec_float) : Prop :=
  (exists k, In k presence_keywords
             /\ PyStr.contains k (PyStr.lower response) = true)
  /\ (forall k, In k uncertainty_keywords ->
                PyStr.contains k (PyStr.lower response) = false)
  /\ (PyFloat.int_lt_float t threshold = true
      \/ PyStr.contains "end" (PyStr.lower response) = false).

(** The frames a capture delivers to the loop. *)
Definition frames_read (cap : capture) : list frame :=
  if cap_opened cap then cap_frames cap else [].

(** Lines 204-207 and 216-219 without the print. *)
Definition chosen_name (w : world) (base_summary user_question : string)
  : option string :=
  let product_name := extract_product_name w base_summary in
  if negb (PyStr.truthy product_name)
     || match product_name with
        | Some n => String.eqb (PyStr.lower n) "unknown"
        | None => false
        end
  then extract_product_name w user_question
  else product_name.

End Analyze.

(** ** Exact values

    The arithmetic of the specification is that of the rationals; the
    program computes in binary64.  The two are compared through the exact
    value of a float. *)

Module Exact.
Import Analyze.

(** The exact value of a float: [m * 2^e] with its sign; none for an
    infinity or a NaN. *)
Definition value (f : spec_float) : option Q :=
  match f with
  | S754_zero _ => Some (inject_Z 0)
  | S754_finite s m e =>
      Some (if 0 <=? e
            then inject_Z (cond_Zopp s (Zpos m) * 2 ^ e)
            else Qmake (cond_Zopp s (Zpos m)) (2 ^ Z.to_pos (- e)))
  | _ => None
  end.

(** The integer [n] is strictly below the value of the float [f]. *)
Definition below (n : Z) (f : spec_float) : Prop :=
  match f with
  | S754_infinity false => True
  | _ => exists r, value f = Some r /\ Qlt (inject_Z n) r
  end.

(** The timestamp as the specification words it: [floor(i / fps * 1000)]
    in exact arithmetic. *)
Definition claimed_timestamp_ms (i : Z) (fps : spec_float) : option Z :=
  match value fps with
  | Some r =>
      if Qeq_bool r (inject_Z 0) then None
      else Some (Qfloor (Qmult (Qdiv (inject_Z i) r) (inject_Z 1000)))
  | None => None
  end.

(** The timestamp in binary64: the floor of the value of
    [(float(i) / fps) * 1000.0], the quotient and the product each rounded
    to nearest; none when the product is not finite. *)
Definition rounded_timestamp_ms (i : Z) (fps : spec_float) : option Z :=
  let quotient := SFdiv 53 1024 (binary_normalize 53 1024 i 0 false) fps in
  let product := SFmul 53 1024 quotient PyFloat.f1000 in
  match value product with
  | Some r => Some (Qfloor r)
  | None => None
  end.

(** The end test as the specification words it: the timestamp is strictly
    less than 90% of the duration [total_frames / fps * 1000], in exact
    arithmetic. *)
Definition claimed_before_end (t total_frames : Z) (fps : spec_float)
  : Prop :=
  exists r,
    value fps = Some r /\ ~ Qeq r (inject_Z 0)
    /\ Qlt (inject_Z t)
           (Qmult (Qmake 9 10)
                  (Qmult (Qdiv (inject_Z total_frames) r) (inject_Z 1000))).

(** The classification policy as the specification words it. *)
Definition claimed_policy (response : string) (t total_frames : Z)
    (fps : spec_float) : Prop :=
  (exists k, In k presence_keywords
             /\ PyStr.contains k (PyStr.lower response) = true)
  /\ (forall k, In k uncertainty_keywords ->
                PyStr.contains k (PyStr.lower response) = false)
  /\ (claimed_before_end t total_frames fps
      \/ PyStr.contains "end" (PyStr.lower response) = false).

(** 90% of the duration in binary64: the value of
    [(float(total_frames) / fps) * 1000.0 * 0.9], each operation rounded to
    nearest. *)
Definition rounded_end_threshold (total_frames : Z) (fps : spec_float)
  : spec_float :=
  SFmul 53 1024
    (SFmul 53 1024
       (SFdiv 53 1024 (binary_normalize 53 1024 total_frames 0 false) fps)
       PyFloat.f1000)
    PyFloat.f0_9.

(** The policy with the end test in binary64. *)
Definition rounded_policy (response : string) (t total_frames : Z)
    (fps : spec_float) : Prop :=
  (exists k, In k presence_keywords
             /\ PyStr.contains k (PyStr.lower response) = true)
  /\ (forall k, In k uncertainty_keywords ->
                PyStr.contains k (PyStr.lower response) = false)
  /\ (below t (rounded_end_threshold total_frames fps)
      \/ PyStr.contains "end" (PyStr.lower response) = false).

End Exact.

(** ** [google_vision.py] *)

Module GoogleVision.

(** The [ProductDetection] dataclass. *)
Record ProductDetection : Type := Build_ProductDetection {
  name : string;
  brand : string;
  category : string;
  confidence : spec_float;
  description : string;
  attributes : list (string * string);
  bounding_box : option (list (string * string))
}.

(** [product.confidence = c] *)
Definition set_confidence (c : spec_float) (p : ProductDetection)
  : ProductDetection :=
  Build_ProductDetection (name p) (brand p) (category p) c (description p)
    (attributes p) (bounding_box p).

Section CaseMapping.

(** [str.lower]: the case mapping of the interpreter's Unicode tables.  It
    is applied to arbitrary product and query text; the model takes it as a
    parameter and assumes nothing of it. *)
Variable str_lower : string -> string.

(** Lines 288-304: the similarity score of one product. *)
Definition similarity_score (product : ProductDetection)
    (search_lower : string) : result spec_float :=
  let similarity_score := PyFloat.f0_0 in
  let similarity_score :=
    if PyStr.contains (str_lower (brand product)) search_lower
    then PyFloat.fadd similarity_score PyFloat.f0_4
    else similarity_score in
  let similarity_score :=
    if PyStr.contains (str_lower (category product)) search_lower
    then PyFloat.fadd similarity_score PyFloat.f0_3
    else similarity_score in
  let name_words := PyStr.split (str_lower (name product)) in
  let search_words := PyStr.split search_lower in
  let common_words : gset string :=
    list_to_set name_words ∩ list_to_set search_words in
  if negb (size common_words =? 0)%nat
  then
    rbind (PyFloat.len_truediv (size common_words) (length search_words))
      (fun ratio =>
         Ok (PyFloat.fadd similarity_score (PyFloat.fmul PyFloat.f0_3 ratio)))
  else Ok similarity_score.

(** Lines 286-308: the loop over the detected products. *)
Fixpoint collect_similar (search_lower : string)
    (detected_products similar_products : list ProductDetection)
  : result (list ProductDetection) :=
  match detected_products with
  | [] => Ok similar_products
  | product :: rest =>
      rbind (similarity_score product search_lower) (fun score =>
      if PyFloat.fltb PyFloat.f0_5 score
      then collect_similar search_lower rest
             (similar_products ++ [set_confidence score product])
      else collect_similar search_lower rest similar_products)
  end.

(** [list.sort(key=lambda x: x.confidence, reverse=True)]: a stable sort
    into descending order of the key, using only [<] on keys. *)
Fixpoint insert_desc (p : ProductDetection) (sorted : list ProductDetection)
  : list ProductDetection :=
  match sorted with
  | [] => [p]
  | q :: rest =>
      if PyFloat.fltb (confidence q) (confidence p)
      then p :: sorted
      else q :: insert_desc p rest
  end.

Definition sort_by_confidence_desc (l : list ProductDetection)
  : list ProductDetection :=
  fold_left (fun sorted p => insert_desc p sorted) l [].

Definition find_similar_products (detected_products : list ProductDetection)
    (search_query : string) : result (list ProductDetection) :=
  let search_lower := str_lower search_query in
  rbind (collect_similar search_lower detected_products []) (fun similar =>
  Ok (sort_by_confidence_desc similar)).

(** *** The result seen as data *)

(** The products kept by the threshold, each with its score as
    confidence, in the order of the input. *)
Fixpoint similar_of (search_lower : string)
    (detected_products : list ProductDetection) : list ProductDetection :=
  match detected_products with
  | [] => []
  | product :: rest =>
      match similarity_score product search_lower with
      | Ok score =>
          if PyFloat.fltb PyFloat.f0_5 score
          then set_confidence score product :: similar_of search_lower rest
          else similar_of search_lower rest
      | Raise _ => similar_of search_lower rest
      end
  end.

End CaseMapping.

(** The confidence is a number. *)
Definition has_number (p : ProductDetection) : Prop :=
  PyFloat.is_nan (confidence p) = false.

(** [a] may stand before [b] in a list of non-increasing confidence. *)
Definition confidence_ge (a b : ProductDetection) : Prop :=
  SFleb (confidence b) (confidence a) = true.

End GoogleVision.

(** ** Sample inputs

    Concrete environments on which the definitions are run: a ten-frame
    video at one frame per second, a model that sees the product on frames
    0 to 4 only, and variations of it. *)

Module Samples.
Import Analyze GoogleVision.

Definition f1 : spec_float := S754_finite false 4503599627370496 (-52).
Definition f10 : spec_float := S754_finite false 5629499534213120 (-49).
Definition f30 : spec_float := S754_finite false 8444249301319680 (-48).

Definition shelf_video : capture :=
  Capture true f1 f10 ["f0"; "f1"; "f2"; "f3"; "f4"; "f5"; "f6"; "f7"; "f8"; "f9"].

Definition no_video : capture := Capture false f30 f10 ["f0"].

(** The vision model; with [timeout_at = Some n] the request for frame
    [n] fails with a timeout. *)
Definition shelf_chat (timeout_at : option Z) (summary : string)
    (r : request) : result string :=
  match r with
  | VisionReq (Some (n, _)) _ _ =>
      if match timeout_at with Some k => n =? k | None => false end
      then Raise (Exn "APITimeoutError" "Request Timeout after 30 seconds")
      else if n <? 5
           then Ok "The detergent is located on shelf 2. "
           else Ok "The requested product is not visible in this frame."
  | VisionReq None _ _ => Ok "A shelf with detergents."
  | SummaryReq _ _ => Ok summary
  | EvalReq _ _ _ => Ok "Accuracy Score (0-100)%: 100"
  end.

Definition shelf_world (api_key : option string)
    (timeout_at : option Z) (summary : string) : world :=
  World (Some "https://example.openai.azure.com") (Some "gpt-4o")
        (Some "2024-02-01") api_key
        (fun video_path =>
           if String.eqb video_path "shelf.mp4" then shelf_video
           else no_video)
        (fun name =>
           if String.eqb name "shelf.jpg" then Ok "JPEG"
           else Raise (Exn "FileNotFoundError"
                         "[Errno 2] No such file or directory"))
        (shelf_chat timeout_at summary)
        (fun text =>
           if PyStr.contains "product_name = Tide" text
           then Some "Tide" else Some "unknown").

Definition found_summary : string :=
  "The detergent is on shelf 2." ++ String "010" "product_name = Tide".

Definition demo_world : world := shelf_world (Some "key") None found_summary.

Definition flaky_world : world :=
  shelf_world (Some "key") (Some 3) found_summary.

Definition denying_world : world :=
  shelf_world (Some "key") None "The detergent is Not Visible in the video.".

Definition keyless_world : world := shelf_world None None found_summary.

Definition s0 : state := State ∅ [].

Definition v0 : loop_vars := LoopVars [] [] 0.

Definition question : string := "Where is the Tide detergent?".

(** The loop variables and the state after the first frame of
    [shelf_video] in [demo_world]. *)
Definition v1 : loop_vars :=
  LoopVars [frame_entry 0 0 "The detergent is located on shelf 2."] [0] 0.

Definition s1 : state :=
  State ∅ [EvTmpCreate 0; EvReadFile (TmpFile 0);
           EvChat (VisionReq (Some (0, 0)) question "f0"); EvTmpRemove 0].

(** The loop variables before frame 3. *)
Definition v3 : loop_vars :=
  LoopVars [frame_entry 0 0 "The detergent is located on shelf 2.";
            frame_entry 1 1000 "The detergent is located on shelf 2.";
            frame_entry 2 2000 "The detergent is located on shelf 2."]
           [0; 1000; 2000] 3.

(** The loop variables after sampling [shelf_video] every fourth frame. *)
Definition v4 : loop_vars :=
  LoopVars [frame_entry 0 0 "The detergent is located on shelf 2.";
            frame_entry 4 4000 "The detergent is located on shelf 2.";
            frame_entry 8 8000
              "The requested product is not visible in this frame."]
           [0; 4000] 10.

Definition s4 : state :=
  State ∅ [EvTmpCreate 0; EvReadFile (TmpFile 0);
           EvChat (VisionReq (Some (0, 0)) question "f0"); EvTmpRemove 0;
           EvTmpCreate 0; EvReadFile (TmpFile 0);
           EvChat (VisionReq (Some (4, 4000)) question "f4"); EvTmpRemove 0;
           EvTmpCreate 0; EvReadFile (TmpFile 0);
           EvChat (VisionReq (Some (8, 8000)) question "f8"); EvTmpRemove 0;
           EvRelease].

Definition timeout_error : exn :=
  Exn "APITimeoutError" "Request Timeout after 30 seconds".

Definition denied : analysis :=
  Analysis "The detergent is Not Visible in the video." [] (Some "unknown").

(** 90% of ten seconds, in milliseconds. *)
Definition f9000 : spec_float := S754_finite false 4947802324992000 (-39).

Definition tide : ProductDetection :=
  Build_ProductDetection "Tide Pods Detergent" "Tide" "Detergent"
    PyFloat.f0_0 "pods" [] None.

Definition coke : ProductDetection :=
  Build_ProductDetection "Coca Cola" "Coke" "Soda" PyFloat.f0_0 "can" [] None.

Definition tide_liquid : ProductDetection :=
  Build_ProductDetection "Tide Liquid" "Tide" "Laundry" PyFloat.f0_0
    "bottle" [] None.

(** A video of 250 frames at 30 frames per second, whose frame 225, at
    7500 ms, is exactly at 90% of the duration, and a model that sees the
    product at the end of the aisle on every frame. *)
Definition f250 : spec_float := S754_finite false 8796093022208000 (-45).

Definition aisle_video : capture :=
  Capture true f30 f250 (repeat "frame" 250).

Definition seen_at_the_end : string :=
  "The product is located at the end of the aisle.".

Definition aisle_world : world :=
  World (Some "https://example.openai.azure.com") (Some "gpt-4o")
        (Some "2024-02-01") (Some "key")
        (fun _ => aisle_video)
        (read_file demo_world)
        (fun r => match r with
                  | VisionReq _ _ _ => Ok seen_at_the_end
                  | _ => chat_completions_create demo_world r
                  end)
        (extract_product_name demo_world).

(** The loop variables before and after frame 225. *)
Definition v225 : loop_vars := LoopVars [] [] 225.

Definition v225_counted : loop_vars :=
  LoopVars [frame_entry 225 7500 seen_at_the_end] [7500] 225.

End Samples.

(** ** The trace of the pipeline seen as data *)

Module Pipeline.
Import Analyze.

Definition is_print (e : event) : Prop := exists line, e = EvPrint line.

(** What the loop adds to the trace for one sampled frame with analysis [a]
    and image bytes [fr], the temporary file being [n]: creation, read, the
    request with the frame context when the credentials are loaded (followed
    by what the [except] block prints, if anything), removal. *)
Definition frame_events (w : world) (user_question : string) (n : nat)
    (a : frame_analysis) (fr : frame) (seg : list event) : Prop :=
  exists prints,
    seg = EvTmpCreate n :: EvReadFile (TmpFile n)
            :: (if credentials_loaded w
                then EvChat (VisionReq (Some (fa_index a, fa_timestamp a))
                               user_question fr) :: prints
                else [])
            ++ [EvTmpRemove n]
    /\ Forall is_print prints.

(** What the image branch adds before the evaluation: the read of the file
    and, when it succeeds and the credentials are loaded, one request
    without frame context. *)
Definition image_events (w : world) (video_path user_question : string)
    (seg : list event) : Prop :=
  exists tail,
    seg = EvReadFile (UserFile video_path) :: tail
    /\ match read_file w video_path with
       | Ok bytes =>
           if credentials_loaded w
           then exists prints,
                  tail = EvChat (VisionReq None user_question bytes) :: prints
                  /\ Forall is_print prints
           else tail = []
       | Raise _ => Forall is_print tail
       end.

(** The characters of [str(n)] for an [int]. *)
Definition is_digit_or_minus (c : ascii) : bool :=
  let n := nat_of_ascii c in
  (((48 <=? n) && (n <=? 57)) || (n =? 45))%nat.

Fixpoint all_chars (P : ascii -> bool) (s : string) : bool :=
  match s with
  | EmptyString => true
  | String c s' => P c && all_chars P s'
  end.

Fixpoint has_char (c : ascii) (s : string) : bool :=
  match s with
  | EmptyString => false
  | String c' s' => Ascii.eqb c c' || has_char c s'
  end.

End Pipeline.

(** ** More of the text runtime *)

Module PyText.

(** [len(s)]: the number of code points. *)
Fixpoint len (s : string) : nat :=
  match s with
  | EmptyString => O
  | String c s' => if PyStr.is_continuation c then len s' else S (len s')
  end.

Definition is_upper (c : ascii) : bool :=
  let n := nat_of_ascii c in ((65 <=? n) && (n <=? 90))%nat.

Definition is_lower (c : ascii) : bool :=
  let n := nat_of_ascii c in ((97 <=? n) && (n <=? 122))%nat.

Definition upper_char (c : ascii) : ascii :=
  if is_lower c then ascii_of_nat (nat_of_ascii c - 32) else c.

(** [s.title()]: a letter is upper-cased when the character before it is
    not a letter, lower-cased otherwise. *)
Fixpoint title_from (previous_is_cased : bool) (s : string) : string :=
  match s with
  | EmptyString => EmptyString
  | String c s' =>
      if is_upper c || is_lower c
      then String (if previous_is_cased then PyStr.lower_char c
                   else upper_char c)
                  (title_from true s')
      else String c (title_from false s')
  end.

Definition title (s : string) : string := title_from false s.

(** [s.split(sep)] for a one-character separator: the pieces between the
    separators, empty ones included. *)
Fixpoint split_on_from (sep : ascii) (cur : string) (s : string)
  : list string :=
  match s with
  | EmptyString => [cur]
  | String c s' =>
      if Ascii.eqb c sep
      then cur :: split_on_from sep EmptyString s'
      else split_on_from sep (cur ++ String c EmptyString) s'
  end.

Definition split_on (sep : ascii) (s : string) : list string :=
  split_on_from sep EmptyString s.

(** The first code point of a string, as a string. *)
Fixpoint continuation_prefix (s : string) : string :=
  match s with
  | EmptyString => EmptyString
  | String c s' =>
      if PyStr.is_continuation c then String c (continuation_prefix s')
      else EmptyString
  end.

End PyText.

(** ** Values decoded from JSON *)

#[warnings="-register-all"]
Inductive json : Type :=
| JNull
| JBool (b : bool)
| JInt (n : Z)
| JFloat (f : spec_float)
| JStr (s : string)
| JArr (items : list json)
| JObj (fields : gmap string json).

Module Json.

Definition type_name (v : json) : string :=
  match v with
  | JNull => "NoneType"
  | JBool _ => "bool"
  | JInt _ => "int"
  | JFloat _ => "float"
  | JStr _ => "str"
  | JArr _ => "list"
  | JObj _ => "dict"
  end.

(** [bool(v)] *)
Definition truthy (v : json) : bool :=
  match v with
  | JNull => false
  | JBool b => b
  | JInt n => negb (n =? 0)
  | JFloat f => PyFloat.truthy f
  | JStr s => match s with EmptyString => false | _ => true end
  | JArr items => match items with [] => false | _ => true end
  | JObj fields => negb (bool_decide (fields = ∅))
  end.

(** [v.get(key, default)]: only a dictionary has the method. *)
Definition get (v : json) (key : string) (default : json) : result json :=
  match v with
  | JObj fields =>
      Ok (match fields !! key with Some x => x | None => default end)
  | _ => Raise (Exn "AttributeError"
                  ("'" ++ type_name v ++ "' object has no attribute 'get'"))
  end.

(** [v[0]] *)
Definition index0 (v : json) : result json :=
  match v with
  | JArr (x :: _) => Ok x
  | JArr [] => Raise (Exn "IndexError" "list index out of range")
  | JStr (String c s) => Ok (JStr (String c (PyText.continuation_prefix s)))
  | JStr EmptyString => Raise (Exn "IndexError" "string index out of range")
  | JObj _ => Raise (Exn "KeyError" "0")
  | _ => Raise (Exn "TypeError"
                  ("'" ++ type_name v ++ "' object is not subscriptable"))
  end.

(** [v.lower()]: only a string has the method; [str_lower] is the case
    mapping of the interpreter. *)
Definition lower (str_lower : string -> string) (v : json) : result string :=
  match v with
  | JStr s => Ok (str_lower s)
  | _ => Raise (Exn "AttributeError"
                  ("'" ++ type_name v ++ "' object has no attribute 'lower'"))
  end.

End Json.

(** ** More of [google_vision.py] *)

Module Detector.
Import Analyze GoogleVision.

Definition f0_6 : spec_float := S754_finite false 5404319552844595 (-53).
Definition f0_7 : spec_float := S754_finite false 6305039478318694 (-53).
Definition f0_8 : spec_float := S754_finite false 7205759403792794 (-53).

(** [_extract_attributes], lines 223-234.  The values of the dictionary are
    of any type [V]. *)
Definition attr_fields : list string :=
  ["color"; "size"; "material"; "weight"; "volume"].

Definition _extract_attributes {V : Type} (product_info : gmap string V)
  : gmap string V :=
  fold_left (fun attributes field =>
               match product_info !! field with
               | Some v => <[field := v]> attributes
               | None => attributes
               end)
            attr_fields ∅.

(** [_parse_text_to_products], lines 257-278: what one line contributes. *)
Definition product_of_line (line : string) : option ProductDetection :=
  let line := PyStr.strip line in
  if (5 <? PyText.len line)%nat
  then
    let words := PyStr.split line in
    if (2 <=? length words)%nat
    then Some (Build_ProductDetection line
                 (match words with w :: _ => w | [] => "Unknown" end)
                 "Product" f0_6 line [("source", "text_analysis")] None)
    else None
  else None.

Definition _parse_text_to_products (text : string) : list ProductDetection :=
  let lines := PyText.split_on "010" text in
  firstn 5 (omap product_of_line lines).

(** [_fallback_product_detection], lines 236-255.  [imported] is the outcome
    of the import statement; the value the analysis returns is a string,
    which has no method [get]. *)
Definition fallback_question : string :=
  "What products do you see in this image? List the brand names and product types.".

Definition _fallback_product_detection (w : world) (imported : result unit)
    (image_path : string) : M (list ProductDetection) :=
  try_except
    (lift imported;;
     let* result :=
       extract_products_from_image w (UserFile image_path) fallback_question
         None None in
     match result with
     | EmptyString => ret []
     | _ => raise (Exn "AttributeError"
                     "'str' object has no attribute 'get'")
     end)
    (fun e =>
       emit (EvPrint ("âŒ Fallback detection error: " ++ exn_msg e));;
       ret []).

(** [_extract_products_from_text], lines 169-210. *)
Definition brand_patterns : list (string * string) :=
  [("tide", "Detergent"); ("surf", "Detergent"); ("ariel", "Detergent");
   ("vim", "Dishwash"); ("dettol", "Antiseptic"); ("lux", "Soap");
   ("dove", "Soap"); ("pantene", "Shampoo");
   ("head & shoulders", "Shampoo"); ("colgate", "Toothpaste");
   ("oral-b", "Toothpaste"); ("maggi", "Food"); ("nestle", "Food");
   ("coca-cola", "Beverage"); ("pepsi", "Beverage")].

Definition brand_product (brand category : string) : ProductDetection :=
  Build_ProductDetection (PyText.title brand ++ " Product")
    (PyText.title brand) category f0_8
    ("Detected " ++ brand ++ " brand product")
    [("source", "text_detection")] None.

Definition products_in_text (full_text : string) : list ProductDetection :=
  omap (fun '(brand, category) =>
          if PyStr.contains brand full_text
          then Some (brand_product brand category)
          else None)
       brand_patterns.

Section CaseMapping.

(** [str.lower], as in [GoogleVision]. *)
Variable str_lower : string -> string.

Definition _extract_products_from_text (vision_response : json)
  : result (list ProductDetection) :=
  rbind (Json.get vision_response "textAnnotations" (JArr []))
    (fun text_annotations =>
  if negb (Json.truthy text_annotations) then Ok []
  else
    rbind (Json.index0 text_annotations) (fun first =>
    rbind (Json.get first "description" (JStr EmptyString))
      (fun description =>
    rbind (Json.lower str_lower description) (fun full_text =>
    Ok (products_in_text full_text))))).

(** [find_similar_products], lines 299-303: no word of the name of the
    product is a word of the query. *)
Definition no_common_word (search_query : string) (p : ProductDetection)
  : Prop :=
  size (list_to_set (PyStr.split (str_lower (name p)))
        ∩ list_to_set (PyStr.split (str_lower search_query))
        : gset string) = 0%nat.

(** Lines 291-296: the brand and the category both occur in the query. *)
Definition brand_and_category_in (search_query : string)
    (p : ProductDetection) : bool :=
  PyStr.contains (str_lower (brand p)) (str_lower search_query)
  && PyStr.contains (str_lower (category p)) (str_lower search_query).

End CaseMapping.

(** The description of the first text annotation of a response, when the
    response has that shape; a first annotation without description counts
    as the empty text. *)
Definition first_description (vision_response : json) : option string :=
  match vision_response with
  | JObj fields =>
      match fields !! "textAnnotations" with
      | Some (JArr (JObj first :: _)) =>
          match first !! "description" with
          | Some (JStr text) => Some text
          | None => Some EmptyString
          | _ => None
          end
      | _ => None
      end
  | _ => None
  end.

End Detector.

(** ** More sample inputs *)

Module MoreSamples.
Import Analyze GoogleVision Detector Samples.

(** A source that opens and reports a frame rate of zero. *)
Definition still_video : capture := Capture true PyFloat.f0_0 f10 ["f0"].

Definition still_world : world :=
  World (Some "https://example.openai.azure.com") (Some "gpt-4o")
        (Some "2024-02-01") (Some "key")
        (fun _ => still_video)
        (read_file demo_world)
        (chat_completions_create demo_world)
        (extract_product_name demo_world).

(** The analysis of [shelf_video] in [demo_world], every fourth frame. *)
Definition found_every_fourth : analysis :=
  Analysis found_summary [0; 4000] (Some "Tide").

(** The same without credentials. *)
Definition found_without_key : analysis :=
  Analysis found_summary [] (Some "Tide").

(** Frame 3 of [shelf_video] in [flaky_world]. *)
Definition skipped_frame_3 : frame_analysis :=
  FrameAnalysis 3 3000 "[Skipped frame 3 due to timeout. Try again later.]"
    false.

(** A response of the vision service with one text annotation. *)
Definition annotated (text : string) : json :=
  JObj (<["textAnnotations" :=
            JArr [JObj (<["description" := JStr text]> ∅)]]> ∅).

Definition ariel : ProductDetection :=
  Build_ProductDetection "Matic Powder" "Ariel" "Detergent" PyFloat.f0_0
    "box" [] None.

(** A case mapping for the samples: [str.lower] on text of ASCII and
    Latin-1 letters (the capitals U+00C0 to U+00DE without the
    multiplication sign U+00D7 are 32 below their small letters). *)
Definition latin1_lower_byte (c : ascii) : ascii :=
  let n := nat_of_ascii c in
  if ((128 <=? n) && (n <=? 158) && negb (n =? 151))%nat
  then ascii_of_nat (n + 32) else c.

Fixpoint latin1_lower (s : string) : string :=
  match s with
  | EmptyString => EmptyString
  | String c s' =>
      if (nat_of_ascii c =? 195)%nat
      then match s' with
           | String d s'' =>
               String c (String (latin1_lower_byte d) (latin1_lower s''))
           | EmptyString => s
           end
      else String (PyStr.lower_char c) (latin1_lower s')
  end.

Definition nestle_milk : ProductDetection :=
  Build_ProductDetection "Milk" "NESTLÉ" "Food" PyFloat.f0_0 "carton" []
    None.

Definition nestle_named : ProductDetection :=
  Build_ProductDetection "Nestlé Milk" "NESTLÉ" "Food" PyFloat.f0_0
    "carton" [] None.

End MoreSamples.

(** * Properties *)

(** ** Floats *)

Module PyFloatFacts.
Import PyFloat.

(** The constants are the doubles nearest to the decimal literals. *)
Example literal_1000 : Prim2SF 1000%float = f1000.
Proof. vm_compute. reflexivity. Qed.

Example literal_0_5 : Prim2SF 0.5%float = f0_5.
Proof. vm_compute. reflexivity. Qed.

Example literal_0_9 : Prim2SF 0x1.ccccccccccccdp-1%float = f0_9.
Proof. vm_compute. reflexivity. Qed.

Example literal_0_4 : Prim2SF 0x1.999999999999ap-2%float = f0_4.
Proof. vm_compute. reflexivity. Qed.

Example literal_0_3 : Prim2SF 0x1.3333333333333p-2%float = f0_3.
Proof. vm_compute. reflexivity. Qed.

Lemma binary_round_aux_sign (sx : bool) (mx ex : Z) (lx : location) :
  match binary_round_aux prec emax sx mx ex lx with
  | S754_nan => True
  | S754_zero s | S754_infinity s | S754_finite s _ _ => s = sx
  end.
Proof.
  unfold binary_round_aux.
  destruct (shr_fexp prec emax mx ex lx) as [mrs1 e1].
  destruct (shr_fexp prec emax _ e1 loc_Exact) as [mrs2 e2].
  destruct (shr_m mrs2); trivial.
  destruct (e2 <=? emax - prec); trivial.
Qed.

Lemma binary_normalize_not_negative (n : Z) :
  0 <= n -> not_negative (binary_normalize prec emax n 0 false).
Proof.
  intros Hn. destruct n as [|p|p]; simpl; [reflexivity| |lia].
  unfold binary_round.
  destruct (shl_align p 0 _) as [mz ez].
  exact (binary_round_aux_sign false (Zpos mz) ez loc_Exact).
Qed.

Lemma float_of_int_not_negative (n : Z) (x : spec_float) :
  0 <= n -> float_of_int n = Ok x -> not_negative x.
Proof.
  intros Hn. unfold float_of_int.
  pose proof (binary_normalize_not_negative n Hn) as H.
  destruct (binary_normalize prec emax n 0 false); intros E;
    inversion E; subst; exact H.
Qed.

Lemma fdiv_not_negative (x y : spec_float) :
  not_negative x -> not_negative y -> not_negative (fdiv x y).
Proof.
  destruct x as [sx|sx| |sx mx ex], y as [sy|sy| |sy my ey];
    simpl; intros Hx Hy; subst; trivial.
  destruct (SFdiv_core_binary prec emax (Zpos mx) ex (Zpos my) ey)
    as [[mz ez] lz].
  exact (binary_round_aux_sign false mz ez lz).
Qed.

Lemma fmul_not_negative (x y : spec_float) :
  not_negative x -> not_negative y -> not_negative (fmul x y).
Proof.
  destruct x as [sx|sx| |sx mx ex], y as [sy|sy| |sy my ey];
    simpl; intros Hx Hy; subst; trivial.
  exact (binary_round_aux_sign false (Zpos (mx * my)) (ex + ey) loc_Exact).
Qed.

(** [0 < f] holds for the positive finite floats and for [+inf] only. *)
Lemma positive_not_negative (f : spec_float) :
  fltb f0_0 f = true -> not_negative f /\ truthy f = true.
Proof.
  destruct f as [s|s| |s m e]; simpl; try discriminate;
    destruct s; simpl; try discriminate; auto.
Qed.

End PyFloatFacts.

(** ** Strings *)

Module PyStrFacts.
Import PyStr.

Lemma startswith_spec (p s : string) :
  startswith p s = true <-> exists post, s = (p ++ post)%string.
Proof.
  revert s. induction p as [|a p IH]; intros s; simpl.
  - split; [intros _; exists s; reflexivity | reflexivity].
  - destruct s as [|b s].
    + split; [discriminate | intros [post H]; discriminate].
    + rewrite andb_true_iff, Ascii.eqb_eq, IH. split.
      * intros [-> [post ->]]. exists post. reflexivity.
      * intros [post H]. inversion H; subst. split; [reflexivity|].
        exists post. reflexivity.
Qed.

(** [contains p s] decides whether [p] occurs in [s] as a substring. *)
Lemma contains_spec (p s : string) :
  contains p s = true <-> exists pre post, s = (pre ++ p ++ post)%string.
Proof.
  induction s as [|c s IH].
  - simpl. rewrite orb_false_r, startswith_spec. split.
    + intros [post H]. exists EmptyString, post. exact H.
    + intros [pre [post H]]. destruct pre; simpl in H.
      * exists post. exact H.
      * discriminate.
  - cbn [contains]. rewrite orb_true_iff, startswith_spec, IH. split.
    + intros [[post H] | [pre [post H]]].
      * exists EmptyString, post. exact H.
      * exists (String c pre), post. simpl. rewrite H. reflexivity.
    + intros [pre [post H]]. destruct pre as [|c' pre]; simpl in H.
      * left. exists post. exact H.
      * right. inversion H; subst. exists pre, post. reflexivity.
Qed.

Lemma existsb_contains (keywords : list string) (s : string) :
  existsb (fun k => contains k s) keywords = true
  <-> exists k, In k keywords /\ contains k s = true.
Proof. apply existsb_exists. Qed.

Lemma existsb_contains_false (keywords : list string) (s : string) :
  existsb (fun k => contains k s) keywords = false
  <-> forall k, In k keywords -> contains k s = false.
Proof.
  rewrite <- not_true_iff_false, existsb_contains. split.
  - intros H k Hk. apply not_true_iff_false. intros C. apply H. eauto.
  - intros H [k [Hk C]]. rewrite (H k Hk) in C. discriminate.
Qed.

End PyStrFacts.

(** ** Exact values and binary64 *)

Module ExactFacts.
Import PyFloat PyFloatFacts Analyze Exact.

Lemma pow_pos_value (e : Z) :
  e < 0 -> Zpos (2 ^ Z.to_pos (- e)) = 2 ^ (- e).
Proof.
  intros He. rewrite Pos2Z.inj_pow, Z2Pos.id by lia. reflexivity.
Qed.

(** [int()] of a float that is not negative is the floor of its value. *)
Lemma int_of_float_value (f : spec_float) (r : Q) :
  not_negative f -> value f = Some r -> int_of_float f = Ok (Qfloor r).
Proof.
  destruct f as [s|s| |s m e]; simpl; try discriminate.
  - intros _ E. inversion E; subst. reflexivity.
  - intros Hs E. subst s. inversion E; subst r; clear E. f_equal.
    cbn [cond_Zopp]. destruct (0 <=? e) eqn:He.
    + apply Z.leb_le in He. rewrite Qfloor_Z, Z.shiftl_mul_pow2 by lia.
      reflexivity.
    + apply Z.leb_gt in He. cbn [Qfloor].
      rewrite pow_pos_value by lia.
      rewrite <- (Z.opp_involutive e) at 1.
      rewrite Z.shiftl_opp_r, Z.shiftr_div_pow2 by lia. reflexivity.
Qed.

Lemma int_of_float_no_value (f : spec_float) :
  value f = None -> exists e, int_of_float f = Raise e.
Proof.
  destruct f; simpl; try discriminate; intros _; eexists; reflexivity.
Qed.

(** The exact comparison of an integer with a float. *)
Lemma int_lt_float_below (n : Z) (f : spec_float) :
  int_lt_float n f = true <-> below n f.
Proof.
  destruct f as [s|s| |s m e]; cbn [int_lt_float below value].
  - rewrite Z.ltb_lt. split.
    + intros H. eexists. split; [reflexivity|].
      rewrite Zlt_Qlt in H. exact H.
    + intros [r [E H]]. inversion E; subst. rewrite Zlt_Qlt. exact H.
  - destruct s; simpl; split; try discriminate; auto.
    intros [r [E _]]. discriminate.
  - split; [discriminate|]. intros [r [E _]]. discriminate.
  - destruct (0 <=? e) eqn:He.
    + rewrite Z.ltb_lt. split.
      * intros H. eexists. split; [reflexivity|]. rewrite Zlt_Qlt in H. exact H.
      * intros [r [E H]]. inversion E; subst. rewrite Zlt_Qlt. exact H.
    + apply Z.leb_gt in He. rewrite Z.ltb_lt. split.
      * intros H. eexists. split; [reflexivity|].
        unfold Qlt. cbn [Qnum Qden inject_Z].
        rewrite pow_pos_value by lia. lia.
      * intros [r [E H]]. inversion E; subst r; clear E.
        unfold Qlt in H. cbn [Qnum Qden inject_Z] in H.
        rewrite pow_pos_value in H by lia. lia.
Qed.

Lemma end_threshold_rounded (total_frames : Z) (fps thr : spec_float) :
  end_threshold_ms total_frames fps = Ok thr ->
  thr = rounded_end_threshold total_frames fps.
Proof.
  unfold end_threshold_ms, int_truediv_float, float_of_int, truediv,
    rounded_end_threshold.
  change (binary_normalize 53 1024 total_frames 0 false)
    with (binary_normalize prec emax total_frames 0 false).
  destruct (binary_normalize prec emax total_frames 0 false);
    cbn [rbind]; try discriminate;
    destruct (is_zero fps); cbn [rbind]; try discriminate;
    intros H; inversion H; subst; reflexivity.
Qed.

Lemma product_value (d fps : spec_float) :
  not_negative d -> not_negative fps ->
  match value (fmul (fdiv d fps) f1000) with
  | Some r => int_of_float (fmul (fdiv d fps) f1000) = Ok (Qfloor r)
  | None => exists e, int_of_float (fmul (fdiv d fps) f1000) = Raise e
  end.
Proof.
  intros Hd Hf.
  assert (Hp : not_negative (fmul (fdiv d fps) f1000)).
  { apply fmul_not_negative; [|reflexivity].
    apply fdiv_not_negative; assumption. }
  destruct (value (fmul (fdiv d fps) f1000)) as [r|] eqn:Hv.
  - exact (int_of_float_value _ r Hp Hv).
  - exact (int_of_float_no_value _ Hv).
Qed.

Lemma timestamp_rounded (i : Z) (fps : spec_float) :
  0 <= i -> fltb f0_0 fps = true ->
  match rounded_timestamp_ms i fps with
  | Some t => timestamp_ms i fps = Ok t
  | None => exists e, timestamp_ms i fps = Raise e
  end.
Proof.
  intros Hi Hf. pose proof Hf as Hpos.
  apply positive_not_negative in Hf as [Hn Ht].
  assert (Hz : is_zero fps = false)
    by (unfold truthy in Ht; apply negb_true_iff in Ht; exact Ht).
  unfold rounded_timestamp_ms, timestamp_ms, int_truediv_float, float_of_int,
    truediv.
  pose proof (binary_normalize_not_negative i Hi) as Hd.
  change (binary_normalize 53 1024 i 0 false)
    with (binary_normalize prec emax i 0 false).
  change (SFdiv 53 1024) with fdiv. change (SFmul 53 1024) with fmul.
  destruct (binary_normalize prec emax i 0 false) as [sd|sd| |sd md ed].
  - cbn [rbind]. rewrite Hz. cbn [rbind].
    pose proof (product_value (S754_zero sd) fps Hd Hn) as H.
    destruct (value _); exact H.
  - cbn [rbind].
    replace (value (fmul (fdiv (S754_infinity sd) fps) f1000))
      with (@None Q).
    + eexists. reflexivity.
    + destruct fps as [s|s| |s m e]; simpl in *; try discriminate;
        reflexivity.
  - cbn [rbind]. rewrite Hz. cbn [rbind].
    pose proof (product_value S754_nan fps Hd Hn) as H.
    destruct (value _); exact H.
  - cbn [rbind]. rewrite Hz. cbn [rbind].
    pose proof (product_value (S754_finite sd md ed) fps Hd Hn) as H.
    destruct (value _); exact H.
Qed.

End ExactFacts.

(** ** Timestamps *)

Module TimestampFacts.
Import PyFloat PyFloatFacts Analyze Exact ExactFacts.

(** C4. For a frame index [i >= 0] and a frame rate [fps > 0], the
    timestamp that the sampling loop computes is the floor of the binary64
    value of [(i / fps) * 1000], the quotient and the product each rounded
    to nearest (when that value is not finite, the computation raises); and
    the per-frame call, given the same index and rate, recomputes the same
    value for its location context. *)
Theorem timestamp_ms_is_floor (i : Z) (fps : spec_float) :
  0 <= i -> fltb f0_0 fps = true ->
  match rounded_timestamp_ms i fps with
  | Some t => timestamp_ms i fps = Ok t
  | None => exists e, timestamp_ms i fps = Raise e
  end
  /\ frame_context (Some i) (Some fps)
     = rbind (timestamp_ms i fps) (fun t => Ok (Some (i, t))).
Proof.
  intros Hi Hf. split; [exact (timestamp_rounded i fps Hi Hf)|].
  apply positive_not_negative in Hf as [_ Ht].
  unfold frame_context. rewrite Ht. reflexivity.
Qed.

End TimestampFacts.

(** ** The per-frame call *)

Module ExtractFacts.
Import Analyze.

(** The [except] block prints one line and returns the placeholder. *)
Lemma extract_handler_run (fn : option Z) (e : exn) (s : state) :
  exists line,
    extract_handler fn e s
    = (Ok (error_response fn e), State (tmpfs s) (trace s ++ [EvPrint line])).
Proof.
  unfold extract_handler, error_response.
  destruct (PyStr.contains "timeout" _); [eexists; reflexivity|].
  destruct (existsb _ _); eexists; reflexivity.
Qed.

Lemma prints_no_vision (l : list event) :
  Forall (fun e => exists line, e = EvPrint line) l ->
  vision_frame_numbers l = [].
Proof.
  induction 1 as [|ev l [line ->] _ IH]; [reflexivity|exact IH].
Qed.

(** The call on a readable image whose frame context is computed. *)
Lemma extract_run (w : world) (p : path) (q : string) (fn : option Z)
    (fps : option spec_float) (s : state) (bytes : string)
    (ctx : option (Z * Z)) :
  open_read w (tmpfs s) p = Ok bytes ->
  frame_context fn fps = Ok ctx ->
  exists prints,
    extract_products_from_image w p q fn fps s
    = (Ok (if credentials_loaded w
           then match chat_completions_create w (VisionReq ctx q bytes) with
                | Ok content => PyStr.strip content
                | Raise e => error_response fn e
                end
           else credentials_error),
       State (tmpfs s)
             (trace s ++ EvReadFile p
                :: (if credentials_loaded w
                    then EvChat (VisionReq ctx q bytes) :: prints
                    else [])))
    /\ Forall (fun e => exists line, e = EvPrint line) prints.
Proof.
  intros Hread Hctx.
  unfold extract_products_from_image, try_except, extract_body, encode_image,
    chat, bind, emit, lift, ret. simpl.
  rewrite Hread, Hctx.
  destruct (credentials_loaded w); simpl.
  - destruct (chat_completions_create w _) as [content|e].
    + exists []. rewrite <- app_assoc. simpl. auto.
    + destruct (extract_handler_run fn e
                  (State (tmpfs s)
                     ((trace s ++ [EvReadFile p])
                        ++ [EvChat (VisionReq ctx q bytes)]))) as [line ->].
      exists [EvPrint line]. simpl. rewrite <- !app_assoc. simpl.
      split; [reflexivity|]. constructor; eauto.
  - exists []. auto.
Qed.

(** The call never raises and leaves the temporary files alone, whatever
    the path, the credentials and the model do. *)
Lemma extract_total (w : world) (p : path) (q : string) (fn : option Z)
    (fps : option spec_float) (s : state) :
  exists r tr,
    extract_products_from_image w p q fn fps s
    = (Ok r, State (tmpfs s) (trace s ++ tr))
    /\ Forall (fun e => is_tmp_event e = false) tr.
Proof.
  destruct (open_read w (tmpfs s) p) as [bytes|e] eqn:Hread.
  - destruct (frame_context fn fps) as [ctx|e] eqn:Hctx.
    + destruct (extract_run w p q fn fps s bytes ctx Hread Hctx)
        as [prints [-> Hp]].
      eexists _, _. split; [reflexivity|].
      constructor; [reflexivity|].
      destruct (credentials_loaded w); [|constructor].
      constructor; [reflexivity|].
      eapply Forall_impl; [exact Hp|]. intros ev [line ->]. reflexivity.
    + unfold extract_products_from_image, try_except, extract_body,
        encode_image, bind, emit, lift, ret. simpl. rewrite Hread, Hctx.
      destruct (extract_handler_run fn e
                  (State (tmpfs s) (trace s ++ [EvReadFile p]))) as [line ->].
      simpl. rewrite <- app_assoc. simpl.
      eexists _, _. split; [reflexivity|]. repeat constructor.
  - unfold extract_products_from_image, try_except, extract_body,
      encode_image, bind, emit, lift, ret. simpl. rewrite Hread.
    destruct (extract_handler_run fn e
                (State (tmpfs s) (trace s ++ [EvReadFile p]))) as [line ->].
    simpl. rewrite <- app_assoc. simpl.
    eexists _, _. split; [reflexivity|]. repeat constructor.
Qed.

End ExtractFacts.

(** ** The sampling loop *)

Module LoopFacts.
Import Analyze ExtractFacts.

Lemma timestamp_ms_truthy (i t : Z) (fps : spec_float) :
  timestamp_ms i fps = Ok t -> PyFloat.truthy fps = true.
Proof.
  unfold timestamp_ms, PyFloat.int_truediv_float, PyFloat.truediv,
    PyFloat.truthy.
  destruct (PyFloat.float_of_int i); simpl; [|discriminate].
  destruct (PyFloat.is_zero fps); [discriminate|reflexivity].
Qed.

Lemma frame_context_in_loop (i t : Z) (fps : spec_float) :
  timestamp_ms i fps = Ok t ->
  frame_context (Some i) (Some fps) = Ok (Some (i, t)).
Proof.
  intros H. unfold frame_context.
  rewrite (timestamp_ms_truthy i t fps H), H. reflexivity.
Qed.

Section Loop.

Variables (w : world) (user_question : string) (frame_interval : Z).
Variables (fps : spec_float) (total_frames : Z).

Local Abbreviation analyze_frame :=
  (analyze_frame w user_question fps total_frames).
Local Abbreviation loop_body :=
  (loop_body w user_question frame_interval fps total_frames).
Local Abbreviation read_loop :=
  (read_loop w user_question frame_interval fps total_frames).
Local Abbreviation analysis_of_frame :=
  (analysis_of_frame w user_question fps total_frames).
Local Abbreviation analyses_of := (analyses_of w user_question fps total_frames).

(** One sampled frame: the temporary file is created under a fresh name,
    the call runs, and the file is removed; the store is as before. *)
Lemma analyze_frame_run (fr : frame) (v : loop_vars) (s : state)
    (a : frame_analysis) :
  analysis_of_frame (frame_index v) fr = Ok a ->
  exists mid,
    analyze_frame fr v s
    = (Ok (LoopVars (frame_responses v ++ [fa_entry a])
                    (product_timestamps v ++ option_list (fa_evidence a))
                    (frame_index v)),
       State (tmpfs s)
             (trace s ++ EvTmpCreate (fresh (dom (tmpfs s)))
                :: mid ++ [EvTmpRemove (fresh (dom (tmpfs s)))]))
    /\ Forall (fun e => is_tmp_event e = false) mid
    /\ vision_frame_numbers mid
       = if credentials_loaded w then [frame_index v] else [].
Proof.
  unfold Analyze.analysis_of_frame.
  destruct (timestamp_ms (frame_index v) fps) as [t|e] eqn:Ht;
    simpl; [|discriminate].
  destruct (end_threshold_ms total_frames fps) as [thr|e] eqn:Hthr;
    simpl; [|discriminate].
  intros E. inversion E; subst a; clear E.
  set (n := fresh (dom (tmpfs s))).
  assert (Hfresh : tmpfs s !! n = None).
  { apply not_elem_of_dom. apply is_fresh. }
  set (s2 := State (<[n := fr]> (<[n := EmptyString]> (tmpfs s)))
                   (trace s ++ [EvTmpCreate n])).
  destruct (extract_run w (TmpFile n) user_question
              (Some (frame_index v)) (Some fps) s2 fr
              (Some (frame_index v, t))) as [prints [Hrun Hprints]].
  { simpl. rewrite lookup_insert_eq. reflexivity. }
  { apply frame_context_in_loop. exact Ht. }
  exists (EvReadFile (TmpFile n)
            :: (if credentials_loaded w
                then EvChat (VisionReq (Some (frame_index v, t))
                               user_question fr) :: prints
                else [])).
  split; [|split].
  - unfold Analyze.analyze_frame, bind, named_temporary_file, imwrite,
      lift, os_remove, ret. simpl. rewrite Ht. fold n. fold s2.
    rewrite Hrun. simpl. rewrite Hthr. simpl.
    rewrite lookup_insert_eq, insert_insert_eq.
    rewrite delete_insert_id by exact Hfresh.
    unfold frame_response, fa_entry, fa_evidence. simpl.
    rewrite <- !app_assoc. simpl.
    destruct (counts_as_evidence _ t thr); simpl;
      rewrite ?app_nil_r; reflexivity.
  - constructor; [reflexivity|].
    destruct (credentials_loaded w); [|constructor].
    constructor; [reflexivity|].
    eapply Forall_impl; [exact Hprints|]. intros ev [line ->]. reflexivity.
  - unfold vision_frame_numbers. simpl.
    destruct (credentials_loaded w); [|reflexivity]. simpl.
    f_equal. exact (prints_no_vision prints Hprints).
Qed.

(** If the analysis of a sampled frame returns, the frame has an
    analysis in the sense of [analysis_of_frame]. *)
Lemma analyze_frame_inv (fr : frame) (v v' : loop_vars) (s s' : state) :
  analyze_frame fr v s = (Ok v', s') ->
  exists a, analysis_of_frame (frame_index v) fr = Ok a.
Proof.
  unfold Analyze.analyze_frame, Analyze.analysis_of_frame, bind,
    named_temporary_file, imwrite, lift. simpl.
  destruct (timestamp_ms (frame_index v) fps) as [t|e]; simpl;
    [|discriminate].
  destruct (extract_products_from_image _ _ _ _ _ _) as [[r|e] s1];
    [|discriminate].
  destruct (end_threshold_ms total_frames fps) as [thr|e]; simpl;
    [|discriminate].
  intros _. eexists. reflexivity.
Qed.

Lemma loop_body_skip (fr : frame) (v : loop_vars) (s : state) :
  frame_interval <> 0 ->
  (frame_index v mod frame_interval =? 0) = false ->
  loop_body fr v s
  = (Ok (LoopVars (frame_responses v) (product_timestamps v)
                  (frame_index v + 1)), s).
Proof.
  intros Hi Hm. unfold Analyze.loop_body, PyInt.mod_, bind, lift, ret.
  apply Z.eqb_neq in Hi. rewrite Hi, Hm. reflexivity.
Qed.

Lemma loop_body_sampled (fr : frame) (v : loop_vars) (s : state) :
  frame_interval <> 0 ->
  (frame_index v mod frame_interval =? 0) = true ->
  loop_body fr v s
  = match analyze_frame fr v s with
    | (Ok v', s') =>
        (Ok (LoopVars (frame_responses v') (product_timestamps v')
                      (frame_index v' + 1)), s')
    | (Raise e, s') => (Raise e, s')
    end.
Proof.
  intros Hi Hm. unfold Analyze.loop_body, PyInt.mod_, bind, lift, ret.
  apply Z.eqb_neq in Hi. rewrite Hi, Hm.
  destruct (analyze_frame fr v s) as [[v'|e] s']; reflexivity.
Qed.

(** The loop, when every sampled frame has an analysis: it returns, with
    one entry per sampled frame in order, the positive timestamps in
    order, the store as it found it, and one vision request per sampled
    frame when the credentials are loaded. *)
Lemma read_loop_run (frames : list frame) :
  frame_interval <> 0 ->
  forall (v : loop_vars) (s : state) (l : list frame_analysis),
    analyses_of (sampled frame_interval (frame_index v) frames) = Ok l ->
    exists tr,
      read_loop frames v s
      = (Ok (LoopVars (frame_responses v ++ map fa_entry l)
                      (product_timestamps v ++ omap fa_evidence l)
                      (frame_index v + Z.of_nat (length frames))),
         State (tmpfs s) (trace s ++ tr))
      /\ vision_frame_numbers tr
         = if credentials_loaded w then map fa_index l else [].
Proof.
  intros Hi. induction frames as [|fr rest IH]; intros v s l Hl.
  - simpl in Hl. inversion Hl; subst l. exists []. simpl.
    rewrite !app_nil_r, Z.add_0_r. unfold ret.
    destruct v, s; simpl. split; [reflexivity|].
    destruct (credentials_loaded w); reflexivity.
  - cbn [Analyze.read_loop sampled] in *. unfold bind.
    destruct (frame_index v mod frame_interval =? 0) eqn:Hm.
    + cbn [Analyze.analyses_of] in Hl.
      destruct (analysis_of_frame (frame_index v) fr) as [a|e] eqn:Ha;
        simpl in Hl; [|discriminate].
      destruct (analyses_of _) as [l'|e] eqn:Hl'; simpl in Hl;
        [|discriminate].
      inversion Hl; subst l; clear Hl.
      rewrite (loop_body_sampled fr v s Hi Hm).
      destruct (analyze_frame_run fr v s a Ha) as [mid [-> [_ Hmid]]].
      cbn [frame_responses product_timestamps frame_index].
      match goal with
      | |- context [read_loop rest ?v1 ?s1] =>
          destruct (IH v1 s1 l' Hl') as [tr [-> Htr]]
      end.
      cbn [frame_responses product_timestamps frame_index tmpfs trace].
      exists (EvTmpCreate (fresh (dom (tmpfs s)))
                :: mid ++ [EvTmpRemove (fresh (dom (tmpfs s)))] ++ tr).
      split.
      * rewrite <- !app_assoc. cbn [length].
        replace (frame_index v + 1 + Z.of_nat (length rest))
          with (frame_index v + Z.of_nat (S (length rest))) by lia.
        destruct (fa_evidence a) eqn:Hev; simpl; rewrite Hev;
          simpl; rewrite <- ?app_assoc; reflexivity.
      * unfold vision_frame_numbers in *.
        change (omap vision_frame_number
                  (EvTmpCreate (fresh (dom (tmpfs s)))
                     :: mid ++ [EvTmpRemove (fresh (dom (tmpfs s)))] ++ tr))
          with (omap vision_frame_number
                  (mid ++ [EvTmpRemove (fresh (dom (tmpfs s)))] ++ tr)).
        rewrite !omap_app, Hmid, Htr. simpl.
        unfold Analyze.analysis_of_frame in Ha.
        destruct (timestamp_ms _ _); simpl in Ha; [|discriminate].
        destruct (end_threshold_ms _ _); simpl in Ha; [|discriminate].
        inversion Ha. destruct (credentials_loaded w); reflexivity.
    + rewrite (loop_body_skip fr v s Hi Hm).
      match goal with
      | |- context [read_loop rest ?v1 ?s1] =>
          destruct (IH v1 s1 l Hl) as [tr [-> Htr]]
      end.
      cbn [frame_responses product_timestamps frame_index tmpfs trace].
      exists tr. split; [|exact Htr].
      cbn [length].
      replace (frame_index v + 1 + Z.of_nat (length rest))
        with (frame_index v + Z.of_nat (S (length rest))) by lia.
      reflexivity.
Qed.

(** Conversely, a loop that returns has analysed every sampled frame. *)
Lemma read_loop_inv (frames : list frame) :
  forall (v v' : loop_vars) (s s' : state),
    read_loop frames v s = (Ok v', s') ->
    (frames = [] \/ frame_interval <> 0)
    /\ exists l,
         analyses_of (sampled frame_interval (frame_index v) frames) = Ok l.
Proof.
  induction frames as [|fr rest IH]; intros v v' s s' H.
  - split; [left; reflexivity|]. exists []. reflexivity.
  - assert (Hi : frame_interval <> 0).
    { intros ->. cbn [Analyze.read_loop] in H.
      unfold bind, Analyze.loop_body, PyInt.mod_, lift, bind in H.
      simpl in H. discriminate. }
    split; [right; exact Hi|].
    cbn [Analyze.read_loop sampled] in *. unfold bind in H.
    destruct (frame_index v mod frame_interval =? 0) eqn:Hm.
    + rewrite (loop_body_sampled fr v s Hi Hm) in H.
      destruct (analyze_frame fr v s) as [[v1|e] s1] eqn:Hf;
        [|discriminate].
      destruct (analyze_frame_inv fr v v1 s s1 Hf) as [a Ha].
      destruct (analyze_frame_run fr v s a Ha) as [mid [Hrun _]].
      rewrite Hrun in Hf. inversion Hf; subst v1 s1; clear Hf.
      apply IH in H as [_ [l Hl]]. cbn [frame_index] in Hl.
      exists (a :: l). cbn [Analyze.analyses_of]. rewrite Ha. simpl.
      rewrite Hl. reflexivity.
    + rewrite (loop_body_skip fr v s Hi Hm) in H.
      apply IH in H as [_ [l Hl]]. exists l. exact Hl.
Qed.

End Loop.

End LoopFacts.

(** ** The Frame Sampler *)

Module SamplerFacts.
Import Analyze.

Lemma sampled_lower_bound (frame_interval : Z) (frames : list frame) :
  forall index, Forall (fun p => index <= fst p)
                       (sampled frame_interval index frames).
Proof.
  induction frames as [|fr rest IH]; intros index; simpl; [constructor|].
  assert (H : Forall (fun p : Z * frame => index <= fst p)
                     (sampled frame_interval (index + 1) rest)).
  { eapply Forall_impl; [apply IH|]. simpl. intros p Hp. lia. }
  destruct (index mod frame_interval =? 0); [constructor; simpl; [lia|]|];
    exact H.
Qed.

(** Sampled indices come in strictly increasing order. *)
Lemma sampled_sorted (frame_interval : Z) (frames : list frame) :
  forall index,
    StronglySorted Z.lt (map fst (sampled frame_interval index frames)).
Proof.
  induction frames as [|fr rest IH]; intros index; simpl; [constructor|].
  destruct (index mod frame_interval =? 0); [|apply IH].
  simpl. constructor; [apply IH|].
  apply Forall_map.
  eapply Forall_impl; [apply (sampled_lower_bound _ rest (index + 1))|].
  simpl. intros p Hp. lia.
Qed.

(** A frame is sampled exactly when its index is a multiple of the
    interval. *)
Lemma sampled_spec (frame_interval : Z) (frames : list frame) :
  forall index i fr,
    In (i, fr) (sampled frame_interval index frames)
    <-> exists k : nat,
          frames !! k = Some fr /\ i = index + Z.of_nat k
          /\ i mod frame_interval = 0.
Proof.
  induction frames as [|fr0 rest IH]; intros index i fr; simpl.
  - split; [intros []|intros [k [H _]]; discriminate].
  - assert (Hrest : In (i, fr) (sampled frame_interval (index + 1) rest)
                    <-> exists k : nat,
                          (fr0 :: rest) !! S k = Some fr
                          /\ i = index + Z.of_nat (S k)
                          /\ i mod frame_interval = 0).
    { rewrite IH. split; intros [k [H1 [H2 H3]]]; exists k;
        (split; [exact H1|split; [lia|exact H3]]). }
    destruct (index mod frame_interval =? 0) eqn:Hm.
    + simpl. rewrite Hrest. split.
      * intros [E|[k Hk]]; [|exists (S k); exact Hk].
        inversion E; subst. exists O. simpl.
        split; [reflexivity|]. split; [lia|]. apply Z.eqb_eq. exact Hm.
      * intros [[|k] [H1 [H2 H3]]]; [|right; exists k; auto].
        left. simpl in H1. inversion H1; subst. f_equal. lia.
    + rewrite Hrest. split.
      * intros [k Hk]. exists (S k). exact Hk.
      * intros [[|k] [H1 [H2 H3]]]; [|exists k; auto].
        exfalso. apply Z.eqb_neq in Hm. apply Hm.
        replace index with i by (simpl in H2; lia). exact H3.
Qed.

Section Analyses.

Variables (w : world) (user_question : string).
Variables (fps : spec_float) (total_frames : Z).

(** The analyses follow the sampled frames one to one, and each carries
    the timestamp, the response and the classification of its frame. *)
Lemma analyses_of_spec (l0 : list (Z * frame)) :
  forall l,
    analyses_of w user_question fps total_frames l0 = Ok l ->
    map fa_index l = map fst l0
    /\ Forall2 (fun p a =>
                  analysis_of_frame w user_question fps total_frames
                    (fst p) (snd p) = Ok a) l0 l.
Proof.
  induction l0 as [|[i fr] rest IH]; intros l H; simpl in H.
  - inversion H. split; [reflexivity|constructor].
  - destruct (analysis_of_frame _ _ _ _ i fr) as [a|e] eqn:Ha; simpl in H;
      [|discriminate].
    destruct (analyses_of _ _ _ _ rest) as [l'|e]; simpl in H;
      [|discriminate].
    inversion H; subst l. destruct (IH l' eq_refl) as [H1 H2].
    split.
    + simpl. rewrite H1. f_equal.
      unfold analysis_of_frame in Ha.
      destruct (timestamp_ms i fps); simpl in Ha; [|discriminate].
      destruct (end_threshold_ms _ _); simpl in Ha; [|discriminate].
      inversion Ha. reflexivity.
    + constructor; [exact Ha|exact H2].
Qed.

Lemma analysis_of_frame_spec (i : Z) (fr : frame) (a : frame_analysis) :
  analysis_of_frame w user_question fps total_frames i fr = Ok a ->
  exists threshold,
    fa_index a = i
    /\ timestamp_ms i fps = Ok (fa_timestamp a)
    /\ end_threshold_ms total_frames fps = Ok threshold
    /\ fa_response a = frame_response w user_question i (fa_timestamp a) fr
    /\ fa_positive a
       = counts_as_evidence (fa_response a) (fa_timestamp a) threshold.
Proof.
  unfold analysis_of_frame.
  destruct (timestamp_ms i fps) as [t|e]; simpl; [|discriminate].
  destruct (end_threshold_ms _ _) as [thr|e]; simpl; [|discriminate].
  intros E. inversion E; subst a. simpl. exists thr. auto.
Qed.

Lemma omap_fa_evidence (l : list frame_analysis) :
  omap fa_evidence l = map fa_timestamp (List.filter fa_positive l).
Proof.
  induction l as [|a l IH]; [reflexivity|].
  cbn [omap list_omap List.filter]. unfold fa_evidence at 1.
  destruct (fa_positive a); simpl; f_equal; exact IH.
Qed.

End Analyses.

End SamplerFacts.

(** ** Evidence classification *)

Module EvidenceFacts.
Import Exact ExactFacts.
Import Analyze ExtractFacts LoopFacts SamplerFacts PyStrFacts.

Lemma counts_as_evidence_spec (response : string) (t : Z)
    (threshold : spec_float) :
  counts_as_evidence response t threshold = true
  <-> positive_policy response t threshold.
Proof.
  unfold counts_as_evidence, positive_policy.
  rewrite <- existsb_contains, <- existsb_contains_false.
  destruct (existsb _ presence_keywords);
    destruct (existsb _ uncertainty_keywords); simpl;
    rewrite ?orb_true_iff, ?negb_true_iff; intuition discriminate.
Qed.

Lemma uncertainty_excludes (response : string) (t : Z)
    (threshold : spec_float) (k : string) :
  In k uncertainty_keywords ->
  PyStr.contains k (PyStr.lower response) = true ->
  counts_as_evidence response t threshold = false.
Proof.
  intros Hk Hc. apply not_true_iff_false.
  rewrite counts_as_evidence_spec. intros [_ [H _]].
  rewrite (H k Hk) in Hc. discriminate.
Qed.

(** The test of the program is the policy with the end test in binary64. *)
Lemma positive_policy_rounded (response : string) (t total_frames : Z)
    (fps threshold : spec_float) :
  end_threshold_ms total_frames fps = Ok threshold ->
  positive_policy response t threshold
  <-> rounded_policy response t total_frames fps.
Proof.
  intros H. apply end_threshold_rounded in H. subst threshold.
  unfold positive_policy, rounded_policy.
  rewrite int_lt_float_below. reflexivity.
Qed.

(** C1. For a sampled frame that the loop processes, with timestamp [t]
    and response text [response], [t] is appended to the positive
    timestamps if and only if the lower-cased text contains a presence
    keyword, contains no uncertainty keyword, and either [t] is strictly
    below the binary64 value of [(total_frames / fps) * 1000 * 0.9] (each
    operation rounded to nearest, the integer compared exactly with the
    float) or the text does not contain "end"; otherwise the list is
    unchanged.  In particular a text with an uncertainty keyword is never
    counted. *)
Theorem evidence_iff_policy (w : world) (user_question : string)
    (fps : spec_float) (total_frames : Z) (fr : frame)
    (v v' : loop_vars) (s s' : state) :
  analyze_frame w user_question fps total_frames fr v s = (Ok v', s') ->
  exists t response,
    timestamp_ms (frame_index v) fps = Ok t
    /\ response = frame_response w user_question (frame_index v) t fr
    /\ frame_responses v'
       = frame_responses v ++ [frame_entry (frame_index v) t response]
    /\ (rounded_policy response t total_frames fps
        <-> product_timestamps v' = product_timestamps v ++ [t])
    /\ (~ rounded_policy response t total_frames fps
        <-> product_timestamps v' = product_timestamps v)
    /\ (forall k, In k uncertainty_keywords ->
                  PyStr.contains k (PyStr.lower response) = true ->
                  product_timestamps v' = product_timestamps v).
Proof.
  intros H.
  destruct (analyze_frame_inv w user_question fps total_frames
              fr v v' s s' H) as [a Ha].
  destruct (analyze_frame_run w user_question fps total_frames
              fr v s a Ha) as [mid [Hrun _]].
  rewrite Hrun in H. inversion H; subst v'; clear H Hrun.
  destruct (analysis_of_frame_spec w user_question fps total_frames
              _ fr a Ha) as [thr [Hi [Ht [Hthr [Hr Hp]]]]].
  exists (fa_timestamp a), (fa_response a).
  cbn [frame_responses product_timestamps].
  unfold fa_entry, fa_evidence. rewrite Hi, Hp.
  split; [exact Ht|]. split; [exact Hr|].
  split; [reflexivity|].
  rewrite <- (positive_policy_rounded _ _ _ _ thr Hthr).
  rewrite <- counts_as_evidence_spec.
  assert (Hne : forall (l : list Z) x, l ++ [x] <> l).
  { intros l x E. apply (f_equal (@length Z)) in E.
    rewrite length_app in E. simpl in E. lia. }
  destruct (counts_as_evidence (fa_response a) (fa_timestamp a) thr) eqn:Hc;
    simpl; rewrite ?app_nil_r.
  - split; [|split].
    + split; reflexivity.
    + split; [intros C; exfalso; apply C; reflexivity|].
      intros E. exfalso. exact (Hne _ _ E).
    + intros k Hk Hc'.
      rewrite (uncertainty_excludes _ _ thr k Hk Hc') in Hc. discriminate.
  - split; [|split].
    + split; [discriminate|]. intros E. exfalso. symmetry in E.
      exact (Hne _ _ E).
    + split; [reflexivity|discriminate].
    + reflexivity.
Qed.

End EvidenceFacts.

(** ** The sampling stage *)

Module SamplingFacts.
Import Analyze ExtractFacts LoopFacts SamplerFacts.

Section Stage.

Variables (w : world) (user_question : string) (frame_interval : Z).
Variables (fps : spec_float) (total_frames : Z).

Local Abbreviation read_loop :=
  (read_loop w user_question frame_interval fps total_frames).
Local Abbreviation sample_frames :=
  (sample_frames w user_question frame_interval fps total_frames).
Local Abbreviation analyses_of :=
  (analyses_of w user_question fps total_frames).

(** A loop that returns is described by the analyses of its sampled
    frames. *)
Lemma read_loop_result (frames : list frame) (v v' : loop_vars)
    (s s' : state) :
  read_loop frames v s = (Ok v', s') ->
  exists l tr,
    analyses_of (sampled frame_interval (frame_index v) frames) = Ok l
    /\ v' = LoopVars (frame_responses v ++ map fa_entry l)
                     (product_timestamps v ++ omap fa_evidence l)
                     (frame_index v + Z.of_nat (length frames))
    /\ s' = State (tmpfs s) (trace s ++ tr)
    /\ vision_frame_numbers tr
       = if credentials_loaded w then map fa_index l else [].
Proof.
  intros H.
  destruct (read_loop_inv w user_question frame_interval fps total_frames
              frames v v' s s' H) as [[->|Hi] [l Hl]].
  - simpl in *. inversion Hl; subst l. unfold ret in H.
    inversion H; subst. exists [], []. simpl.
    rewrite !app_nil_r, Z.add_0_r. destruct v', s'; simpl.
    repeat split; try reflexivity.
    destruct (credentials_loaded w); reflexivity.
  - destruct (read_loop_run w user_question frame_interval fps
                total_frames frames Hi v s l Hl) as [tr [Hrun Htr]].
    rewrite Hrun in H. inversion H; subst.
    exists l, tr. auto.
Qed.

(** The stage returns whenever the interval is not zero and the
    timestamp arithmetic succeeds on every sampled frame. *)
Lemma sample_frames_returns (cap : capture) (s : state)
    (l : list frame_analysis) :
  frame_interval <> 0 ->
  analyses_of (sampled frame_interval 0 (frames_read cap)) = Ok l ->
  exists tr,
    sample_frames cap s
    = (Ok (LoopVars (map fa_entry l) (omap fa_evidence l)
                    (Z.of_nat (length (frames_read cap)))),
       State (tmpfs s) (trace s ++ tr)).
Proof.
  intros Hi Hl. unfold Analyze.sample_frames, frames_read in *.
  unfold bind at 1.
  destruct (cap_opened cap).
  - destruct (read_loop_run w user_question frame_interval fps
                total_frames (cap_frames cap) Hi (LoopVars [] [] 0) s l Hl)
      as [tr [-> _]].
    unfold bind, emit, ret. simpl. rewrite <- app_assoc.
    eexists. reflexivity.
  - simpl in Hl. inversion Hl; subst l.
    unfold bind, emit, ret. simpl. eexists. reflexivity.
Qed.

(** C3. When the sampling stage returns, it has analysed exactly the
    frames whose index is a multiple of the interval: every analysed
    index [i] has [i mod frame_interval = 0], the analysed indices are
    strictly increasing, every multiple of the interval below the number
    of frames read is among them, the frame-response entries are one per
    analysed frame in that order, the positive timestamps are those of
    the positive analyses in that order, and the vision requests issued
    carry the analysed indices in that order. *)
Theorem sampling_order (cap : capture) (v : loop_vars) (s s' : state) :
  sample_frames cap s = (Ok v, s') ->
  exists l : list frame_analysis,
    Forall2 (fun p a =>
               analysis_of_frame w user_question fps total_frames
                 (fst p) (snd p) = Ok a)
            (sampled frame_interval 0 (frames_read cap)) l
    /\ Forall (fun a => fa_index a mod frame_interval = 0) l
    /\ StronglySorted Z.lt (map fa_index l)
    /\ (forall (k : nat) (fr : frame),
          frames_read cap !! k = Some fr ->
          Z.of_nat k mod frame_interval = 0 ->
          In (Z.of_nat k) (map fa_index l))
    /\ (forall i, In i (map fa_index l) ->
          exists (k : nat) (fr : frame),
            frames_read cap !! k = Some fr /\ i = Z.of_nat k)
    /\ frame_responses v = map fa_entry l
    /\ product_timestamps v
       = map fa_timestamp (List.filter fa_positive l)
    /\ exists tr,
         trace s' = trace s ++ tr
         /\ vision_frame_numbers tr
            = if credentials_loaded w then map fa_index l else [].
Proof.
  intros H.
  assert (Hloop : exists v1 s1,
             read_loop (frames_read cap) (LoopVars [] [] 0) s = (Ok v1, s1)
             /\ v = v1
             /\ s' = State (tmpfs s1) (trace s1 ++ [EvRelease])).
  { unfold Analyze.sample_frames, frames_read in *.
    unfold bind at 1 in H. destruct (cap_opened cap).
    - destruct (read_loop _ _ s) as [[v1 | e] s1]; [|discriminate].
      unfold bind, emit, ret in H. simpl in H. inversion H; subst.
      eauto.
    - unfold bind, emit, ret in H. simpl in H. inversion H; subst.
      eexists _, _. split; [reflexivity|]. auto. }
  destruct Hloop as [v1 [s1 [Hl [-> ->]]]].
  apply read_loop_result in Hl as [l [tr [Hl [-> [-> Htr]]]]].
  cbn [frame_index frame_responses product_timestamps app] in *.
  destruct (analyses_of_spec w user_question fps total_frames _ l Hl)
    as [Hidx Hall].
  exists l. split; [exact Hall|].
  assert (Hin : forall i, In i (map fa_index l) <->
            exists (k : nat) (fr : frame),
              frames_read cap !! k = Some fr /\ i = Z.of_nat k
              /\ i mod frame_interval = 0).
  { intros i. rewrite Hidx, in_map_iff. split.
    - intros [[i' fr] [E Hp]]. simpl in E. subst i'.
      apply sampled_spec in Hp as [k [H1 [H2 H3]]].
      exists k, fr. auto.
    - intros [k [fr [H1 [H2 H3]]]]. exists (i, fr). split; [reflexivity|].
      apply sampled_spec. exists k. auto. }
  split; [|split; [|split; [|split; [|split; [|split]]]]].
  - apply Forall_forall. intros a Ha.
    assert (Hi : In (fa_index a) (map fa_index l))
      by (apply in_map; apply list_elem_of_In; exact Ha).
    apply Hin in Hi as [k [fr [_ [_ Hm]]]]. exact Hm.
  - rewrite Hidx. apply sampled_sorted.
  - intros k fr Hk Hm. apply Hin. exists k, fr. auto.
  - intros i Hi. apply Hin in Hi as [k [fr [H1 [H2 _]]]]. eauto.
  - reflexivity.
  - apply omap_fa_evidence.
  - exists (tr ++ [EvRelease]). simpl. rewrite <- app_assoc.
    split; [reflexivity|].
    unfold vision_frame_numbers in *. rewrite omap_app, Htr. simpl.
    apply app_nil_r.
Qed.

End Stage.

End SamplingFacts.

(** ** Failures of the per-frame call and the temporary file *)

Module FailureFacts.
Import Analyze ExtractFacts LoopFacts SamplerFacts SamplingFacts.

Section Frame.

Variables (w : world) (user_question : string) (frame_interval : Z).
Variables (fps : spec_float) (total_frames : Z).

Local Abbreviation analyze_frame :=
  (analyze_frame w user_question fps total_frames).
Local Abbreviation loop_body :=
  (loop_body w user_question frame_interval fps total_frames).
Local Abbreviation read_loop :=
  (read_loop w user_question frame_interval fps total_frames).

Lemma analysis_of_frame_defined (i t : Z) (threshold : spec_float)
    (fr : frame) :
  timestamp_ms i fps = Ok t ->
  end_threshold_ms total_frames fps = Ok threshold ->
  analysis_of_frame w user_question fps total_frames i fr
  = Ok (FrameAnalysis i t (frame_response w user_question i t fr)
          (counts_as_evidence (frame_response w user_question i t fr)
             t threshold)).
Proof.
  intros Ht Hthr. unfold analysis_of_frame. rewrite Ht. simpl.
  rewrite Hthr. reflexivity.
Qed.

(** The responses of the per-frame call are of five kinds. *)
Lemma frame_response_cases (i t : Z) (fr : frame) :
  let r := frame_response w user_question i t fr in
  (credentials_loaded w = false /\ r = credentials_error)
  \/ (exists content,
        chat_completions_create w (VisionReq (Some (i, t)) user_question fr)
        = Ok content /\ r = PyStr.strip content)
  \/ (exists e,
        chat_completions_create w (VisionReq (Some (i, t)) user_question fr)
        = Raise e
        /\ (r = skipped_timeout (Some i)
            \/ r = skipped_connection (Some i)
            \/ r = skipped_other (Some i) (exn_type e))).
Proof.
  unfold frame_response. destruct (credentials_loaded w); [|auto].
  right. destruct (chat_completions_create w _) as [content|e].
  - left. eauto.
  - right. exists e. split; [reflexivity|]. unfold error_response.
    destruct (PyStr.contains "timeout" _); [auto|].
    destruct (existsb _ _); auto.
Qed.

(** C5. On a sampled frame [n] whose vision request fails with an error
    whose lower-cased message contains "timeout", the per-frame call
    returns exactly "[Skipped frame n due to timeout. Try again later.]"
    instead of raising, the loop body returns with that text recorded for
    frame [n], and the loop goes on with the frames that follow. *)
Theorem timeout_skips_frame (fr : frame) (rest : list frame)
    (v : loop_vars) (s : state) (e : exn) (t : Z)
    (threshold : spec_float) :
  frame_interval <> 0 ->
  frame_index v mod frame_interval = 0 ->
  timestamp_ms (frame_index v) fps = Ok t ->
  end_threshold_ms total_frames fps = Ok threshold ->
  credentials_loaded w = true ->
  chat_completions_create w
    (VisionReq (Some (frame_index v, t)) user_question fr) = Raise e ->
  PyStr.contains "timeout" (PyStr.lower (exn_msg e)) = true ->
  let skip := ("[Skipped frame " ++ PyStr.str_of_int (frame_index v)
                 ++ " due to timeout. Try again later.]")%string in
  (forall (s0 : state) (n0 : nat),
      tmpfs s0 !! n0 = Some fr ->
      exists s1,
        extract_products_from_image w (TmpFile n0) user_question
          (Some (frame_index v)) (Some fps) s0 = (Ok skip, s1))
  /\ exists v' s',
       loop_body fr v s = (Ok v', s')
       /\ frame_responses v'
          = frame_responses v ++ [frame_entry (frame_index v) t skip]
       /\ frame_index v' = frame_index v + 1
       /\ tmpfs s' = tmpfs s
       /\ read_loop (fr :: rest) v s = read_loop rest v' s'.
Proof.
  intros Hi Hm Ht Hthr Hc He Hto skip.
  assert (Hresp : frame_response w user_question (frame_index v) t fr
                  = skip).
  { unfold frame_response, error_response. rewrite Hc, He, Hto.
    reflexivity. }
  split.
  - intros s0 n0 Hn0.
    destruct (extract_run w (TmpFile n0) user_question
                (Some (frame_index v)) (Some fps) s0 fr
                (Some (frame_index v, t))) as [prints [Hrun _]].
    { unfold open_read, frame in *. rewrite Hn0. reflexivity. }
    { apply frame_context_in_loop. exact Ht. }
    rewrite Hrun. unfold frame_response in Hresp. rewrite Hc in *.
    rewrite Hresp. eexists. reflexivity.
  - pose proof (analysis_of_frame_defined (frame_index v) t threshold fr
                  Ht Hthr) as Ha.
    destruct (analyze_frame_run w user_question fps total_frames fr v s
                _ Ha) as [mid [Hrun _]].
    apply Z.eqb_eq in Hm.
    pose proof (loop_body_sampled w user_question frame_interval fps
                  total_frames fr v s Hi Hm) as Hbody.
    rewrite Hrun in Hbody.
    eexists _, _. split; [exact Hbody|].
    split; [|split; [|split]].
    + cbn [frame_responses]. unfold fa_entry.
      cbn [fa_index fa_timestamp fa_response]. rewrite Hresp. reflexivity.
    + reflexivity.
    + reflexivity.
    + cbn [Analyze.read_loop]. unfold bind. rewrite Hbody. reflexivity.
Qed.

(** For a sampled frame whose timestamp arithmetic succeeds, the
    loop creates the temporary image under a fresh name, runs the
    per-frame call, and removes the image before it returns to the loop:
    the store is left as it was found, and between creation and removal
    no other temporary file is touched.  This holds for every
    environment, so for every way the call can end: a model answer, the
    credentials message, or the timeout, connection and general
    placeholders. *)
Theorem temp_file_removed (fr : frame) (v : loop_vars) (s : state)
    (t : Z) (threshold : spec_float) :
  timestamp_ms (frame_index v) fps = Ok t ->
  end_threshold_ms total_frames fps = Ok threshold ->
  let n := fresh (dom (tmpfs s)) in
  let r := frame_response w user_question (frame_index v) t fr in
  tmpfs s !! n = None
  /\ (exists v' mid,
        analyze_frame fr v s
        = (Ok v', State (tmpfs s)
                        (trace s ++ EvTmpCreate n
                            :: mid ++ [EvTmpRemove n]))
        /\ Forall (fun ev => is_tmp_event ev = false) mid
        /\ frame_responses v'
           = frame_responses v ++ [frame_entry (frame_index v) t r])
  /\ ((credentials_loaded w = false /\ r = credentials_error)
      \/ (exists content,
            chat_completions_create w
              (VisionReq (Some (frame_index v, t)) user_question fr)
            = Ok content /\ r = PyStr.strip content)
      \/ (exists e,
            chat_completions_create w
              (VisionReq (Some (frame_index v, t)) user_question fr)
            = Raise e
            /\ (r = skipped_timeout (Some (frame_index v))
                \/ r = skipped_connection (Some (frame_index v))
                \/ r = skipped_other (Some (frame_index v)) (exn_type e)))).
Proof.
  intros Ht Hthr n r. split; [|split].
  - apply not_elem_of_dom. apply is_fresh.
  - pose proof (analysis_of_frame_defined (frame_index v) t threshold fr
                  Ht Hthr) as Ha.
    destruct (analyze_frame_run w user_question fps total_frames fr v s
                _ Ha) as [mid [Hrun [Hmid _]]].
    eexists _, mid. split; [exact Hrun|]. split; [exact Hmid|].
    reflexivity.
  - apply frame_response_cases.
Qed.

(** The loop as a whole leaves the store as it found it. *)
Lemma read_loop_keeps_store (frames : list frame) (v v' : loop_vars)
    (s s' : state) :
  read_loop frames v s = (Ok v', s') -> tmpfs s' = tmpfs s.
Proof.
  intros H. apply read_loop_result in H as [l [tr [_ [_ [-> _]]]]].
  reflexivity.
Qed.

End Frame.

End FailureFacts.

(** ** After the loop: summary, post-processing and the two branches *)

Module FinishFacts.
Import Analyze ExtractFacts LoopFacts SamplerFacts SamplingFacts.

Section Finish.

Variable w : world.

(** The default branch: one evaluation request; the dictionary does not
    depend on the state. *)
Lemma default_branch_run (user_question base_summary combined_text : string)
    (pts : list Z) (s : state) :
  exists tr,
    default_branch w user_question base_summary combined_text pts s
    = (match chat_completions_create w
               (EvalReq user_question base_summary combined_text) with
       | Ok _ => Ok (Analysis base_summary pts
                       (chosen_name w base_summary user_question))
       | Raise e => Raise e
       end,
       State (tmpfs s) (trace s ++ tr))
    /\ Forall (fun e => is_vision_request e = false) tr.
Proof.
  unfold default_branch, evaluate_summary_accuracy, choose_product_name,
    chat, bind, emit, lift, ret. simpl.
  destruct (chat_completions_create w _) as [content|e].
  - eexists. split.
    + simpl. rewrite <- !app_assoc. reflexivity.
    + repeat constructor.
  - eexists. split; [reflexivity|]. repeat constructor.
Qed.

(** The call of the image branch carries no frame number. *)
Lemma extract_without_frame (p : path) (q : string)
    (fps : option spec_float) (s : state) :
  exists r tr,
    extract_products_from_image w p q None fps s
    = (Ok r, State (tmpfs s) (trace s ++ tr))
    /\ vision_frame_numbers tr = [].
Proof.
  assert (Hctx : frame_context None fps = Ok None) by reflexivity.
  destruct (open_read w (tmpfs s) p) as [bytes|e] eqn:Hread.
  - destruct (extract_run w p q None fps s bytes None Hread Hctx)
      as [prints [-> Hp]].
    eexists _, _. split; [reflexivity|].
    unfold vision_frame_numbers. cbn [omap list_omap vision_frame_number].
    destruct (credentials_loaded w); [|reflexivity].
    cbn [omap list_omap vision_frame_number].
    exact (prints_no_vision prints Hp).
  - unfold extract_products_from_image, try_except, extract_body,
      encode_image, bind, emit, lift, ret. simpl. rewrite Hread.
    destruct (extract_handler_run None e
                (State (tmpfs s) (trace s ++ [EvReadFile p]))) as [line ->].
    simpl. rewrite <- app_assoc. simpl.
    eexists _, _. split; reflexivity.
Qed.

(** The image branch is the default branch run after one more call. *)
Lemma image_branch_run (video_path user_question base_summary
    combined_text : string) (pts : list Z) (s : state) :
  exists tr,
    image_branch w video_path user_question base_summary combined_text
      pts s
    = default_branch w user_question base_summary combined_text pts
        (State (tmpfs s) (trace s ++ tr))
    /\ vision_frame_numbers tr = [].
Proof.
  destruct (extract_without_frame (UserFile video_path) user_question
              None s) as [r [tr [Hrun Htr]]].
  exists tr. split; [|exact Htr].
  unfold image_branch. unfold bind at 1. rewrite Hrun. reflexivity.
Qed.

(** C9. The image-suffix branch and the default branch return the same
    dictionary (or raise the same exception) from the same summary,
    timestamps and question: the result of the extra per-frame call of
    the image branch is not used. *)
Theorem branches_equivalent (video_path user_question base_summary
    combined_text : string) (pts : list Z) (s : state) :
  fst (image_branch w video_path user_question base_summary
         combined_text pts s)
  = fst (default_branch w user_question base_summary combined_text pts s)
  /\ fst (finish w video_path user_question base_summary combined_text
            pts s)
     = match chat_completions_create w
               (EvalReq user_question base_summary combined_text) with
       | Ok _ => Ok (Analysis base_summary
                       (final_timestamps pts base_summary)
                       (chosen_name w base_summary user_question))
       | Raise e => Raise e
       end.
Proof.
  assert (Himg : forall pts' s',
             fst (image_branch w video_path user_question base_summary
                    combined_text pts' s')
             = fst (default_branch w user_question base_summary
                      combined_text pts' s')).
  { intros pts' s'.
    destruct (image_branch_run video_path user_question base_summary
                combined_text pts' s') as [tr [-> _]].
    destruct (default_branch_run user_question base_summary combined_text
                pts' (State (tmpfs s') (trace s' ++ tr))) as [tr1 [-> _]].
    destruct (default_branch_run user_question base_summary combined_text
                pts' s') as [tr2 [-> _]].
    reflexivity. }
  split; [apply Himg|].
  unfold finish. destruct (is_image_path video_path).
  - rewrite Himg.
    destruct (default_branch_run user_question base_summary combined_text
                (final_timestamps pts base_summary) s) as [tr [-> _]].
    reflexivity.
  - destruct (default_branch_run user_question base_summary combined_text
                (final_timestamps pts base_summary) s) as [tr [-> _]].
    reflexivity.
Qed.

Lemma finish_run (video_path user_question base_summary
    combined_text : string) (pts : list Z) (s : state) :
  exists tr,
    finish w video_path user_question base_summary combined_text pts s
    = (match chat_completions_create w
               (EvalReq user_question base_summary combined_text) with
       | Ok _ => Ok (Analysis base_summary
                       (final_timestamps pts base_summary)
                       (chosen_name w base_summary user_question))
       | Raise e => Raise e
       end,
       State (tmpfs s) (trace s ++ tr))
    /\ vision_frame_numbers tr = []
    /\ (is_image_path video_path = false ->
        Forall (fun e => is_vision_request e = false) tr).
Proof.
  assert (Hnone : forall tr,
             Forall (fun e => is_vision_request e = false) tr ->
             vision_frame_numbers tr = []).
  { intros tr Htr. induction Htr as [|ev l Hev _ IH]; [reflexivity|].
    destruct ev as [| | |[]| |]; try discriminate; exact IH. }
  unfold finish. destruct (is_image_path video_path).
  - destruct (image_branch_run video_path user_question base_summary
                combined_text (final_timestamps pts base_summary) s)
      as [tr [-> Htr]].
    destruct (default_branch_run user_question base_summary combined_text
                (final_timestamps pts base_summary)
                (State (tmpfs s) (trace s ++ tr))) as [tr1 [-> Htr1]].
    exists (tr ++ tr1). simpl. rewrite <- app_assoc.
    split; [reflexivity|]. split; [|discriminate].
    unfold vision_frame_numbers in *. rewrite omap_app, Htr. simpl.
    exact (Hnone tr1 Htr1).
  - destruct (default_branch_run user_question base_summary combined_text
                (final_timestamps pts base_summary) s) as [tr1 [-> Htr1]].
    exists tr1. split; [reflexivity|]. split; [exact (Hnone tr1 Htr1)|].
    intros _. exact Htr1.
Qed.

Lemma final_timestamps_spec (pts : list Z) (base_summary : string) :
  ((pts = []
    \/ PyStr.contains "not visible" (PyStr.lower base_summary) = true) ->
   final_timestamps pts base_summary = [])
  /\ (pts <> [] ->
      PyStr.contains "not visible" (PyStr.lower base_summary) = false ->
      final_timestamps pts base_summary = pts).
Proof.
  unfold final_timestamps. split.
  - intros [->|H]; [reflexivity|]. rewrite H, orb_true_r. reflexivity.
  - intros Hne H. rewrite H. destruct pts; [contradiction|reflexivity].
Qed.

End Finish.

End FinishFacts.

(** ** The whole analysis *)

Module AnalysisFacts.
Import Analyze ExtractFacts LoopFacts SamplerFacts SamplingFacts FinishFacts.

Section Whole.

Variable w : world.

(** A run that returns went through its stages in order. *)
Lemma analyze_video_for_query_inv (video_path user_question : string)
    (frame_interval : Z) (d : analysis) (s s' : state) :
  analyze_video_for_query w video_path user_question frame_interval s
  = (Ok d, s') ->
  let cap := VideoCapture w video_path in
  exists total_frames v s1 content,
    PyFloat.int_of_float (cap_get cap_frame_count cap) = Ok total_frames
    /\ sample_frames w user_question frame_interval (cap_get cap_fps cap)
         total_frames cap s = (Ok v, s1)
    /\ chat_completions_create w
         (SummaryReq user_question (combined_text_of (frame_responses v)))
       = Ok content
    /\ d = Analysis (PyStr.strip content)
             (final_timestamps (product_timestamps v)
                (PyStr.strip content))
             (chosen_name w (PyStr.strip content) user_question).
Proof.
  intros H cap. unfold analyze_video_for_query in H. fold cap in H.
  unfold bind at 1, lift in H.
  destruct (PyFloat.int_of_float (cap_get cap_frame_count cap))
    as [total|e]; [|discriminate].
  unfold bind at 1 in H.
  destruct (sample_frames w user_question frame_interval _ total cap s)
    as [[v|e] s1] eqn:Hs; [|discriminate].
  unfold bind at 1, summarize, chat, bind, emit, lift, ret in H.
  simpl in H.
  destruct (chat_completions_create w _) as [content|e] eqn:Hc;
    [|discriminate].
  destruct (finish_run w video_path user_question (PyStr.strip content)
              (combined_text_of (frame_responses v))
              (product_timestamps v)
              (State (tmpfs s1)
                 (trace s1 ++
                    [EvChat (SummaryReq user_question
                               (combined_text_of (frame_responses v)))])))
    as [tr [Hf _]].
  rewrite Hf in H.
  destruct (chat_completions_create w (EvalReq _ _ _)); [|discriminate].
  inversion H; subst. exists total, v, s1, content. auto.
Qed.

(** The run returns whenever the frame count converts, the sampling stage
    returns and the summary and evaluation requests are answered. *)
Lemma analyze_video_for_query_returns (video_path user_question : string)
    (frame_interval : Z) (s s1 : state) (total_frames : Z) (v : loop_vars)
    (content verdict : string) :
  let cap := VideoCapture w video_path in
  PyFloat.int_of_float (cap_get cap_frame_count cap) = Ok total_frames ->
  sample_frames w user_question frame_interval (cap_get cap_fps cap)
    total_frames cap s = (Ok v, s1) ->
  chat_completions_create w
    (SummaryReq user_question (combined_text_of (frame_responses v)))
  = Ok content ->
  chat_completions_create w
    (EvalReq user_question (PyStr.strip content)
       (combined_text_of (frame_responses v)))
  = Ok verdict ->
  exists s',
    analyze_video_for_query w video_path user_question frame_interval s
    = (Ok (Analysis (PyStr.strip content)
             (final_timestamps (product_timestamps v) (PyStr.strip content))
             (chosen_name w (PyStr.strip content) user_question)), s').
Proof.
  intros cap Ht Hs Hc He. unfold analyze_video_for_query. fold cap.
  unfold bind at 1, lift. rewrite Ht. unfold bind at 1. rewrite Hs.
  unfold bind at 1, summarize, chat, bind, emit, lift, ret. simpl.
  rewrite Hc.
  match goal with
  | |- context [finish w ?a ?b ?c ?d ?e ?st] =>
      destruct (finish_run w a b c d e st) as [tr [-> _]]
  end.
  rewrite He. eexists. reflexivity.
Qed.

(** C2. When the analysis returns, its ["timestamps"] field is empty if
    the loop collected no positive timestamp or the lower-cased summary
    contains "not visible", whatever the loop collected; otherwise it is
    the list the loop collected. *)
Theorem summary_overrides_timestamps (video_path user_question : string)
    (frame_interval : Z) (d : analysis) (s s' : state) :
  analyze_video_for_query w video_path user_question frame_interval s
  = (Ok d, s') ->
  let cap := VideoCapture w video_path in
  exists total_frames v s1,
    PyFloat.int_of_float (cap_get cap_frame_count cap) = Ok total_frames
    /\ sample_frames w user_question frame_interval (cap_get cap_fps cap)
         total_frames cap s = (Ok v, s1)
    /\ ((product_timestamps v = []
         \/ PyStr.contains "not visible" (PyStr.lower (final_summary d))
            = true) ->
        timestamps d = [])
    /\ (product_timestamps v <> [] ->
        PyStr.contains "not visible" (PyStr.lower (final_summary d))
        = false ->
        timestamps d = product_timestamps v).
Proof.
  intros H cap.
  apply analyze_video_for_query_inv in H
    as [total [v [s1 [content [Ht [Hs [_ ->]]]]]]].
  exists total, v, s1. cbn [final_summary timestamps].
  split; [exact Ht|]. split; [exact Hs|].
  apply final_timestamps_spec.
Qed.

(** C7. If the source does not open, the sampling stage returns without
    error and without any per-frame call, the frame responses are empty,
    the first request of the run is the summary request and its evidence
    document is the empty string, no request of the run carries a frame
    number (and, unless the path has an image suffix, the run issues no
    vision request at all), and a returned dictionary has no
    timestamps. *)
Theorem unopened_source (video_path user_question : string)
    (frame_interval : Z) (s : state) :
  cap_opened (VideoCapture w video_path) = false ->
  let cap := VideoCapture w video_path in
  sample_frames w user_question frame_interval (cap_get cap_fps cap) 0
    cap s
  = (Ok (LoopVars [] [] 0), State (tmpfs s) (trace s ++ [EvRelease]))
  /\ combined_text_of [] = EmptyString
  /\ exists r rest,
       analyze_video_for_query w video_path user_question frame_interval s
       = (r, State (tmpfs s)
               (trace s ++ EvRelease
                  :: EvChat (SummaryReq user_question EmptyString)
                  :: rest))
       /\ vision_frame_numbers rest = []
       /\ (is_image_path video_path = false ->
           Forall (fun e => is_vision_request e = false) rest)
       /\ (forall d, r = Ok d -> timestamps d = []).
Proof.
  intros Hopen cap.
  assert (Hs : forall total,
             sample_frames w user_question frame_interval
               (cap_get cap_fps cap) total cap s
             = (Ok (LoopVars [] [] 0),
                State (tmpfs s) (trace s ++ [EvRelease]))).
  { intros total. unfold sample_frames, bind, emit, ret. fold cap in Hopen.
    rewrite Hopen. reflexivity. }
  split; [apply Hs|]. split; [reflexivity|].
  unfold analyze_video_for_query. fold cap.
  assert (Hcount : cap_get cap_frame_count cap = PyFloat.f0_0).
  { unfold cap_get. fold cap in Hopen. rewrite Hopen. reflexivity. }
  rewrite Hcount. unfold bind at 1, lift. simpl PyFloat.int_of_float.
  cbv iota. unfold bind at 1. rewrite Hs.
  unfold bind at 1, summarize, chat, bind, emit, lift, ret. simpl.
  destruct (chat_completions_create w (SummaryReq _ _)) as [content|e].
  - destruct (finish_run w video_path user_question (PyStr.strip content)
                EmptyString []
                (State (tmpfs s)
                   ((trace s ++ [EvRelease]) ++
                      [EvChat (SummaryReq user_question EmptyString)])))
      as [tr [Hf [Htr Hnv]]].
    change (combined_text_of []) with EmptyString. rewrite Hf.
    eexists _, tr. simpl. rewrite <- !app_assoc. simpl.
    split; [reflexivity|]. split; [exact Htr|]. split; [exact Hnv|].
    intros d Hd.
    destruct (chat_completions_create w (EvalReq _ _ _));
      [|discriminate].
    inversion Hd. reflexivity.
  - eexists _, []. rewrite <- !app_assoc. simpl.
    split; [reflexivity|]. split; [reflexivity|].
    split; [constructor|discriminate].
Qed.

(** C8, as the code has it.  When any of the four credentials is unset,
    a call whose image can be read and whose frame context is computed
    returns the credentials message, without raising and without any
    request to the model; the only action of the call is the read of the
    image, which comes before the check. *)
Theorem credentials_checked_after_read (p : path) (q : string)
    (fn : option Z) (fps : option spec_float) (s : state)
    (bytes : string) (ctx : option (Z * Z)) :
  AZURE_OPENAI_ENDPOINT w = None
  \/ AZURE_OPENAI_DEPLOYMENT_NAME w = None
  \/ AZURE_OPENAI_API_VERSION w = None
  \/ AZURE_OPENAI_API_KEY w = None ->
  open_read w (tmpfs s) p = Ok bytes ->
  frame_context fn fps = Ok ctx ->
  extract_products_from_image w p q fn fps s
  = (Ok "Error: Azure OpenAI API credentials are missing. Please check your .env file.",
     State (tmpfs s) (trace s ++ [EvReadFile p])).
Proof.
  intros Hcred Hread Hctx.
  assert (Hc : credentials_loaded w = false).
  { unfold credentials_loaded.
    destruct Hcred as [H|[H|[H|H]]]; rewrite H; simpl;
      rewrite ?andb_false_r; reflexivity. }
  destruct (extract_run w p q fn fps s bytes ctx Hread Hctx)
    as [prints [Hrun _]].
  rewrite Hrun, Hc. reflexivity.
Qed.

End Whole.

End AnalysisFacts.

(** ** [find_similar_products] *)

Module GoogleVisionFacts.
Import GoogleVision.

(** Words common to two lists exist only if the second list is not
    empty. *)
Lemma common_words_nonempty (name_words search_words : list string) :
  size (list_to_set name_words ∩ list_to_set search_words : gset string)
  <> 0%nat ->
  length search_words <> 0%nat.
Proof.
  intros H Hlen. apply H. destruct search_words; [|discriminate].
  simpl. rewrite intersection_empty_r_L. apply size_empty.
Qed.

Section CaseMapping.

Variable str_lower : string -> string.

(** The score is always computed: the division is by the number of search
    words, which is not zero when a word is common. *)
Lemma similarity_score_total (product : ProductDetection)
    (search_lower : string) :
  exists score, similarity_score str_lower product search_lower = Ok score.
Proof.
  unfold similarity_score.
  destruct (negb _) eqn:Hc; [|eexists; reflexivity].
  apply negb_true_iff, Nat.eqb_neq, common_words_nonempty in Hc.
  unfold PyFloat.len_truediv.
  destruct (length (PyStr.split search_lower)); [contradiction|].
  simpl. eexists. reflexivity.
Qed.

(** The score does not read the confidence. *)
Lemma similarity_score_set_confidence (c : spec_float)
    (product : ProductDetection) (search_lower : string) :
  similarity_score str_lower (set_confidence c product) search_lower
  = similarity_score str_lower product search_lower.
Proof. reflexivity. Qed.

Lemma collect_similar_spec (search_lower : string)
    (detected_products : list ProductDetection) :
  forall similar_products,
    collect_similar str_lower search_lower detected_products
      similar_products
    = Ok (similar_products
            ++ similar_of str_lower search_lower detected_products).
Proof.
  induction detected_products as [|p rest IH]; intros acc; simpl.
  - rewrite app_nil_r. reflexivity.
  - destruct (similarity_score_total p search_lower) as [score ->]. simpl.
    destruct (PyFloat.fltb PyFloat.f0_5 score).
    + rewrite IH, <- app_assoc. reflexivity.
    + apply IH.
Qed.

Lemma similar_of_spec (search_lower : string)
    (detected_products : list ProductDetection) (r : ProductDetection) :
  In r (similar_of str_lower search_lower detected_products)
  <-> exists product score,
        In product detected_products
        /\ similarity_score str_lower product search_lower = Ok score
        /\ PyFloat.fltb PyFloat.f0_5 score = true
        /\ r = set_confidence score product.
Proof.
  induction detected_products as [|p rest IH]; simpl.
  - split; [intros []|intros [p [sc [[] _]]]].
  - destruct (similarity_score_total p search_lower) as [score Hs].
    rewrite Hs. destruct (PyFloat.fltb PyFloat.f0_5 score) eqn:Hgt.
    + simpl. rewrite IH. split.
      * intros [<-|[p' [sc [Hin H]]]]; [exists p, score; auto|].
        exists p', sc. auto.
      * intros [p' [sc [[->|Hin] [H1 [H2 H3]]]]].
        -- left. rewrite Hs in H1. inversion H1; subst. reflexivity.
        -- right. exists p', sc. auto.
    + rewrite IH. split.
      * intros [p' [sc [Hin H]]]. exists p', sc. auto.
      * intros [p' [sc [[->|Hin] [H1 [H2 H3]]]]].
        -- rewrite Hs in H1. inversion H1; subst. rewrite Hgt in H2.
           discriminate.
        -- exists p', sc. auto.
Qed.

(** *** The sort *)

Lemma fltb_false_fleb (a b : spec_float) :
  PyFloat.is_nan a = false -> PyFloat.is_nan b = false ->
  PyFloat.fltb a b = false -> SFleb b a = true.
Proof.
  unfold PyFloat.fltb, SFltb, SFleb.
  destruct a as [sa|sa| |sa ma ea], b as [sb|sb| |sb mb eb];
    simpl; try discriminate; intros _ _;
    try (destruct sa; simpl; try discriminate; reflexivity);
    try (destruct sb; simpl; try discriminate; reflexivity);
    try (destruct sa, sb; simpl; try discriminate; reflexivity).
  destruct sa, sb; simpl; try discriminate; try reflexivity;
    rewrite (Z.compare_antisym ea eb), !Pos.compare_cont_spec;
    rewrite (Pos.compare_antisym ma mb);
    destruct (ea ?= eb); simpl; try discriminate; try reflexivity;
    destruct (ma ?= mb)%positive; simpl; try discriminate; reflexivity.
Qed.

Lemma fltb_true_fleb (a b : spec_float) :
  PyFloat.fltb a b = true -> SFleb a b = true.
Proof.
  unfold PyFloat.fltb, SFltb, SFleb.
  destruct (SFcompare a b) as [[]|]; try discriminate; reflexivity.
Qed.

(** The order of the floats is transitive. *)
Lemma fleb_trans (a b c : spec_float) :
  SFleb a b = true -> SFleb b c = true -> SFleb a c = true.
Proof.
  unfold SFleb, SFcompare.
  destruct a as [[]|[]| |[] ma ea], b as [[]|[]| |[] mb eb],
    c as [[]|[]| |[] mc ec];
    simpl; try discriminate; try reflexivity;
    rewrite ?Pos.compare_cont_spec; simpl;
    destruct (Z.compare_spec ea eb), (Z.compare_spec eb ec),
      (Z.compare_spec ea ec); simpl; try discriminate; try reflexivity;
      try lia;
    destruct (Pos.compare_spec ma mb), (Pos.compare_spec mb mc),
      (Pos.compare_spec ma mc); simpl; try discriminate; try reflexivity;
      lia.
Qed.

Lemma confidence_ge_trans (a b c : ProductDetection) :
  confidence_ge a b -> confidence_ge b c -> confidence_ge a c.
Proof.
  unfold confidence_ge. intros Hab Hbc.
  exact (fleb_trans _ _ _ Hbc Hab).
Qed.

Lemma above_threshold_not_nan (c : spec_float) :
  PyFloat.fltb PyFloat.f0_5 c = true -> PyFloat.is_nan c = false.
Proof. destruct c; simpl; try reflexivity. discriminate. Qed.

Lemma insert_desc_perm (p : ProductDetection) (l : list ProductDetection) :
  Permutation (insert_desc p l) (p :: l).
Proof.
  induction l as [|q rest IH]; simpl; [reflexivity|].
  destruct (PyFloat.fltb (confidence q) (confidence p)); [reflexivity|].
  rewrite IH. apply perm_swap.
Qed.

Lemma insert_desc_sorted (p : ProductDetection) (l : list ProductDetection) :
  has_number p -> Forall has_number l ->
  Sorted confidence_ge l -> Sorted confidence_ge (insert_desc p l).
Proof.
  intros Hp Hl Hs. induction Hs as [|q rest Hrest IH Hhd]; simpl.
  - repeat constructor.
  - apply Forall_cons in Hl as [Hq Hl].
    destruct (PyFloat.fltb (confidence q) (confidence p)) eqn:Hlt.
    + constructor; [constructor; assumption|].
      constructor. apply fltb_true_fleb. exact Hlt.
    + constructor; [apply IH; exact Hl|].
      destruct rest as [|q' rest']; simpl.
      * constructor. apply fltb_false_fleb; assumption.
      * destruct (PyFloat.fltb (confidence q') (confidence p)).
        -- constructor. apply fltb_false_fleb; assumption.
        -- inversion Hhd; subst. constructor. assumption.
Qed.

Lemma sort_fold_spec (l : list ProductDetection) :
  forall sorted,
    Forall has_number l -> Forall has_number sorted ->
    Sorted confidence_ge sorted ->
    let out := fold_left (fun sorted p => insert_desc p sorted) l sorted in
    Permutation out (sorted ++ l) /\ Sorted confidence_ge out.
Proof.
  induction l as [|p rest IH]; intros sorted Hl Hacc Hs; simpl.
  - rewrite app_nil_r. split; [reflexivity|exact Hs].
  - apply Forall_cons in Hl as [Hp Hl].
    destruct (IH (insert_desc p sorted) Hl) as [Hperm Hsorted].
    + eapply Permutation_Forall; [|constructor; [exact Hp|exact Hacc]].
      symmetry. apply insert_desc_perm.
    + apply insert_desc_sorted; assumption.
    + split; [|exact Hsorted].
      rewrite Hperm, insert_desc_perm. apply Permutation_middle.
Qed.

(** C10. Whatever the case mapping, [find_similar_products] always
    returns; the list it returns is a permutation of the products whose
    similarity score exceeds 0.5, each with its confidence set to that
    score, and is sorted so that no product has a smaller confidence than
    any product after it. *)
Theorem find_similar_products_spec
    (detected_products : list ProductDetection) (search_query : string) :
  exists out,
    find_similar_products str_lower detected_products search_query = Ok out
    /\ Forall (fun r =>
                 exists product,
                   In product detected_products
                   /\ similarity_score str_lower product
                        (str_lower search_query)
                      = Ok (confidence r)
                   /\ PyFloat.fltb PyFloat.f0_5 (confidence r) = true
                   /\ r = set_confidence (confidence r) product) out
    /\ (forall product score,
          In product detected_products ->
          similarity_score str_lower product (str_lower search_query)
          = Ok score ->
          PyFloat.fltb PyFloat.f0_5 score = true ->
          In (set_confidence score product) out)
    /\ Permutation out
         (similar_of str_lower (str_lower search_query) detected_products)
    /\ StronglySorted confidence_ge out.
Proof.
  unfold find_similar_products. rewrite collect_similar_spec. simpl.
  set (q := str_lower search_query).
  set (kept := similar_of str_lower q detected_products).
  assert (Hkept : Forall has_number kept).
  { apply Forall_forall. intros r Hr. apply list_elem_of_In in Hr.
    apply similar_of_spec in Hr as [p [sc [_ [_ [Hgt ->]]]]].
    apply above_threshold_not_nan. exact Hgt. }
  destruct (sort_fold_spec kept [] Hkept) as [Hperm Hsorted];
    [constructor|constructor|].
  simpl in Hperm. eexists. split; [reflexivity|].
  split; [|split; [|split]].
  - apply Forall_forall. intros r Hr. apply list_elem_of_In in Hr.
    apply (Permutation_in _ Hperm) in Hr.
    apply similar_of_spec in Hr as [p [sc [Hin [Hs [Hgt ->]]]]].
    exists p. simpl. auto.
  - intros p sc Hin Hs Hgt.
    apply (Permutation_in _ (Permutation_sym Hperm)).
    apply similar_of_spec. exists p, sc. auto.
  - exact Hperm.
  - apply Sorted_StronglySorted; [|exact Hsorted].
    intros a b c. apply confidence_ge_trans.
Qed.

End CaseMapping.

End GoogleVisionFacts.

(** ** The properties on the sample inputs *)

Module SampleFacts.
Import Analyze Exact GoogleVision Samples MoreSamples.
Import TimestampFacts EvidenceFacts SamplingFacts FailureFacts AnalysisFacts.

Example sample_floats :
  Prim2SF 1%float = f1 /\ Prim2SF 10%float = f10 /\ Prim2SF 30%float = f30
  /\ Prim2SF 9000%float = f9000 /\ Prim2SF 250%float = f250.
Proof. vm_compute. auto. Qed.

(** The floor is that of the rounded product: for frame 969 at 30 frames
    per second it is 32299, one below the exact quotient 969000 / 30. *)
Example timestamp_rounding :
  timestamp_ms 969 f30 = Ok 32299 /\ (969 * 1000) / 30 = 32300.
Proof. vm_compute. auto. Qed.

Example timestamp_frame_23 : timestamp_ms 23 f30 = Ok 766.
Proof. vm_compute. reflexivity. Qed.

Example threshold_ten_seconds : end_threshold_ms 10 f1 = Ok f9000.
Proof. vm_compute. reflexivity. Qed.

Example uncertainty_takes_precedence :
  counts_as_evidence "The product might be located on the top shelf"
    0 f9000 = false
  /\ counts_as_evidence "The product is located on the top shelf"
       0 f9000 = true.
Proof. vm_compute. auto. Qed.

Example end_window :
  counts_as_evidence "It can be seen at the end of the aisle" 8999 f9000
  = true
  /\ counts_as_evidence "It can be seen at the end of the aisle" 9000 f9000
     = false
  /\ counts_as_evidence "It can be seen on the shelf" 9000 f9000 = true.
Proof. vm_compute. auto. Qed.

Example skip_marker_42 :
  skipped_timeout (Some 42)
  = "[Skipped frame 42 due to timeout. Try again later.]".
Proof. reflexivity. Qed.

(** The end-to-end scenario: ten frames at one frame per second; the
    product is located on frames 0 to 4 and not visible afterwards. *)
Example end_to_end :
  fst (analyze_video_for_query demo_world "shelf.mp4" question 1 s0)
  = Ok (Analysis found_summary [0; 1000; 2000; 3000; 4000] (Some "Tide"))
  /\ tmpfs (snd (analyze_video_for_query demo_world "shelf.mp4" question 1
                   s0)) = ∅
  /\ vision_frame_numbers
       (trace (snd (analyze_video_for_query demo_world "shelf.mp4" question
                      1 s0)))
     = [0; 1; 2; 3; 4; 5; 6; 7; 8; 9].
Proof. vm_compute. auto. Qed.

Example similar_products_sample :
  find_similar_products PyStr.lower [tide_liquid; coke; tide]
    "Buy Tide detergent pods"
  = Ok [set_confidence (S754_finite false 8331659310635417 (-53)) tide].
Proof. vm_compute. reflexivity. Qed.

Lemma timestamp_ms_is_floor_witness :
  0 <= 969 /\ PyFloat.fltb PyFloat.f0_0 f30 = true
  /\ match rounded_timestamp_ms 969 f30 with
     | Some t => timestamp_ms 969 f30 = Ok t
     | None => exists e, timestamp_ms 969 f30 = Raise e
     end
  /\ frame_context (Some 969) (Some f30)
     = rbind (timestamp_ms 969 f30) (fun t => Ok (Some (969, t))).
Proof.
  split; [lia|]. split; [reflexivity|].
  apply (timestamp_ms_is_floor 969 f30); [lia|reflexivity].
Defined.

(** C4, as the specification states it, fails: for frame 969 at 30 frames
    per second [floor(969 / 30 * 1000)] is 32300, and the program computes
    32299, the floor of the binary64 product 32299.999999999996. *)
Lemma timestamp_not_exact_floor :
  0 <= 969 /\ PyFloat.fltb PyFloat.f0_0 f30 = true
  /\ option_map Qred (value f30) = Some (inject_Z 30)
  /\ claimed_timestamp_ms 969 f30 = Some 32300
  /\ rounded_timestamp_ms 969 f30 = Some 32299
  /\ timestamp_ms 969 f30 = Ok 32299
  /\ timestamp_ms 969 f30 <> Ok 32300.
Proof.
  split; [lia|]. split; [reflexivity|]. split; [vm_compute; reflexivity|].
  split; [vm_compute; reflexivity|]. split; [vm_compute; reflexivity|].
  split; [vm_compute; reflexivity|]. vm_compute. discriminate.
Qed.

Lemma evidence_iff_policy_witness :
  analyze_frame aisle_world question f30 250 "frame" v225 s0
  = (Ok v225_counted,
     snd (analyze_frame aisle_world question f30 250 "frame" v225 s0))
  /\ exists t response,
       timestamp_ms (frame_index v225) f30 = Ok t
       /\ response
          = frame_response aisle_world question (frame_index v225) t "frame"
       /\ frame_responses v225_counted
          = frame_responses v225 ++ [frame_entry (frame_index v225) t response]
       /\ (rounded_policy response t 250 f30
           <-> product_timestamps v225_counted
               = product_timestamps v225 ++ [t])
       /\ (~ rounded_policy response t 250 f30
           <-> product_timestamps v225_counted = product_timestamps v225)
       /\ (forall k, In k uncertainty_keywords ->
                     PyStr.contains k (PyStr.lower response) = true ->
                     product_timestamps v225_counted
                     = product_timestamps v225).
Proof.
  assert (H : analyze_frame aisle_world question f30 250 "frame" v225 s0
              = (Ok v225_counted,
                 snd (analyze_frame aisle_world question f30 250 "frame"
                        v225 s0))) by (vm_compute; reflexivity).
  split; [exact H|].
  exact (evidence_iff_policy aisle_world question f30 250 "frame" v225
           v225_counted s0 _ H).
Defined.

(** C1, as the specification states it, fails: in a video of 250 frames
    at 30 frames per second, frame 225 is at 7500 ms, exactly 90% of the
    duration, so not strictly before it; its text has a presence keyword
    and contains "end".  The program counts the timestamp, because the
    binary64 threshold is 7500.000000000001. *)
Lemma end_boundary_counted :
  analyze_frame aisle_world question f30 250 "frame" v225 s0
  = (Ok v225_counted,
     snd (analyze_frame aisle_world question f30 250 "frame" v225 s0))
  /\ timestamp_ms (frame_index v225) f30 = Ok 7500
  /\ frame_response aisle_world question (frame_index v225) 7500 "frame"
     = seen_at_the_end
  /\ product_timestamps v225_counted = product_timestamps v225 ++ [7500]
  /\ PyStr.contains "end" (PyStr.lower seen_at_the_end) = true
  /\ ~ claimed_before_end 7500 250 f30
  /\ ~ claimed_policy seen_at_the_end 7500 250 f30.
Proof.
  assert (Hend : ~ claimed_before_end 7500 250 f30).
  { intros [r [Hr [_ Hlt]]]. vm_compute in Hr. inversion Hr; subst r.
    vm_compute in Hlt. discriminate. }
  split; [vm_compute; reflexivity|]. split; [vm_compute; reflexivity|].
  split; [vm_compute; reflexivity|]. split; [reflexivity|].
  split; [vm_compute; reflexivity|]. split; [exact Hend|].
  intros [_ [_ [H|H]]]; [exact (Hend H)|].
  vm_compute in H. discriminate.
Qed.

(** The same in a whole run that samples frames 0 and 225. *)
Example end_boundary_run :
  fst (analyze_video_for_query aisle_world "aisle.mp4" question 225 s0)
  = Ok (Analysis found_summary [0; 7500] (Some "Tide")).
Proof. vm_compute. reflexivity. Qed.

Lemma summary_overrides_timestamps_witness :
  analyze_video_for_query denying_world "shelf.mp4" question 1 s0
  = (Ok denied,
     snd (analyze_video_for_query denying_world "shelf.mp4" question 1 s0))
  /\ exists total_frames v s1,
       PyFloat.int_of_float
         (cap_get cap_frame_count (VideoCapture denying_world "shelf.mp4"))
       = Ok total_frames
       /\ sample_frames denying_world question 1
            (cap_get cap_fps (VideoCapture denying_world "shelf.mp4"))
            total_frames (VideoCapture denying_world "shelf.mp4") s0
          = (Ok v, s1)
       /\ ((product_timestamps v = []
            \/ PyStr.contains "not visible"
                 (PyStr.lower (final_summary denied)) = true) ->
           timestamps denied = [])
       /\ (product_timestamps v <> [] ->
           PyStr.contains "not visible" (PyStr.lower (final_summary denied))
           = false ->
           timestamps denied = product_timestamps v).
Proof.
  assert (H : analyze_video_for_query denying_world "shelf.mp4" question 1 s0
              = (Ok denied,
                 snd (analyze_video_for_query denying_world "shelf.mp4"
                        question 1 s0))) by (vm_compute; reflexivity).
  split; [exact H|].
  exact (summary_overrides_timestamps denying_world "shelf.mp4" question 1
           denied s0 _ H).
Defined.

Lemma sampling_order_witness :
  sample_frames demo_world question 4 f1 10 shelf_video s0 = (Ok v4, s4)
  /\ exists l : list frame_analysis,
       Forall2 (fun p a =>
                  analysis_of_frame demo_world question f1 10
                    (fst p) (snd p) = Ok a)
               (sampled 4 0 (frames_read shelf_video)) l
       /\ Forall (fun a => fa_index a mod 4 = 0) l
       /\ StronglySorted Z.lt (map fa_index l)
       /\ (forall (k : nat) (fr : frame),
             frames_read shelf_video !! k = Some fr ->
             Z.of_nat k mod 4 = 0 ->
             In (Z.of_nat k) (map fa_index l))
       /\ (forall i, In i (map fa_index l) ->
             exists (k : nat) (fr : frame),
               frames_read shelf_video !! k = Some fr /\ i = Z.of_nat k)
       /\ frame_responses v4 = map fa_entry l
       /\ product_timestamps v4
          = map fa_timestamp (List.filter fa_positive l)
       /\ exists tr,
            trace s4 = trace s0 ++ tr
            /\ vision_frame_numbers tr
               = if credentials_loaded demo_world then map fa_index l
                 else [].
Proof.
  assert (H : sample_frames demo_world question 4 f1 10 shelf_video s0
              = (Ok v4, s4)) by (vm_compute; reflexivity).
  split; [exact H|].
  exact (sampling_order demo_world question 4 f1 10 shelf_video v4 s0 s4 H).
Defined.

Lemma timeout_skips_frame_witness :
  frame_index v3 mod 1 = 0
  /\ timestamp_ms (frame_index v3) f1 = Ok 3000
  /\ chat_completions_create flaky_world
       (VisionReq (Some (frame_index v3, 3000)) question "f3")
     = Raise timeout_error
  /\ PyStr.contains "timeout" (PyStr.lower (exn_msg timeout_error)) = true
  /\ exists v' s',
       loop_body flaky_world question 1 f1 10 "f3" v3 s0 = (Ok v', s')
       /\ frame_responses v'
          = frame_responses v3
              ++ [frame_entry 3 3000
                    "[Skipped frame 3 due to timeout. Try again later.]"]
       /\ frame_index v' = 4
       /\ tmpfs s' = tmpfs s0
       /\ read_loop flaky_world question 1 f1 10 ["f3"; "f4"] v3 s0
          = read_loop flaky_world question 1 f1 10 ["f4"] v' s'.
Proof.
  split; [reflexivity|]. split; [vm_compute; reflexivity|].
  split; [reflexivity|]. split; [reflexivity|].
  refine (proj2 (timeout_skips_frame flaky_world question 1 f1 10 "f3" ["f4"]
                   v3 s0 timeout_error 3000 f9000 _ _ _ _ _ _ _)).
  - lia.
  - reflexivity.
  - vm_compute; reflexivity.
  - vm_compute; reflexivity.
  - reflexivity.
  - reflexivity.
  - reflexivity.
Defined.

Lemma temp_file_removed_witness :
  timestamp_ms (frame_index v3) f1 = Ok 3000
  /\ end_threshold_ms 10 f1 = Ok f9000
  /\ exists v' mid,
       analyze_frame flaky_world question f1 10 "f3" v3 s0
       = (Ok v', State (tmpfs s0)
                   (trace s0 ++ EvTmpCreate (fresh (dom (tmpfs s0)))
                       :: mid ++ [EvTmpRemove (fresh (dom (tmpfs s0)))]))
       /\ Forall (fun ev => is_tmp_event ev = false) mid
       /\ frame_responses v'
          = frame_responses v3
              ++ [frame_entry (frame_index v3) 3000
                    (frame_response flaky_world question (frame_index v3)
                       3000 "f3")].
Proof.
  assert (Ht : timestamp_ms (frame_index v3) f1 = Ok 3000)
    by (vm_compute; reflexivity).
  assert (Hthr : end_threshold_ms 10 f1 = Ok f9000)
    by (vm_compute; reflexivity).
  split; [exact Ht|]. split; [exact Hthr|].
  exact (proj1 (proj2 (temp_file_removed flaky_world question f1 10 "f3" v3
                         s0 3000 f9000 Ht Hthr))).
Defined.

(** C6. The temporary image of a sampled frame is not deleted when the
    timestamp of line 127 raises.  On a source that reports a frame rate of
    0.0 the run ends with [ZeroDivisionError] at frame 0: the image was
    created and written, nothing removes it, and it is still in the store
    when the exception leaves the function. *)
Lemma temp_file_left_behind :
  cap_get cap_fps (VideoCapture still_world "still.mp4") = PyFloat.f0_0
  /\ analyze_video_for_query still_world "still.mp4" question 1 s0
     = (Raise (Exn "ZeroDivisionError" "float division by zero"),
        State (<[0%nat := "f0"]> ∅) [EvTmpCreate 0])
  /\ tmpfs (snd (analyze_video_for_query still_world "still.mp4" question 1
                   s0)) !! 0%nat = Some "f0"
  /\ ~ In (EvTmpRemove 0)
         (trace (snd (analyze_video_for_query still_world "still.mp4"
                        question 1 s0))).
Proof.
  split; [reflexivity|]. split; [vm_compute; reflexivity|].
  split; [vm_compute; reflexivity|].
  vm_compute. intros [H|[]]. discriminate.
Qed.

Lemma unopened_source_witness :
  cap_opened (VideoCapture demo_world "gone.mp4") = false
  /\ sample_frames demo_world question 1
       (cap_get cap_fps (VideoCapture demo_world "gone.mp4")) 0
       (VideoCapture demo_world "gone.mp4") s0
     = (Ok (LoopVars [] [] 0), State (tmpfs s0) (trace s0 ++ [EvRelease])).
Proof.
  split; [reflexivity|].
  exact (proj1 (unopened_source demo_world "gone.mp4" question 1 s0
                  eq_refl)).
Defined.

Lemma credentials_checked_after_read_witness :
  AZURE_OPENAI_API_KEY keyless_world = None
  /\ open_read keyless_world (tmpfs s0) (UserFile "shelf.jpg") = Ok "JPEG"
  /\ extract_products_from_image keyless_world (UserFile "shelf.jpg")
       question None None s0
     = (Ok "Error: Azure OpenAI API credentials are missing. Please check your .env file.",
        State (tmpfs s0) (trace s0 ++ [EvReadFile (UserFile "shelf.jpg")])).
Proof.
  split; [reflexivity|]. split; [reflexivity|].
  apply (credentials_checked_after_read keyless_world (UserFile "shelf.jpg")
           question None None s0 "JPEG" None).
  - right. right. right. reflexivity.
  - reflexivity.
  - reflexivity.
Defined.

(** C8, as the specification states it, fails: with the API key unset and
    an image that cannot be read, the call returns the placeholder of the
    [except] block, not the credentials message. *)
Lemma credentials_message_not_immediate :
  AZURE_OPENAI_API_KEY keyless_world = None
  /\ fst (extract_products_from_image keyless_world (UserFile "gone.jpg")
            question None None s0)
     = Ok "[Skipped frame None due to error: FileNotFoundError]"
  /\ fst (extract_products_from_image keyless_world (UserFile "gone.jpg")
            question None None s0)
     <> Ok credentials_error.
Proof.
  split; [reflexivity|]. split; [vm_compute; reflexivity|].
  vm_compute. discriminate.
Qed.

End SampleFacts.

(** ** More on the per-frame call *)

Module CallFacts.
Import Analyze ExtractFacts PyStrFacts.

Lemma contains_prefix (a b s : string) :
  PyStr.contains (a ++ b) s = true -> PyStr.contains a s = true.
Proof.
  rewrite !contains_spec. intros [pre [post ->]].
  exists pre, (b ++ post)%string.
  assert (H : forall x y z : string,
             ((x ++ y) ++ z = x ++ (y ++ z))%string).
  { intros x y z. induction x as [|c x IH]; [reflexivity|].
    exact (f_equal (String c) IH). }
  rewrite H. reflexivity.
Qed.

(** The three network keywords reduce to two: a message that mentions
    "connection" mentions "connect". *)
Lemma error_response_cases (fn : option Z) (e : exn) :
  error_response fn e
  = if PyStr.contains "timeout" (PyStr.lower (exn_msg e))
    then skipped_timeout fn
    else if PyStr.contains "connect" (PyStr.lower (exn_msg e))
            || PyStr.contains "network" (PyStr.lower (exn_msg e))
         then skipped_connection fn
         else skipped_other fn (exn_type e).
Proof.
  unfold error_response. destruct (PyStr.contains "timeout" _); [reflexivity|].
  cbn [existsb].
  destruct (PyStr.contains "connection" _) eqn:H1.
  - apply (contains_prefix "connect" "ion") in H1. rewrite H1. reflexivity.
  - destruct (PyStr.contains "network" _), (PyStr.contains "connect" _);
      reflexivity.
Qed.

Lemma extract_raise_run (w : world) (p : path) (q : string) (fn : option Z)
    (fps : option spec_float) (s : state) (e : exn) :
  open_read w (tmpfs s) p = Raise e
  \/ (exists bytes, open_read w (tmpfs s) p = Ok bytes
                    /\ frame_context fn fps = Raise e) ->
  exists line,
    extract_products_from_image w p q fn fps s
    = (Ok (error_response fn e),
       State (tmpfs s) (trace s ++ [EvReadFile p; EvPrint line])).
Proof.
  intros H.
  unfold extract_products_from_image, try_except, extract_body,
    encode_image, bind, emit, lift, ret. simpl.
  destruct H as [H|[bytes [H1 H2]]].
  - rewrite H.
    destruct (extract_handler_run fn e
                (State (tmpfs s) (trace s ++ [EvReadFile p]))) as [line ->].
    exists line. simpl. rewrite <- app_assoc. reflexivity.
  - rewrite H1, H2.
    destruct (extract_handler_run fn e
                (State (tmpfs s) (trace s ++ [EvReadFile p]))) as [line ->].
    exists line. simpl. rewrite <- app_assoc. reflexivity.
Qed.

(** The call in the model, where a print cannot fail: it returns a text,
    leaves the temporary files alone, reads the image first, and sends at
    most one request to the model, none when a credential is missing. *)
Lemma extract_call_run (w : world) (p : path) (q : string)
    (fn : option Z) (fps : option spec_float) (s : state) :
  exists r tr,
    extract_products_from_image w p q fn fps s
    = (Ok r, State (tmpfs s) (trace s ++ EvReadFile p :: tr))
    /\ Forall (fun e => is_tmp_event e = false) tr
    /\ (length (List.filter is_vision_request tr) <= 1)%nat
    /\ (credentials_loaded w = false ->
        Forall (fun e => is_vision_request e = false) tr).
Proof.
  assert (Hprints : forall prints,
             Forall (fun e => exists line, e = EvPrint line) prints ->
             Forall (fun e => is_tmp_event e = false) prints
             /\ Forall (fun e => is_vision_request e = false) prints
             /\ List.filter is_vision_request prints = []).
  { induction 1 as [|ev l [line ->] _ [IH1 [IH2 IH3]]].
    - repeat split; constructor.
    - repeat split; try (constructor; [reflexivity|assumption]).
      simpl. exact IH3. }
  destruct (open_read w (tmpfs s) p) as [bytes|e] eqn:Hread.
  - destruct (frame_context fn fps) as [ctx|e] eqn:Hctx.
    + destruct (extract_run w p q fn fps s bytes ctx Hread Hctx)
        as [prints [-> Hp]].
      destruct (Hprints prints Hp) as [H1 [H2 H3]].
      eexists _, _. split; [reflexivity|].
      destruct (credentials_loaded w).
      * split; [constructor; [reflexivity|exact H1]|].
        split; [|discriminate]. simpl. rewrite H3. simpl. lia.
      * split; [constructor|]. split; [simpl; lia|]. intros _. constructor.
    + destruct (extract_raise_run w p q fn fps s e) as [line ->]; [eauto|].
      eexists _, _. split; [reflexivity|].
      split; [repeat constructor|]. split; [simpl; lia|].
      intros _. repeat constructor.
  - destruct (extract_raise_run w p q fn fps s e) as [line ->]; [eauto|].
    eexists _, _. split; [reflexivity|].
    split; [repeat constructor|]. split; [simpl; lia|].
    intros _. repeat constructor.
Qed.

(** X1. The effects of [extract_products_from_image], whatever its
    outcome: it leaves the temporary files alone; its first action is the
    read of the image; it sends at most one request to the model, and none
    when a credential is missing.  (The statement is about what the call
    does, not about whether it returns: a print of the [except] block
    raises on an output that cannot encode the line.) *)
Theorem extract_call_effects (w : world) (p : path) (q : string)
    (fn : option Z) (fps : option spec_float) (s : state) :
  exists tr,
    snd (extract_products_from_image w p q fn fps s)
    = State (tmpfs s) (trace s ++ EvReadFile p :: tr)
    /\ Forall (fun e => is_tmp_event e = false) tr
    /\ (length (List.filter is_vision_request tr) <= 1)%nat
    /\ (credentials_loaded w = false ->
        Forall (fun e => is_vision_request e = false) tr).
Proof.
  destruct (extract_call_run w p q fn fps s) as [r [tr [E H]]].
  exists tr. rewrite E. split; [reflexivity|exact H].
Qed.


End CallFacts.

(** ** The trace of a run *)

Module TraceFacts.
Import Analyze ExtractFacts LoopFacts SamplerFacts SamplingFacts FinishFacts.
Import CallFacts Pipeline.

Section Trace.

Variables (w : world) (user_question : string) (frame_interval : Z).
Variables (fps : spec_float) (total_frames : Z).

Local Abbreviation analyze_frame :=
  (analyze_frame w user_question fps total_frames).
Local Abbreviation read_loop :=
  (read_loop w user_question frame_interval fps total_frames).
Local Abbreviation analysis_of_frame :=
  (analysis_of_frame w user_question fps total_frames).
Local Abbreviation analyses_of := (analyses_of w user_question fps total_frames).

Lemma analyze_frame_events (fr : frame) (v : loop_vars) (s : state)
    (a : frame_analysis) :
  analysis_of_frame (frame_index v) fr = Ok a ->
  exists seg,
    analyze_frame fr v s
    = (Ok (LoopVars (frame_responses v ++ [fa_entry a])
                    (product_timestamps v ++ option_list (fa_evidence a))
                    (frame_index v)),
       State (tmpfs s) (trace s ++ seg))
    /\ frame_events w user_question (fresh (dom (tmpfs s))) a fr seg.
Proof.
  unfold Analyze.analysis_of_frame.
  destruct (timestamp_ms (frame_index v) fps) as [t|e] eqn:Ht;
    simpl; [|discriminate].
  destruct (end_threshold_ms total_frames fps) as [thr|e] eqn:Hthr;
    simpl; [|discriminate].
  intros E. inversion E; subst a; clear E.
  set (n := fresh (dom (tmpfs s))).
  assert (Hfresh : tmpfs s !! n = None).
  { apply not_elem_of_dom. apply is_fresh. }
  set (s2 := State (<[n := fr]> (<[n := EmptyString]> (tmpfs s)))
                   (trace s ++ [EvTmpCreate n])).
  destruct (extract_run w (TmpFile n) user_question
              (Some (frame_index v)) (Some fps) s2 fr
              (Some (frame_index v, t)))
    as [prints [Hrun Hprints]].
  { simpl. rewrite lookup_insert_eq. reflexivity. }
  { apply frame_context_in_loop. exact Ht. }
  exists (EvTmpCreate n :: EvReadFile (TmpFile n)
            :: (if credentials_loaded w
                then EvChat (VisionReq (Some (frame_index v, t))
                               user_question fr) :: prints
                else [])
            ++ [EvTmpRemove n]).
  split.
  - unfold Analyze.analyze_frame, bind, named_temporary_file, imwrite,
      lift, os_remove, ret. simpl. rewrite Ht. fold n. fold s2.
    rewrite Hrun. simpl. rewrite Hthr. simpl.
    rewrite lookup_insert_eq, insert_insert_eq.
    rewrite delete_insert_id by exact Hfresh.
    unfold frame_response, fa_entry, fa_evidence. simpl.
    rewrite <- !app_assoc. simpl.
    destruct (counts_as_evidence _ t thr); simpl;
      rewrite ?app_nil_r; reflexivity.
  - exists prints. split; [reflexivity|exact Hprints].
Qed.

(** The loop, event by event: one segment per sampled frame, and every
    frame uses the same temporary name, free again after each removal. *)
Lemma read_loop_events (frames : list frame) :
  frame_interval <> 0 ->
  forall (v : loop_vars) (s : state) (l : list frame_analysis),
    analyses_of (sampled frame_interval (frame_index v) frames) = Ok l ->
    exists segs,
      read_loop frames v s
      = (Ok (LoopVars (frame_responses v ++ map fa_entry l)
                      (product_timestamps v ++ omap fa_evidence l)
                      (frame_index v + Z.of_nat (length frames))),
         State (tmpfs s) (trace s ++ concat segs))
      /\ Forall2 (fun a seg =>
                    exists fr, frame_events w user_question
                                 (fresh (dom (tmpfs s))) a fr seg) l segs.
Proof.
  intros Hi. induction frames as [|fr rest IH]; intros v s l Hl.
  - simpl in Hl. inversion Hl; subst l. exists []. simpl.
    rewrite !app_nil_r, Z.add_0_r. unfold ret.
    destruct v, s; simpl. split; [reflexivity|constructor].
  - cbn [Analyze.read_loop sampled] in *. unfold bind.
    destruct (frame_index v mod frame_interval =? 0) eqn:Hm.
    + cbn [Analyze.analyses_of] in Hl.
      destruct (analysis_of_frame (frame_index v) fr) as [a|e] eqn:Ha;
        simpl in Hl; [|discriminate].
      destruct (analyses_of _) as [l'|e] eqn:Hl'; simpl in Hl;
        [|discriminate].
      inversion Hl; subst l; clear Hl.
      rewrite (loop_body_sampled w user_question frame_interval fps
                 total_frames fr v s Hi Hm).
      destruct (analyze_frame_events fr v s a Ha) as [seg [-> Hseg]].
      cbn [frame_responses product_timestamps frame_index].
      match goal with
      | |- context [read_loop rest ?v1 ?s1] =>
          destruct (IH v1 s1 l' Hl') as [segs [-> Hsegs]]
      end.
      cbn [frame_responses product_timestamps frame_index tmpfs trace] in *.
      exists (seg :: segs). split.
      * rewrite <- !app_assoc. cbn [length concat].
        replace (frame_index v + 1 + Z.of_nat (length rest))
          with (frame_index v + Z.of_nat (S (length rest))) by lia.
        destruct (fa_evidence a) eqn:Hev; simpl; rewrite Hev;
          simpl; rewrite <- ?app_assoc; reflexivity.
      * constructor; [eauto|exact Hsegs].
    + rewrite (loop_body_skip w user_question frame_interval fps
                 total_frames fr v s Hi Hm).
      match goal with
      | |- context [read_loop rest ?v1 ?s1] =>
          destruct (IH v1 s1 l Hl) as [segs [-> Hsegs]]
      end.
      cbn [frame_responses product_timestamps frame_index tmpfs trace] in *.
      exists segs. split; [|exact Hsegs].
      cbn [length].
      replace (frame_index v + 1 + Z.of_nat (length rest))
        with (frame_index v + Z.of_nat (S (length rest))) by lia.
      reflexivity.
Qed.

(** The sampling stage that returns, event by event. *)
Lemma sample_frames_events (cap : capture) (v : loop_vars) (s s' : state) :
  sample_frames w user_question frame_interval fps total_frames cap s
  = (Ok v, s') ->
  exists l segs,
    analyses_of (sampled frame_interval 0 (frames_read cap)) = Ok l
    /\ v = LoopVars (map fa_entry l) (omap fa_evidence l)
                    (Z.of_nat (length (frames_read cap)))
    /\ s' = State (tmpfs s) (trace s ++ concat segs ++ [EvRelease])
    /\ Forall2 (fun a seg =>
                  exists fr, frame_events w user_question
                               (fresh (dom (tmpfs s))) a fr seg) l segs.
Proof.
  intros H.
  assert (Hloop : exists v1 s1,
             read_loop (frames_read cap) (LoopVars [] [] 0) s = (Ok v1, s1)
             /\ v = v1
             /\ s' = State (tmpfs s1) (trace s1 ++ [EvRelease])).
  { unfold Analyze.sample_frames, frames_read in *.
    unfold bind at 1 in H. destruct (cap_opened cap).
    - destruct (read_loop _ _ s) as [[v1 | e] s1]; [|discriminate].
      unfold bind, emit, ret in H. simpl in H. inversion H; subst.
      eauto.
    - unfold bind, emit, ret in H. simpl in H. inversion H; subst.
      eexists _, _. split; [reflexivity|]. auto. }
  destruct Hloop as [v1 [s1 [Hl [-> ->]]]].
  destruct (read_loop_inv w user_question frame_interval fps total_frames
              _ _ _ _ _ Hl) as [[Hnil|Hi] [l Hal]].
  - rewrite Hnil in *. simpl in *. inversion Hal; subst l.
    unfold ret in Hl. inversion Hl; subst.
    exists [], []. simpl. destruct s1; simpl.
    repeat split; constructor.
  - destruct (read_loop_events (frames_read cap) Hi (LoopVars [] [] 0) s l Hal)
      as [segs [Hrun Hsegs]].
    rewrite Hrun in Hl. inversion Hl; subst. simpl.
    exists l, segs. rewrite <- app_assoc. auto.
Qed.

End Trace.

Section Tail.

Variable w : world.

Lemma default_branch_events (user_question base_summary combined_text : string)
    (pts : list Z) (s : state) (verdict : string) :
  chat_completions_create w
    (EvalReq user_question base_summary combined_text) = Ok verdict ->
  exists line,
    default_branch w user_question base_summary combined_text pts s
    = (Ok (Analysis base_summary pts
             (chosen_name w base_summary user_question)),
       State (tmpfs s)
             (trace s ++ [EvChat (EvalReq user_question base_summary
                                    combined_text);
                          EvPrint (String "010" "--- Evaluation Summary ---");
                          EvPrint (PyStr.strip verdict);
                          EvPrint line])).
Proof.
  intros He.
  unfold default_branch, evaluate_summary_accuracy, choose_product_name,
    chat, bind, emit, lift, ret. simpl. rewrite He.
  eexists. simpl. rewrite <- !app_assoc. reflexivity.
Qed.

Lemma image_call_events (video_path user_question : string) (s : state) :
  exists r seg,
    extract_products_from_image w (UserFile video_path) user_question
      None None s
    = (Ok r, State (tmpfs s) (trace s ++ seg))
    /\ image_events w video_path user_question seg.
Proof.
  unfold image_events.
  destruct (read_file w video_path) as [bytes|e] eqn:Hread.
  - destruct (extract_run w (UserFile video_path) user_question None None s
                bytes None Hread eq_refl) as [prints [-> Hp]].
    eexists _, _. split; [reflexivity|].
    eexists. split; [reflexivity|].
    destruct (credentials_loaded w); [|reflexivity].
    exists prints. split; [reflexivity|exact Hp].
  - destruct (extract_raise_run w (UserFile video_path) user_question
                None None s e) as [line ->]; [left; exact Hread|].
    eexists _, _. split; [reflexivity|].
    eexists. split; [reflexivity|]. constructor; [|constructor].
    exists line. reflexivity.
Qed.

End Tail.

End TraceFacts.

(** ** Whole runs *)

Module RunFacts.
Import Analyze ExtractFacts LoopFacts SamplerFacts SamplingFacts FinishFacts.
Import AnalysisFacts CallFacts Pipeline TraceFacts.

Section Run.

Variable w : world.

(** A run after its sampling stage, step by step. *)
Lemma after_sampling (video_path user_question : string)
    (frame_interval : Z) (s s1 : state) (total_frames : Z) (v : loop_vars) :
  let cap := VideoCapture w video_path in
  let doc := combined_text_of (frame_responses v) in
  PyFloat.int_of_float (cap_get cap_frame_count cap) = Ok total_frames ->
  sample_frames w user_question frame_interval (cap_get cap_fps cap)
    total_frames cap s = (Ok v, s1) ->
  analyze_video_for_query w video_path user_question frame_interval s
  = match chat_completions_create w (SummaryReq user_question doc) with
    | Raise e =>
        (Raise e,
         State (tmpfs s1)
               (trace s1 ++ [EvChat (SummaryReq user_question doc)]))
    | Ok content =>
        finish w video_path user_question (PyStr.strip content) doc
          (product_timestamps v)
          (State (tmpfs s1)
                 (trace s1 ++ [EvChat (SummaryReq user_question doc)]))
    end.
Proof.
  intros cap doc Ht Hs. unfold analyze_video_for_query. fold cap.
  unfold bind at 1, lift. rewrite Ht. unfold bind at 1. rewrite Hs.
  unfold bind at 1, summarize, chat, bind, emit, lift, ret. simpl.
  fold doc. destruct (chat_completions_create w _); reflexivity.
Qed.

Lemma finish_events (video_path user_question base_summary
    combined_text : string) (pts : list Z) (s : state) (verdict : string) :
  chat_completions_create w
    (EvalReq user_question base_summary combined_text) = Ok verdict ->
  exists img line,
    finish w video_path user_question base_summary combined_text pts s
    = (Ok (Analysis base_summary (final_timestamps pts base_summary)
             (chosen_name w base_summary user_question)),
       State (tmpfs s)
             (trace s ++ img
                ++ [EvChat (EvalReq user_question base_summary
                              combined_text);
                    EvPrint (String "010" "--- Evaluation Summary ---");
                    EvPrint (PyStr.strip verdict);
                    EvPrint line]))
    /\ (if is_image_path video_path
        then image_events w video_path user_question img
        else img = []).
Proof.
  intros He. unfold finish. destruct (is_image_path video_path).
  - destruct (image_call_events w video_path user_question s)
      as [r [img [Hcall Himg]]].
    unfold image_branch. unfold bind at 1. rewrite Hcall.
    destruct (default_branch_events w user_question base_summary
                combined_text (final_timestamps pts base_summary)
                (State (tmpfs s) (trace s ++ img)) verdict He) as [line Hd].
    unfold default_branch in Hd. rewrite Hd.
    exists img, line. simpl. rewrite <- app_assoc. auto.
  - destruct (default_branch_events w user_question base_summary
                combined_text (final_timestamps pts base_summary)
                s verdict He) as [line ->].
    exists [], line. auto.
Qed.

(** The actions of a run that returns. *)
Lemma actions_of_run (video_path user_question : string)
    (frame_interval : Z) (d : analysis) (s s' : state) :
  analyze_video_for_query w video_path user_question frame_interval s
  = (Ok d, s') ->
  let cap := VideoCapture w video_path in
  exists total_frames l segs img verdict line,
    PyFloat.int_of_float (cap_get cap_frame_count cap) = Ok total_frames
    /\ analyses_of w user_question (cap_get cap_fps cap) total_frames
         (sampled frame_interval 0 (frames_read cap)) = Ok l
    /\ Forall2 (fun a seg =>
                  exists fr, frame_events w user_question
                               (fresh (dom (tmpfs s))) a fr seg) l segs
    /\ (if is_image_path video_path
        then image_events w video_path user_question img
        else img = [])
    /\ s' = State (tmpfs s)
               (trace s ++ concat segs
                  ++ [EvRelease;
                      EvChat (SummaryReq user_question
                                (combined_text_of (map fa_entry l)))]
                  ++ img
                  ++ [EvChat (EvalReq user_question (final_summary d)
                                (combined_text_of (map fa_entry l)));
                      EvPrint (String "010" "--- Evaluation Summary ---");
                      EvPrint (PyStr.strip verdict);
                      EvPrint line]).
Proof.
  intros H cap.
  destruct (analyze_video_for_query_inv w video_path user_question
              frame_interval d s s' H)
    as [total [v [s1 [content [Ht [Hs [Hc Hd]]]]]]].
  fold cap in Ht, Hs.
  pose proof (after_sampling video_path user_question frame_interval s s1
                total v Ht Hs) as Hrun.
  cbv zeta in Hrun. rewrite Hc in Hrun. rewrite Hrun in H. clear Hrun.
  destruct (sample_frames_events w user_question frame_interval _ total
              cap v s s1 Hs) as [l [segs [Hl [Hv [Hs1 Hsegs]]]]].
  destruct (chat_completions_create w
              (EvalReq user_question (PyStr.strip content)
                 (combined_text_of (frame_responses v)))) as [verdict|e]
    eqn:He.
  - destruct (finish_events video_path user_question (PyStr.strip content)
                (combined_text_of (frame_responses v)) (product_timestamps v)
                (State (tmpfs s1)
                   (trace s1 ++
                      [EvChat (SummaryReq user_question
                                 (combined_text_of (frame_responses v)))]))
                verdict He) as [img [line [Hf Himg]]].
    rewrite Hf in H. inversion H; subst d s'; clear H.
    exists total, l, segs, img, verdict, line.
    split; [exact Ht|]. split; [exact Hl|]. split; [exact Hsegs|].
    split; [exact Himg|].
    subst v s1. cbn [frame_responses final_summary tmpfs trace].
    rewrite <- !app_assoc. reflexivity.
  - destruct (finish_run w video_path user_question (PyStr.strip content)
                (combined_text_of (frame_responses v)) (product_timestamps v)
                (State (tmpfs s1)
                   (trace s1 ++
                      [EvChat (SummaryReq user_question
                                 (combined_text_of (frame_responses v)))])))
      as [tr [Hf _]].
    rewrite Hf, He in H. discriminate.
Qed.

(** X3. A run that returns issued its actions in this order: for each
    sampled frame, in index order, the creation of the temporary image, its
    read, the request with the frame context (when the credentials are
    loaded) and the removal; the release of the capture; one summary request
    carrying the frame responses joined by blank lines; for an image suffix,
    the read of the file and at most one request without frame context; one
    evaluation request carrying the returned summary and the same evidence
    document; three printed lines.  The store of temporary files is as it
    was before the run. *)
Theorem run_in_order (video_path user_question : string)
    (frame_interval : Z) (d : analysis) (s s' : state) :
  analyze_video_for_query w video_path user_question frame_interval s
  = (Ok d, s') ->
  let cap := VideoCapture w video_path in
  exists total_frames l segs img verdict line,
    PyFloat.int_of_float (cap_get cap_frame_count cap) = Ok total_frames
    /\ analyses_of w user_question (cap_get cap_fps cap) total_frames
         (sampled frame_interval 0 (frames_read cap)) = Ok l
    /\ Forall2 (fun a seg =>
                  exists fr, frame_events w user_question
                               (fresh (dom (tmpfs s))) a fr seg) l segs
    /\ (if is_image_path video_path
        then image_events w video_path user_question img
        else img = [])
    /\ s' = State (tmpfs s)
               (trace s ++ concat segs
                  ++ [EvRelease;
                      EvChat (SummaryReq user_question
                                (combined_text_of (map fa_entry l)))]
                  ++ img
                  ++ [EvChat (EvalReq user_question (final_summary d)
                                (combined_text_of (map fa_entry l)));
                      EvPrint (String "010" "--- Evaluation Summary ---");
                      EvPrint (PyStr.strip verdict);
                      EvPrint line]).
Proof.
  exact (actions_of_run video_path user_question frame_interval d s s').
Qed.


(** X5. With any credential unset, a run that returns has sent no vision
    request at all, has recorded the credentials message as the response of
    every sampled frame, and returns no timestamp. *)
Theorem missing_credentials_run (video_path user_question : string)
    (frame_interval : Z) (d : analysis) (s s' : state) :
  AZURE_OPENAI_ENDPOINT w = None
  \/ AZURE_OPENAI_DEPLOYMENT_NAME w = None
  \/ AZURE_OPENAI_API_VERSION w = None
  \/ AZURE_OPENAI_API_KEY w = None ->
  analyze_video_for_query w video_path user_question frame_interval s
  = (Ok d, s') ->
  let cap := VideoCapture w video_path in
  timestamps d = []
  /\ (exists tr, trace s' = trace s ++ tr
                 /\ Forall (fun e => is_vision_request e = false) tr)
  /\ exists total_frames v s1 l,
       sample_frames w user_question frame_interval (cap_get cap_fps cap)
         total_frames cap s = (Ok v, s1)
       /\ frame_responses v = map fa_entry l
       /\ Forall (fun a => fa_response a = credentials_error) l.
Proof.
  intros Hcred H cap.
  assert (Hc : credentials_loaded w = false).
  { unfold credentials_loaded.
    destruct Hcred as [E|[E|[E|E]]]; rewrite E; simpl;
      rewrite ?andb_false_r; reflexivity. }
  assert (Hprint : forall tr, Forall is_print tr ->
                     Forall (fun e => is_vision_request e = false) tr).
  { intros tr Htr. eapply Forall_impl; [exact Htr|].
    intros ev [line ->]. reflexivity. }
  destruct (analyze_video_for_query_inv w video_path user_question
              frame_interval d s s' H)
    as [total [v [s1 [content [Ht [Hs [_ Hd]]]]]]].
  destruct (sample_frames_events w user_question frame_interval _ total
              cap v s s1 Hs) as [l0 [segs0 [Hl0 [Hv [_ _]]]]].
  destruct (actions_of_run video_path user_question frame_interval d s s' H)
    as [total' [l [segs [img [verdict [line [Ht' [Hl [Hsegs [Himg ->]]]]]]]]]].
  fold cap in Ht, Ht', Hl0, Hl. rewrite Ht in Ht'. inversion Ht'; subst total'.
  rewrite Hl0 in Hl. inversion Hl; subst l0. clear Hl Ht'.
  assert (Hresp : Forall (fun a => fa_response a = credentials_error
                                   /\ fa_positive a = false) l).
  { destruct (analyses_of_spec w user_question _ total _ l Hl0) as [_ Hall].
    clear -Hall Hc. induction Hall as [|p a l1 l2 Ha _ IH]; constructor;
      [|exact IH].
    apply analysis_of_frame_spec in Ha as [thr [_ [_ [_ [Hr Hp]]]]].
    unfold frame_response in Hr. rewrite Hc in Hr. rewrite Hp, Hr.
    split; reflexivity. }
  split; [|split].
  - rewrite Hd, Hv. cbn [timestamps product_timestamps].
    replace (omap fa_evidence l) with (@nil Z); [reflexivity|].
    clear -Hresp. induction Hresp as [|a l1 [_ Hp] _ IH]; [reflexivity|].
    cbn [omap list_omap]. unfold fa_evidence at 1. rewrite Hp. exact IH.
  - eexists. split; [reflexivity|].
    apply Forall_app. split.
    + clear -Hsegs Hc Hprint. induction Hsegs as [|a seg l1 l2 [fr Hseg] _ IH];
        simpl; [constructor|].
      apply Forall_app. split; [|exact IH].
      destruct Hseg as [prints [-> _]]. rewrite Hc. repeat constructor.
    + constructor; [reflexivity|]. constructor; [reflexivity|].
      apply Forall_app. split; [|repeat constructor].
      destruct (is_image_path video_path); [|subst img; constructor].
      destruct Himg as [tail [-> Htail]].
      constructor; [reflexivity|].
      destruct (read_file w video_path); [|auto].
      rewrite Hc in Htail. subst tail. constructor.
  - exists total, v, s1, l. split; [exact Hs|]. split; [rewrite Hv; reflexivity|].
    eapply Forall_impl; [exact Hresp|]. intros a [Ha _]. exact Ha.
Qed.

End Run.

End RunFacts.

(** ** Edge cases of the sampling stage *)

Module EdgeFacts.
Import Analyze ExtractFacts LoopFacts SamplerFacts SamplingFacts.

(** Multiples of [k] from [index] on, counted. *)
Lemma sampled_length (k : Z) (frames : list frame) :
  0 < k ->
  forall index,
    Z.of_nat (length (sampled k index frames))
    = (index + Z.of_nat (length frames) + k - 1) / k - (index + k - 1) / k.
Proof.
  intros Hk. induction frames as [|fr rest IH]; intros index.
  - cbn [sampled length]. change (Z.of_nat 0) with 0.
    replace (index + 0 + k - 1) with (index + k - 1) by lia. lia.
  - cbn [sampled length].
    assert (Hstep : (index + 1 + k - 1) / k - (index + k - 1) / k
                    = if index mod k =? 0 then 1 else 0).
    { assert (Hk0 : k <> 0) by lia.
      pose proof (Z.div_mod index k Hk0) as Hdm.
      pose proof (Z.mod_pos_bound index k Hk) as Hb.
      set (q := index / k) in *. set (r := index mod k) in *.
      clearbody q r. subst index.
      replace (k * q + r + 1 + k - 1) with (r + (q + 1) * k) by lia.
      rewrite Z.div_add, (Z.div_small r k) by lia.
      destruct (r =? 0) eqn:Hm.
      - apply Z.eqb_eq in Hm. subst r.
        replace (k * q + 0 + k - 1) with ((k - 1) + q * k) by lia.
        rewrite Z.div_add, (Z.div_small (k - 1) k) by lia. lia.
      - apply Z.eqb_neq in Hm.
        replace (k * q + r + k - 1) with ((r - 1) + (q + 1) * k) by lia.
        rewrite Z.div_add, (Z.div_small (r - 1) k) by lia. lia. }
    specialize (IH (index + 1)).
    replace (index + Z.of_nat (S (length rest)) + k - 1)
      with (index + 1 + Z.of_nat (length rest) + k - 1) by lia.
    destruct (index mod k =? 0); cbn [length]; lia.
Qed.

Section Stage.

Variables (w : world) (user_question : string).

(** X6. With a positive interval [k], a sampling stage that returns has read
    every frame ([frame_index] ends at the number [n] of frames) and has
    recorded exactly [ceil(n / k)] frame responses, one for each of the
    frames 0, k, 2k, ... *)
Theorem responses_counted (frame_interval : Z) (fps : spec_float)
    (total_frames : Z) (cap : capture) (v : loop_vars) (s s' : state) :
  0 < frame_interval ->
  sample_frames w user_question frame_interval fps total_frames cap s
  = (Ok v, s') ->
  frame_index v = Z.of_nat (length (frames_read cap))
  /\ Z.of_nat (length (frame_responses v))
     = (Z.of_nat (length (frames_read cap)) + frame_interval - 1)
       / frame_interval.
Proof.
  intros Hk H.
  assert (Hloop : exists s1,
             read_loop w user_question frame_interval fps total_frames
               (frames_read cap) (LoopVars [] [] 0) s = (Ok v, s1)).
  { unfold sample_frames, frames_read in *.
    unfold bind at 1 in H. destruct (cap_opened cap).
    - destruct (read_loop _ _ _ _ _ _ _ s) as [[v1 | e] s1]; [|discriminate].
      unfold bind, emit, ret in H. simpl in H. inversion H; subst. eauto.
    - unfold bind, emit, ret in H. simpl in H. inversion H; subst.
      eexists. reflexivity. }
  destruct Hloop as [s1 Hl].
  apply read_loop_result in Hl as [l [tr [Hl [-> _]]]].
  cbn [frame_index frame_responses app].
  split; [lia|].
  destruct (analyses_of_spec w user_question fps total_frames _ l Hl)
    as [Hidx _].
  apply (f_equal (@length Z)) in Hidx. rewrite !length_map in Hidx.
  rewrite length_map, Hidx, (sampled_length frame_interval _ Hk 0).
  replace (0 + frame_interval - 1) with (frame_interval - 1) by lia.
  rewrite (Z.div_small (frame_interval - 1)) by lia.
  rewrite Z.add_0_l. lia.
Qed.

(** X7. An interval of zero is not rejected up front: on a source that
    opened and delivers a frame the run raises [ZeroDivisionError] at the
    first frame, before any temporary file is created and before any
    request, the release of the capture included. *)
Theorem zero_interval (video_path : string) (s : state) (fr : frame)
    (rest : list frame) (total_frames : Z) :
  let cap := VideoCapture w video_path in
  cap_opened cap = true ->
  cap_frames cap = fr :: rest ->
  PyFloat.int_of_float (cap_frame_count cap) = Ok total_frames ->
  exists e,
    analyze_video_for_query w video_path user_question 0 s = (Raise e, s)
    /\ exn_type e = "ZeroDivisionError".
Proof.
  intros cap Hopen Hframes Ht.
  unfold analyze_video_for_query. fold cap. unfold cap_get. rewrite Hopen.
  unfold bind at 1, lift. rewrite Ht.
  unfold bind at 1, sample_frames. rewrite Hopen, Hframes.
  cbn [read_loop]. unfold bind, loop_body, PyInt.mod_, lift, bind. simpl.
  eexists. split; [destruct s; reflexivity|reflexivity].
Qed.

(** X8. A frame rate of zero on a source that opened and delivers a frame:
    the run raises [ZeroDivisionError] at the timestamp of frame 0, after the
    temporary image was written and before the per-frame call.  No request
    is made, the capture is not released, and the temporary image stays in
    the store. *)
Theorem zero_frame_rate (video_path : string) (frame_interval : Z)
    (s : state) (fr : frame) (rest : list frame) (total_frames : Z)
    (sign : bool) :
  let cap := VideoCapture w video_path in
  cap_opened cap = true ->
  cap_fps cap = S754_zero sign ->
  cap_frames cap = fr :: rest ->
  PyFloat.int_of_float (cap_frame_count cap) = Ok total_frames ->
  frame_interval <> 0 ->
  let n := fresh (dom (tmpfs s)) in
  tmpfs s !! n = None
  /\ exists e,
       analyze_video_for_query w video_path user_question frame_interval s
       = (Raise e,
          State (<[n := fr]> (tmpfs s)) (trace s ++ [EvTmpCreate n]))
       /\ exn_type e = "ZeroDivisionError".
Proof.
  intros cap Hopen Hfps Hframes Ht Hk n.
  split; [apply not_elem_of_dom, is_fresh|].
  unfold analyze_video_for_query. fold cap. unfold cap_get. rewrite Hopen.
  unfold bind at 1, lift. rewrite Ht.
  unfold bind at 1, sample_frames. rewrite Hopen, Hframes, Hfps.
  cbn [read_loop]. unfold bind at 1. unfold bind at 1.
  rewrite (loop_body_sampled w user_question frame_interval (S754_zero sign)
             total_frames fr (LoopVars [] [] 0) s Hk)
    by reflexivity.
  unfold analyze_frame, bind, named_temporary_file, imwrite, lift. simpl.
  fold n. rewrite insert_insert_eq.
  eexists. split; reflexivity.
Qed.

End Stage.

End EdgeFacts.

(** ** Placeholders are not evidence *)

Module PlaceholderFacts.
Import Analyze ExtractFacts SamplerFacts PyStrFacts CallFacts Pipeline.

Lemma append_assoc (x y z : string) :
  ((x ++ y) ++ z = x ++ (y ++ z))%string.
Proof.
  induction x as [|c x IH]; [reflexivity|]. exact (f_equal (String c) IH).
Qed.

Lemma lower_append (a b : string) :
  PyStr.lower (a ++ b) = (PyStr.lower a ++ PyStr.lower b)%string.
Proof.
  induction a as [|c a IH]; [reflexivity|].
  exact (f_equal (String (PyStr.lower_char c)) IH).
Qed.

Lemma lower_digits (d : string) :
  all_chars is_digit_or_minus d = true -> PyStr.lower d = d.
Proof.
  induction d as [|c d IH]; [reflexivity|]. cbn [all_chars PyStr.lower].
  intros H. apply andb_true_iff in H as [Hc Hd]. rewrite (IH Hd). f_equal.
  destruct c as [[] [] [] [] [] [] [] []]; try discriminate Hc; reflexivity.
Qed.

Lemma uint_digits (d : Decimal.uint) :
  all_chars is_digit_or_minus (NilEmpty.string_of_uint d) = true.
Proof. induction d; simpl; auto. Qed.

(** [str(n)] is a non-empty string of digits, with a sign if negative. *)
Lemma str_of_int_digits (n : Z) :
  all_chars is_digit_or_minus (PyStr.str_of_int n) = true
  /\ PyStr.str_of_int n <> EmptyString.
Proof.
  unfold PyStr.str_of_int, NilZero.string_of_int.
  destruct (Z.to_int n) as [d|d].
  - unfold NilZero.string_of_uint. destruct d; simpl;
      (split; [try reflexivity; apply uint_digits|discriminate]).
  - split; [|discriminate]. cbn [all_chars].
    unfold NilZero.string_of_uint. destruct d; simpl; try reflexivity;
      apply uint_digits.
Qed.

Lemma startswith_before (k a d b : string) (c : ascii) :
  has_char c k = false ->
  PyStr.startswith k (a ++ String c d ++ b) = PyStr.startswith k a.
Proof.
  revert a. induction k as [|x k IH]; intros a Hc; [reflexivity|].
  cbn [has_char] in Hc. apply orb_false_iff in Hc as [Hx Hk].
  destruct a as [|y a].
  - change (PyStr.startswith (String x k) (String c (d ++ b)) = false).
    cbn [PyStr.startswith]. rewrite Ascii.eqb_sym, Hx. reflexivity.
  - change (PyStr.startswith (String x k) (String y (a ++ String c d ++ b))
            = PyStr.startswith (String x k) (String y a)).
    cbn [PyStr.startswith]. rewrite (IH a Hk). reflexivity.
Qed.

Lemma contains_after (k d b : string) :
  k <> EmptyString ->
  (forall c, has_char c d = true -> has_char c k = false) ->
  PyStr.contains k (d ++ b) = PyStr.contains k b.
Proof.
  intros Hk. induction d as [|c d IH]; intros Hd; [reflexivity|].
  change (PyStr.contains k (String c (d ++ b)) = PyStr.contains k b).
  cbn [PyStr.contains].
  rewrite IH by (intros c' Hc'; apply Hd; cbn [has_char]; rewrite Hc';
                 apply orb_true_r).
  replace (PyStr.startswith k (String c (d ++ b))) with false; [reflexivity|].
  destruct k as [|x k]; [contradiction|]. cbn [PyStr.startswith].
  assert (Hx : has_char c (String x k) = false).
  { apply Hd. cbn [has_char]. rewrite Ascii.eqb_refl. reflexivity. }
  cbn [has_char] in Hx. apply orb_false_iff in Hx as [Hx _].
  rewrite Ascii.eqb_sym, Hx. reflexivity.
Qed.

(** A keyword that shares no character with a non-empty run [d] occurs in
    [a ++ d ++ b] only inside [a] or inside [b]. *)
Lemma contains_around (k a d b : string) :
  k <> EmptyString -> d <> EmptyString ->
  (forall c, has_char c d = true -> has_char c k = false) ->
  PyStr.contains k (a ++ d ++ b) = PyStr.contains k a || PyStr.contains k b.
Proof.
  intros Hk Hd Hkd. induction a as [|y a IH].
  - change (PyStr.contains k (d ++ b)
            = PyStr.contains k EmptyString || PyStr.contains k b).
    rewrite (contains_after k d b Hk Hkd).
    destruct k; [contradiction|reflexivity].
  - change (PyStr.contains k (String y (a ++ d ++ b))
            = PyStr.contains k (String y a) || PyStr.contains k b).
    cbn [PyStr.contains]. rewrite IH, <- orb_assoc. f_equal.
    destruct d as [|c d]; [contradiction|].
    change (PyStr.startswith k (String y a ++ String c d ++ b)
            = PyStr.startswith k (String y a)).
    apply startswith_before. apply Hkd. cbn [has_char].
    rewrite Ascii.eqb_refl. reflexivity.
Qed.

Lemma has_char_all (P : ascii -> bool) (d : string) (c : ascii) :
  all_chars P d = true -> has_char c d = true -> P c = true.
Proof.
  induction d as [|x d IH]; [discriminate|]. cbn [all_chars has_char].
  intros H Hc. apply andb_true_iff in H as [Hx Hd].
  apply orb_true_iff in Hc as [Hc|Hc]; [|exact (IH Hd Hc)].
  apply Ascii.eqb_eq in Hc. subst. exact Hx.
Qed.

(** No presence keyword contains a digit or a minus sign. *)
Lemma keywords_have_no_digit (k : string) (c : ascii) :
  In k presence_keywords -> is_digit_or_minus c = true ->
  has_char c k = false.
Proof.
  intros Hk Hc.
  destruct c as [[] [] [] [] [] [] [] []]; try discriminate Hc;
    repeat (destruct Hk as [<-|Hk]; [reflexivity|]); destruct Hk.
Qed.

Lemma presence_around (a d b : string) :
  all_chars is_digit_or_minus d = true -> d <> EmptyString ->
  existsb (fun k => PyStr.contains k (a ++ d ++ b)) presence_keywords
  = existsb (fun k => PyStr.contains k a || PyStr.contains k b)
            presence_keywords.
Proof.
  intros Hd Hne.
  assert (H : forall k, In k presence_keywords ->
                PyStr.contains k (a ++ d ++ b)
                = PyStr.contains k a || PyStr.contains k b).
  { intros k Hk. apply contains_around; [|exact Hne|].
    - repeat (destruct Hk as [<-|Hk]; [discriminate|]). destruct Hk.
    - intros c Hc. apply (keywords_have_no_digit k c Hk).
      exact (has_char_all _ d c Hd Hc). }
  revert H. generalize presence_keywords as ks.
  induction ks as [|k ks IH]; intros H; [reflexivity|].
  cbn [existsb]. rewrite (H k (or_introl eq_refl)), IH; [reflexivity|].
  intros k' Hk'. apply H. right. exact Hk'.
Qed.

Lemma timeout_marker_not_evidence (fn : option Z) (t : Z)
    (threshold : spec_float) :
  counts_as_evidence (skipped_timeout fn) t threshold = false.
Proof.
  destruct fn as [n|]; [|reflexivity].
  destruct (str_of_int_digits n) as [Hd Hne].
  unfold counts_as_evidence, skipped_timeout, PyStr.str_of_opt_int.
  rewrite !lower_append, (lower_digits _ Hd), (presence_around _ _ _ Hd Hne).
  reflexivity.
Qed.

Lemma connection_marker_not_evidence (fn : option Z) (t : Z)
    (threshold : spec_float) :
  counts_as_evidence (skipped_connection fn) t threshold = false.
Proof.
  destruct fn as [n|]; [|reflexivity].
  destruct (str_of_int_digits n) as [Hd Hne].
  unfold counts_as_evidence, skipped_connection, PyStr.str_of_opt_int.
  rewrite !lower_append, (lower_digits _ Hd), (presence_around _ _ _ Hd Hne).
  reflexivity.
Qed.

(** X9. A sampled frame whose request to the model fails with a message
    that mentions "timeout", "connect" or "network" never contributes a
    timestamp, whatever its index, its timestamp and the length of the
    video: the placeholder recorded for it contains no presence keyword.  The
    same holds for a frame answered by the credentials message. *)
Theorem failed_frames_are_not_evidence (w : world) (user_question : string)
    (fps : spec_float) (total_frames : Z) (i : Z) (fr : frame)
    (a : frame_analysis) :
  analysis_of_frame w user_question fps total_frames i fr = Ok a ->
  (credentials_loaded w = false
   \/ exists e,
        chat_completions_create w
          (VisionReq (Some (i, fa_timestamp a)) user_question fr) = Raise e
        /\ (PyStr.contains "timeout" (PyStr.lower (exn_msg e)) = true
            \/ PyStr.contains "connect" (PyStr.lower (exn_msg e)) = true
            \/ PyStr.contains "network" (PyStr.lower (exn_msg e)) = true)) ->
  fa_positive a = false /\ fa_evidence a = None.
Proof.
  intros Ha H.
  apply analysis_of_frame_spec in Ha as [thr [_ [_ [_ [Hr Hp]]]]].
  assert (Hpos : fa_positive a = false).
  { rewrite Hp, Hr. unfold frame_response.
    destruct H as [Hc|[e [He Hmsg]]].
    - rewrite Hc. reflexivity.
    - destruct (credentials_loaded w); [|reflexivity].
      rewrite He, error_response_cases.
      destruct (PyStr.contains "timeout" _);
        [apply timeout_marker_not_evidence|].
      destruct Hmsg as [Hm|[Hm|Hm]]; [discriminate| |]; rewrite Hm;
        rewrite ?orb_true_r; apply connection_marker_not_evidence. }
  split; [exact Hpos|]. unfold fa_evidence. rewrite Hpos. reflexivity.
Qed.

End PlaceholderFacts.

(** ** The helpers of the detector *)

Module DetectorFacts.
Import PyStr PyStrFacts Analyze GoogleVision Detector.

Lemma fold_fields_lookup {V : Type} (product_info : gmap string V)
    (fields : list string) (field : string) :
  forall attributes : gmap string V,
    fold_left (fun attributes field =>
                 match product_info !! field with
                 | Some v => <[field := v]> attributes
                 | None => attributes
                 end) fields attributes !! field
    = if bool_decide (field ∈ fields)
      then match product_info !! field with
           | Some v => Some v
           | None => attributes !! field
           end
      else attributes !! field.
Proof.
  induction fields as [|f fields IH]; intros attributes; simpl.
  - reflexivity.
  - rewrite IH. destruct (decide (field = f)) as [->|Hne].
    + rewrite (bool_decide_eq_true_2 (f ∈ f :: fields)) by left.
      destruct (product_info !! f) as [v|] eqn:Hv.
      * rewrite lookup_insert_eq. destruct (bool_decide _); reflexivity.
      * destruct (bool_decide _); reflexivity.
    + assert (Hiff : field ∈ f :: fields <-> field ∈ fields).
      { rewrite elem_of_cons. tauto. }
      rewrite (bool_decide_ext _ _ Hiff).
      destruct (product_info !! f) as [v|].
      * rewrite lookup_insert_ne by congruence. reflexivity.
      * reflexivity.
Qed.

Lemma extract_attributes_lookup {V : Type} (product_info : gmap string V)
    (field : string) :
  _extract_attributes product_info !! field
  = if bool_decide (field ∈ attr_fields) then product_info !! field else None.
Proof.
  unfold _extract_attributes. rewrite fold_fields_lookup, lookup_empty.
  destruct (bool_decide _); [|reflexivity].
  destruct (product_info !! field); reflexivity.
Qed.

(** X10. [_extract_attributes] copies exactly the five attribute fields the
    dictionary has: each of them keeps its value, every other key is
    dropped, and nothing is added; extracting a second time changes
    nothing. *)
Theorem extract_attributes_spec {V : Type} (product_info : gmap string V) :
  (forall field,
      _extract_attributes product_info !! field
      = if bool_decide (field ∈ attr_fields)
        then product_info !! field else None)
  /\ _extract_attributes product_info ⊆ product_info
  /\ _extract_attributes (_extract_attributes product_info)
     = _extract_attributes product_info.
Proof.
  split; [apply extract_attributes_lookup|]. split.
  - apply map_subseteq_spec. intros field v.
    rewrite extract_attributes_lookup.
    destruct (bool_decide _); [tauto|discriminate].
  - apply map_eq. intros field. rewrite !extract_attributes_lookup.
    destruct (bool_decide _); reflexivity.
Qed.

(** The fallback in the model, where a print cannot fail. *)
Lemma fallback_run (w : world) (imported : result unit)
    (image_path : string) (s : state) :
  exists tr,
    _fallback_product_detection w imported image_path s
    = (Ok [], State (tmpfs s) (trace s ++ tr))
    /\ Forall (fun e => is_tmp_event e = false) tr.
Proof.
  unfold _fallback_product_detection, try_except, bind, lift, emit, ret, raise.
  destruct imported as [[]|e]; simpl.
  - destruct (ExtractFacts.extract_total w (UserFile image_path)
                fallback_question None None s) as [r [tr [-> Htr]]].
    destruct r as [|c r]; simpl.
    + exists tr. split; [reflexivity|exact Htr].
    + rewrite <- app_assoc. eexists. split; [reflexivity|].
      apply Forall_app. split; [exact Htr|]. repeat constructor.
  - eexists. split; [reflexivity|]. repeat constructor.
Qed.

(** X11. The fallback detection never yields a product: whatever the
    import, the image, the credentials and the model do, a list it returns
    is empty, and it leaves the temporary files as they are.  (The analysis
    it calls returns a text, never a dictionary with a summary.  The
    statement does not say that the function returns: a print of an
    [except] block raises on an output that cannot encode the line.) *)
Theorem fallback_yields_nothing (w : world) (imported : result unit)
    (image_path : string) (s : state) :
  (forall products s',
      _fallback_product_detection w imported image_path s
      = (Ok products, s') ->
      products = [])
  /\ exists tr,
       snd (_fallback_product_detection w imported image_path s)
       = State (tmpfs s) (trace s ++ tr)
       /\ Forall (fun e => is_tmp_event e = false) tr.
Proof.
  destruct (fallback_run w imported image_path s) as [tr [E Htr]].
  rewrite E. split.
  - intros products s' H. inversion H; subst. reflexivity.
  - exists tr. split; [reflexivity|exact Htr].
Qed.

(** *** Code points and white space *)

Lemma text_append_assoc (x y z : string) :
  ((x ++ y) ++ z = x ++ (y ++ z))%string.
Proof.
  induction x as [|c x IH]; [reflexivity|exact (f_equal (String c) IH)].
Qed.

Lemma text_append_empty (x : string) : (x ++ EmptyString = x)%string.
Proof.
  induction x as [|c x IH]; [reflexivity|exact (f_equal (String c) IH)].
Qed.

Lemma text_of_cons (c : string) (l : list string) :
  text_of (c :: l) = (c ++ text_of l)%string.
Proof. reflexivity. Qed.

Lemma code_points_from_spec (s : string) :
  forall k l,
    code_points_from s = (k, l) ->
    all_continuation k = true
    /\ Forall (fun c => regular c = true) l
    /\ s = (k ++ text_of l)%string.
Proof.
  induction s as [|c s IH]; intros k l; cbn [code_points_from].
  - intros E. inversion E; subst. repeat split. constructor.
  - destruct (code_points_from s) as [k0 l0].
    destruct (IH k0 l0 eq_refl) as [Hk [Hl Hs]].
    destruct (is_continuation c) eqn:Hc; intros E; inversion E; subst k l.
    + split; [cbn [all_continuation]; rewrite Hc, Hk; reflexivity|].
      split; [exact Hl|]. exact (f_equal (String c) Hs).
    + split; [reflexivity|]. split.
      * constructor; [|exact Hl]. cbn [regular]. rewrite Hc, Hk. reflexivity.
      * rewrite text_of_cons. exact (f_equal (String c) Hs).
Qed.

Lemma code_points_well_formed (s : string) : well_formed (code_points s).
Proof.
  unfold code_points. destruct (code_points_from s) as [k l] eqn:E.
  destruct (code_points_from_spec s k l E) as [Hk [Hl _]].
  destruct k as [|a k].
  - destruct Hl as [|c l Hc Hl]; [exact I|]. split; [left; exact Hc|exact Hl].
  - split; [right; split; [discriminate|exact Hk]|exact Hl].
Qed.

Lemma text_of_code_points (s : string) : text_of (code_points s) = s.
Proof.
  unfold code_points. destruct (code_points_from s) as [k l] eqn:E.
  destruct (code_points_from_spec s k l E) as [_ [_ Hs]].
  destruct k; symmetry; exact Hs.
Qed.

Lemma code_points_from_text (l : list string) :
  Forall (fun c => regular c = true) l ->
  forall k, all_continuation k = true ->
            code_points_from (k ++ text_of l) = (k, l).
Proof.
  induction 1 as [|c l Hc Hl IH].
  - intros k. induction k as [|b k IHk]; [reflexivity|].
    cbn [all_continuation]. intros Hk. apply andb_true_iff in Hk as [Hb Hk].
    change (code_points_from (String b (k ++ text_of [])) = (String b k, [])).
    cbn [code_points_from]. rewrite (IHk Hk), Hb. reflexivity.
  - assert (Hhead : code_points_from (text_of (c :: l))
                    = (EmptyString, c :: l)).
    { destruct c as [|a k']; [discriminate|].
      cbn [regular] in Hc. apply andb_true_iff in Hc as [Ha Hk'].
      apply negb_true_iff in Ha.
      change (code_points_from (String a (k' ++ text_of l))
              = (EmptyString, String a k' :: l)).
      cbn [code_points_from]. rewrite (IH k' Hk'), Ha. reflexivity. }
    intros k. induction k as [|b k IHk]; [intros _; exact Hhead|].
    cbn [all_continuation]. intros Hk. apply andb_true_iff in Hk as [Hb Hk].
    change (code_points_from (String b (k ++ text_of (c :: l)))
            = (String b k, c :: l)).
    cbn [code_points_from]. rewrite (IHk Hk), Hb. reflexivity.
Qed.

(** The code points of the text of a well-formed list are the list. *)
Lemma code_points_text_of (l : list string) :
  well_formed l -> code_points (text_of l) = l.
Proof.
  destruct l as [|c l]; [reflexivity|]. intros [[Hc|[Hne Hc]] Hl].
  - pose proof (code_points_from_text (c :: l) (List.Forall_cons _ c l Hc Hl)
                  EmptyString eq_refl) as H.
    change (code_points_from (text_of (c :: l)) = (EmptyString, c :: l)) in H.
    unfold code_points. rewrite H. reflexivity.
  - unfold code_points. rewrite text_of_cons.
    rewrite (code_points_from_text l Hl c Hc).
    destruct c; [contradiction|reflexivity].
Qed.

Lemma well_formed_tail (c : string) (l : list string) :
  well_formed (c :: l) -> well_formed l.
Proof.
  intros [_ Hl]. destruct Hl as [|d l Hd Hl]; [exact I|].
  split; [left; exact Hd|exact Hl].
Qed.

Lemma lstrip_points_well_formed (l : list string) :
  well_formed l -> well_formed (lstrip_points l).
Proof.
  induction l as [|c l IH]; [trivial|]. intros H. cbn [lstrip_points].
  destruct (is_whitespace c); [|exact H].
  apply IH. exact (well_formed_tail c l H).
Qed.

Lemma rstrip_points_regular (l : list string) :
  Forall (fun c => regular c = true) l ->
  Forall (fun c => regular c = true) (rstrip_points l).
Proof.
  induction 1 as [|c l Hc Hl IH]; [constructor|]. cbn [rstrip_points].
  destruct (rstrip_points l) as [|d r].
  - destruct (is_whitespace c); repeat constructor. exact Hc.
  - constructor; assumption.
Qed.

Lemma rstrip_points_well_formed (l : list string) :
  well_formed l -> well_formed (rstrip_points l).
Proof.
  destruct l as [|c l]; [trivial|]. intros [Hc Hl]. cbn [rstrip_points].
  pose proof (rstrip_points_regular l Hl) as Hr.
  destruct (rstrip_points l) as [|d r].
  - destruct (is_whitespace c); [exact I|]. split; [exact Hc|constructor].
  - split; [exact Hc|exact Hr].
Qed.

Lemma lstrip_points_head (l : list string) (c : string) (r : list string) :
  lstrip_points l = c :: r -> is_whitespace c = false.
Proof.
  induction l as [|a l IH]; cbn [lstrip_points]; [discriminate|].
  destruct (is_whitespace a) eqn:Ha; [exact IH|].
  intros H. inversion H; subst. exact Ha.
Qed.

Lemma rstrip_points_head (l : list string) (c : string) (r : list string) :
  rstrip_points l = c :: r -> exists r', l = c :: r'.
Proof.
  destruct l as [|a l]; cbn [rstrip_points]; [discriminate|].
  destruct (rstrip_points l).
  - destruct (is_whitespace a); [discriminate|].
    intros H. inversion H; subst. eexists. reflexivity.
  - intros H. inversion H; subst. eexists. reflexivity.
Qed.

Lemma well_formed_head (c : string) (l : list string) :
  well_formed (c :: l) -> c <> EmptyString.
Proof. intros [[Hc|[Hne _]] _]; [destruct c; discriminate|exact Hne]. Qed.

Lemma append_not_empty (cur c : string) :
  cur <> EmptyString -> (cur ++ c)%string <> EmptyString.
Proof. destruct cur; [contradiction|discriminate]. Qed.

Lemma split_points_first (l : list string) :
  forall cur w rest,
    cur <> EmptyString ->
    split_points cur l = w :: rest ->
    exists post, (cur ++ text_of l = w ++ post)%string.
Proof.
  induction l as [|c l IH]; intros cur w rest Hcur; cbn [split_points].
  - destruct cur; [contradiction|].
    intros H. inversion H; subst. exists EmptyString. reflexivity.
  - destruct (is_whitespace c).
    + destruct cur; [contradiction|].
      intros H. inversion H; subst. eexists. reflexivity.
    + intros H. apply IH in H as [post H]; [|apply append_not_empty; exact Hcur].
      exists post. rewrite <- H, text_of_cons. symmetry. apply text_append_assoc.
Qed.

(** The stripped text, when it is not empty, is the text of a well-formed
    list of code points whose first is not white space. *)
Lemma strip_points (s : string) :
  let l := rstrip_points (lstrip_points (code_points s)) in
  strip s = text_of l
  /\ code_points (strip s) = l
  /\ match l with
     | [] => True
     | c :: _ => is_whitespace c = false /\ c <> EmptyString
     end.
Proof.
  intros l. assert (Hwf : well_formed l).
  { apply rstrip_points_well_formed, lstrip_points_well_formed,
      code_points_well_formed. }
  split; [reflexivity|]. split; [exact (code_points_text_of l Hwf)|].
  destruct l as [|c r] eqn:El; [exact I|]. split.
  - apply rstrip_points_head in El as [r' El].
    exact (lstrip_points_head _ _ _ El).
  - exact (well_formed_head c r Hwf).
Qed.

(** The first word of a stripped text begins the text. *)
Lemma split_strip_first (s w : string) (rest : list string) :
  split (strip s) = w :: rest ->
  exists post, (strip s = w ++ post)%string.
Proof.
  destruct (strip_points s) as [Hs [Hc Hl]]. unfold split. rewrite Hc, Hs.
  destruct (rstrip_points (lstrip_points (code_points s))) as [|c r];
    [discriminate|].
  destruct Hl as [Hws Hne]. cbn [split_points]. rewrite Hws.
  change (EmptyString ++ c)%string with c. intros H.
  apply split_points_first in H as [post H]; [|exact Hne].
  exists post. rewrite text_of_cons. exact H.
Qed.

Lemma product_of_line_spec (line : string) (p : ProductDetection) :
  product_of_line line = Some p ->
  name p = strip line
  /\ description p = name p
  /\ category p = "Product"
  /\ confidence p = f0_6
  /\ attributes p = [("source", "text_analysis")]
  /\ bounding_box p = None
  /\ (5 < PyText.len (name p))%nat
  /\ (exists rest, split (name p) = brand p :: rest /\ rest <> [])
  /\ startswith (brand p) (name p) = true.
Proof.
  unfold product_of_line.
  destruct (5 <? PyText.len (strip line))%nat eqn:Hlen; [|discriminate].
  destruct (2 <=? length (split (strip line)))%nat eqn:Hwords; [|discriminate].
  intros H. inversion H; subst; clear H. cbn [name description category
    confidence attributes bounding_box brand].
  apply Nat.ltb_lt in Hlen. apply Nat.leb_le in Hwords.
  repeat (split; [reflexivity|]). split; [exact Hlen|].
  destruct (split (strip line)) as [|w rest] eqn:Hsplit;
    [simpl in Hwords; lia|].
  split.
  - exists rest. split; [reflexivity|].
    destruct rest; [simpl in Hwords; lia|discriminate].
  - apply startswith_spec. exact (split_strip_first line w rest Hsplit).
Qed.

Lemma elem_of_firstn {A : Type} (n : nat) (l : list A) (x : A) :
  x ∈ firstn n l -> x ∈ l.
Proof.
  revert l. induction n as [|n IH]; intros [|a l]; simpl; try (intros H; inversion H; fail).
  rewrite !elem_of_cons. intros [->|H]; [left; reflexivity|right; auto].
Qed.

(** X12. [_parse_text_to_products] returns at most five products.  Each one
    comes from a line of the text: its name and its description are the line
    without the surrounding white space, which has more than five
    characters and at least two words; its brand is the first word, so the
    name begins with the brand; its category is ["Product"], its confidence
    0.6, its only attribute the source, and it has no bounding box. *)
Theorem parsed_products_spec (text : string) :
  (length (_parse_text_to_products text) <= 5)%nat
  /\ Forall (fun p =>
               (exists line,
                   In line (PyText.split_on "010" text)
                   /\ name p = strip line)
               /\ description p = name p
               /\ category p = "Product"
               /\ confidence p = f0_6
               /\ attributes p = [("source", "text_analysis")]
               /\ bounding_box p = None
               /\ (5 < PyText.len (name p))%nat
               /\ (exists rest, split (name p) = brand p :: rest
                                /\ rest <> [])
               /\ startswith (brand p) (name p) = true)
            (_parse_text_to_products text).
Proof.
  unfold _parse_text_to_products. split.
  - rewrite length_firstn. lia.
  - apply Forall_forall. intros p Hp. apply elem_of_firstn in Hp.
    apply list_elem_of_omap in Hp as [line [Hline Hp]].
    apply product_of_line_spec in Hp as [Hname Hrest].
    split; [|exact Hrest].
    exists line. split; [apply list_elem_of_In; exact Hline|exact Hname].
Qed.

End DetectorFacts.

(** ** Products named in the detected text *)

Module TextFacts.
Import PyStr PyStrFacts Analyze GoogleVision Detector.
Import PlaceholderFacts.

Lemma contains_trans (a b c : string) :
  contains a b = true -> contains b c = true -> contains a c = true.
Proof.
  rewrite !contains_spec. intros [pre [post ->]] [pre' [post' ->]].
  exists (pre' ++ pre)%string, (post ++ post')%string.
  rewrite !append_assoc. reflexivity.
Qed.

Lemma omap_sublist {A B : Type} (f g : A -> option B) (l : list A) :
  (forall x y, f x = Some y -> g x = Some y) ->
  omap f l `sublist_of` omap g l.
Proof.
  intros Hfg. induction l as [|x l IH]; simpl; [constructor|].
  destruct (f x) as [y|] eqn:Hf.
  - rewrite (Hfg x y Hf). constructor. exact IH.
  - destruct (g x); [constructor|]; exact IH.
Qed.

Lemma products_in_text_mono (t1 t2 : string) :
  contains t1 t2 = true ->
  products_in_text t1 `sublist_of` products_in_text t2.
Proof.
  intros H. unfold products_in_text. apply omap_sublist.
  intros [brand category] p.
  destruct (contains brand t1) eqn:H1; [|discriminate].
  rewrite (contains_trans _ _ _ H1 H). tauto.
Qed.

Section CaseMapping.

Variable str_lower : string -> string.

Lemma text_detection_run (vision_response : json) (text : string) :
  first_description vision_response = Some text ->
  _extract_products_from_text str_lower vision_response
  = Ok (products_in_text (str_lower text)).
Proof.
  unfold first_description, _extract_products_from_text.
  destruct vision_response as [| | | | | |fields]; try discriminate.
  simpl. destruct (fields !! "textAnnotations") as [[| | | | |items|]|];
    try discriminate.
  destruct items as [|[| | | | | |first] others]; try discriminate.
  simpl. destruct (first !! "description") as [[| | | |s| |]|];
    try discriminate; intros H; inversion H; subst; reflexivity.
Qed.

(** X13. When the first text annotation of a response carries a
    description, [_extract_products_from_text] returns, and what it finds
    only grows with the text: if the description of one response occurs,
    letter case apart, in the description of another, every product found
    in the first is found in the second, in the same order. *)
Theorem more_text_keeps_products (r1 r2 : json) (t1 t2 : string) :
  first_description r1 = Some t1 ->
  first_description r2 = Some t2 ->
  contains (str_lower t1) (str_lower t2) = true ->
  exists l1 l2,
    _extract_products_from_text str_lower r1 = Ok l1
    /\ _extract_products_from_text str_lower r2 = Ok l2
    /\ l1 `sublist_of` l2.
Proof.
  intros H1 H2 H. exists (products_in_text (str_lower t1)),
    (products_in_text (str_lower t2)).
  split; [exact (text_detection_run _ _ H1)|].
  split; [exact (text_detection_run _ _ H2)|].
  exact (products_in_text_mono _ _ H).
Qed.

(** X14. The outcome of [_extract_products_from_text] on any decoded
    response.  It returns the products of the description when the first
    annotation carries one, and no product when the response is a
    dictionary whose annotations are missing, empty or null.  In every other
    case it raises [AttributeError], [TypeError] or [KeyError]; it never
    raises [IndexError]. *)
Theorem text_detection_outcome (vision_response : json) :
  match _extract_products_from_text str_lower vision_response with
  | Ok products =>
      (exists text,
          first_description vision_response = Some text
          /\ products = products_in_text (str_lower text))
      \/ (products = []
          /\ exists fields,
               vision_response = JObj fields
               /\ match fields !! "textAnnotations" with
                  | Some text_annotations =>
                      Json.truthy text_annotations = false
                  | None => True
                  end)
  | Raise e =>
      first_description vision_response = None
      /\ In (exn_type e) ["AttributeError"; "TypeError"; "KeyError"]
  end.
Proof.
  destruct vision_response as [| | | | | |fields];
    try (split; [reflexivity|left; reflexivity]).
  unfold _extract_products_from_text, first_description.
  cbn [Json.get rbind].
  destruct (fields !! "textAnnotations") as [text_annotations|] eqn:Hf;
    [|right; split; [reflexivity|]; exists fields; rewrite Hf; auto].
  destruct (Json.truthy text_annotations) eqn:Ht; cbn [negb];
    [|right; split; [reflexivity|]; exists fields; rewrite Hf; auto].
  destruct text_annotations as [|b|n|f|s|items|annotation];
    try discriminate;
    try (split; [reflexivity|right; left; reflexivity]).
  - destruct s; [discriminate|]. split; [reflexivity|left; reflexivity].
  - destruct items as [|first others]; [discriminate|]. cbn [Json.index0 rbind].
    destruct first as [| | | | | |first];
      try (split; [reflexivity|left; reflexivity]).
    cbn [Json.get rbind].
    destruct (first !! "description") as [[| | | |text| |]|];
      cbn [Json.lower rbind];
      try (split; [reflexivity|left; reflexivity]);
      left; eexists; split; reflexivity.
  - split; [reflexivity|right; right; left; reflexivity].
Qed.

End CaseMapping.

End TextFacts.

(** ** Similar products: special queries and a second run *)

Module SimilarFacts.
Import PyStr PyStrFacts Analyze GoogleVision GoogleVisionFacts Detector.

Lemma fleb_not_fltb (a b : spec_float) :
  SFleb a b = true -> PyFloat.fltb b a = false.
Proof.
  unfold PyFloat.fltb, SFltb, SFleb, SFcompare.
  destruct a as [[]|[]| |[] ma ea], b as [[]|[]| |[] mb eb];
    simpl; try discriminate; try reflexivity;
    rewrite ?Pos.compare_cont_spec; simpl;
    rewrite (Z.compare_antisym ea eb), (Pos.compare_antisym ma mb);
    destruct (ea ?= eb); simpl; try discriminate; try reflexivity;
    destruct (ma ?= mb)%positive; simpl; try discriminate; reflexivity.
Qed.

(** A product that no sorted product is smaller than goes to the end. *)
Lemma insert_desc_last (p : ProductDetection)
    (sorted : list ProductDetection) :
  Forall (fun q => confidence_ge q p) sorted ->
  insert_desc p sorted = sorted ++ [p].
Proof.
  induction 1 as [|q rest Hq _ IH]; simpl; [reflexivity|].
  rewrite (fleb_not_fltb _ _ Hq), IH. reflexivity.
Qed.

Lemma sort_fold_sorted (l : list ProductDetection) :
  forall sorted,
    StronglySorted confidence_ge (sorted ++ l) ->
    fold_left (fun sorted p => insert_desc p sorted) l sorted = sorted ++ l.
Proof.
  induction l as [|p rest IH]; intros sorted Hs; simpl.
  - rewrite app_nil_r. reflexivity.
  - rewrite insert_desc_last.
    + rewrite IH; rewrite <- app_assoc; [reflexivity|exact Hs].
    + clear IH. induction sorted as [|q sorted IH]; [constructor|].
      simpl in Hs. inversion Hs as [|? ? Hs' Hq]; subst.
      constructor; [|exact (IH Hs')].
      apply Forall_app in Hq as [_ Hq]. inversion Hq; subst. assumption.
Qed.

(** The sort leaves a list in descending order as it is. *)
Lemma sort_sorted (l : list ProductDetection) :
  StronglySorted confidence_ge l -> sort_by_confidence_desc l = l.
Proof. intros H. exact (sort_fold_sorted l [] H). Qed.

Section CaseMapping.

Variable str_lower : string -> string.

(** A product whose confidence is its own score above the threshold is
    kept as it is. *)
Lemma similar_of_fixed (search_lower : string) (l : list ProductDetection) :
  Forall (fun r =>
            similarity_score str_lower r search_lower = Ok (confidence r)
            /\ PyFloat.fltb PyFloat.f0_5 (confidence r) = true) l ->
  similar_of str_lower search_lower l = l.
Proof.
  induction 1 as [|r l [Hs Hgt] _ IH]; simpl; [reflexivity|].
  rewrite Hs, Hgt, IH. destruct r; reflexivity.
Qed.

Lemma sort_kept (search_lower : string) (l : list ProductDetection) :
  let out := sort_by_confidence_desc (similar_of str_lower search_lower l) in
  Permutation out (similar_of str_lower search_lower l)
  /\ StronglySorted confidence_ge out.
Proof.
  set (kept := similar_of str_lower search_lower l).
  assert (Hkept : Forall has_number kept).
  { apply Forall_forall. intros r Hr. apply list_elem_of_In in Hr.
    apply similar_of_spec in Hr as [p [sc [_ [_ [Hgt ->]]]]].
    apply above_threshold_not_nan. exact Hgt. }
  destruct (sort_fold_spec kept [] Hkept) as [Hperm Hsorted];
    [constructor|constructor|].
  split; [exact Hperm|].
  apply Sorted_StronglySorted; [|exact Hsorted].
  intros a b c. apply confidence_ge_trans.
Qed.

(** X15. Searching the result of [find_similar_products] again with the
    same query changes nothing: every product is kept, with the same
    confidence, at the same place. *)
Theorem find_similar_again (detected_products : list ProductDetection)
    (search_query : string) :
  rbind (find_similar_products str_lower detected_products search_query)
        (fun similar => find_similar_products str_lower similar search_query)
  = find_similar_products str_lower detected_products search_query.
Proof.
  unfold find_similar_products. rewrite collect_similar_spec. cbn [rbind app].
  set (q := str_lower search_query).
  destruct (sort_kept q detected_products) as [Hperm Hsorted].
  set (out := sort_by_confidence_desc
                (similar_of str_lower q detected_products)) in *.
  rewrite collect_similar_spec. cbn [rbind app].
  rewrite similar_of_fixed.
  - rewrite (sort_sorted _ Hsorted). reflexivity.
  - apply Forall_forall. intros r Hr. apply list_elem_of_In in Hr.
    apply (Permutation_in _ Hperm) in Hr.
    apply similar_of_spec in Hr as [p [sc [_ [Hs [Hgt ->]]]]].
    split; [exact Hs|exact Hgt].
Qed.

Lemma similar_of_no_common_word (search_query : string)
    (l : list ProductDetection) :
  Forall (no_common_word str_lower search_query) l ->
  similar_of str_lower (str_lower search_query) l
  = map (set_confidence f0_7)
        (List.filter (brand_and_category_in str_lower search_query) l).
Proof.
  induction 1 as [|p l Hp _ IH]; [reflexivity|].
  cbn [similar_of List.filter].
  unfold similarity_score, brand_and_category_in.
  unfold no_common_word in Hp. rewrite Hp. cbn [Nat.eqb negb].
  destruct (contains (str_lower (brand p)) (str_lower search_query)),
    (contains (str_lower (category p)) (str_lower search_query));
    cbn [andb]; rewrite IH; reflexivity.
Qed.

Lemma constant_confidence_sorted (c : spec_float)
    (l : list ProductDetection) :
  SFleb c c = true ->
  StronglySorted confidence_ge (map (set_confidence c) l).
Proof.
  intros Hc. induction l as [|p l IH]; simpl; constructor; [exact IH|].
  apply Forall_forall. intros r Hr. apply list_elem_of_In in Hr.
  apply in_map_iff in Hr as [r' [<- _]]. exact Hc.
Qed.

(** X16. When no word of the query is a word of the name of any product,
    [find_similar_products] returns exactly the products whose brand and
    whose category both occur in the query, letter case apart, each with
    confidence 0.7, in the order of the input; a brand or a category alone
    is not enough. *)
Theorem query_without_name_words (detected_products : list ProductDetection)
    (search_query : string) :
  Forall (no_common_word str_lower search_query) detected_products ->
  find_similar_products str_lower detected_products search_query
  = Ok (map (set_confidence f0_7)
            (List.filter (brand_and_category_in str_lower search_query)
                         detected_products)).
Proof.
  intros H. unfold find_similar_products.
  rewrite collect_similar_spec. cbn [rbind app].
  rewrite (similar_of_no_common_word _ _ H).
  rewrite sort_sorted; [reflexivity|].
  apply constant_confidence_sorted. reflexivity.
Qed.

End CaseMapping.

End SimilarFacts.

(** ** The properties on the sample inputs *)

Module MoreSampleFacts.
Import Analyze GoogleVision Detector Samples MoreSamples Pipeline.

Example more_sample_floats :
  Prim2SF 0x1.3333333333333p-1%float = f0_6
  /\ Prim2SF 0x1.6666666666666p-1%float = f0_7
  /\ Prim2SF 0x1.999999999999ap-1%float = f0_8.
Proof. vm_compute. auto. Qed.

(** Eight lines: a single word, a short line and six products, of which
    the first five are returned. *)
Example parsed_products_sample :
  map (fun p => (brand p, name p))
      (_parse_text_to_products
         ("Found:" ++ String "010"
            ("  Tide Pods 500ml  " ++ String "010"
               ("soap" ++ String "010"
                  ("Dove soap bar" ++ String "010"
                     ("Coca Cola can" ++ String "010"
                        ("Lux soap pack" ++ String "010"
                           ("Pepsi bottle 1l" ++ String "010"
                              "Maggi noodles"))))))))
  = [("Tide", "Tide Pods 500ml"); ("Dove", "Dove soap bar");
     ("Coca", "Coca Cola can"); ("Lux", "Lux soap pack");
     ("Pepsi", "Pepsi bottle 1l")].
Proof. vm_compute. reflexivity. Qed.

(** A no-break space separates words as a space does. *)
Example parsed_no_break_space :
  map (fun p => (brand p, name p))
      (_parse_text_to_products
         (PyStr.utf8 0xA0 ++ "Tide" ++ PyStr.utf8 0xA0 ++ "Pods"
            ++ PyStr.utf8 0x3000)%string)
  = [("Tide", ("Tide" ++ PyStr.utf8 0xA0 ++ "Pods")%string)].
Proof. vm_compute. reflexivity. Qed.

(** The fallback on a readable image and an answering model: the answer
    is a text, the attribute error is caught and printed, nothing is
    returned. *)
Example fallback_sample :
  _fallback_product_detection demo_world (Ok tt) "shelf.jpg" s0
  = (Ok [],
     State ∅
       [EvReadFile (UserFile "shelf.jpg");
        EvChat (VisionReq None fallback_question "JPEG");
        EvPrint "âŒ Fallback detection error: 'str' object has no attribute 'get'"]).
Proof. vm_compute. reflexivity. Qed.

(** Brands are found inside longer words: "luxury" names Lux. *)
Example text_detection_sample :
  rbind (_extract_products_from_text PyStr.lower
           (annotated "TIDE and Luxury Head & Shoulders"))
        (fun products => Ok (map name products))
  = Ok ["Tide Product"; "Lux Product"; "Head & Shoulders Product"].
Proof. vm_compute. reflexivity. Qed.


Lemma run_in_order_witness :
  analyze_video_for_query demo_world "shelf.mp4" question 4 s0
  = (Ok found_every_fourth,
     snd (analyze_video_for_query demo_world "shelf.mp4" question 4 s0))
  /\ exists total_frames l segs img verdict line,
       PyFloat.int_of_float
         (cap_get cap_frame_count (VideoCapture demo_world "shelf.mp4"))
       = Ok total_frames
       /\ analyses_of demo_world question
            (cap_get cap_fps (VideoCapture demo_world "shelf.mp4"))
            total_frames
            (sampled 4 0 (frames_read (VideoCapture demo_world "shelf.mp4")))
          = Ok l
       /\ Forall2 (fun a seg =>
                     exists fr, frame_events demo_world question
                                  (fresh (dom (tmpfs s0))) a fr seg) l segs
       /\ (if is_image_path "shelf.mp4"
           then image_events demo_world "shelf.mp4" question img
           else img = [])
       /\ snd (analyze_video_for_query demo_world "shelf.mp4" question 4 s0)
          = State (tmpfs s0)
              (trace s0 ++ concat segs
                 ++ [EvRelease;
                     EvChat (SummaryReq question
                               (combined_text_of (map fa_entry l)))]
                 ++ img
                 ++ [EvChat (EvalReq question
                               (final_summary found_every_fourth)
                               (combined_text_of (map fa_entry l)));
                     EvPrint (String "010" "--- Evaluation Summary ---");
                     EvPrint (PyStr.strip verdict);
                     EvPrint line]).
Proof.
  assert (H : analyze_video_for_query demo_world "shelf.mp4" question 4 s0
              = (Ok found_every_fourth,
                 snd (analyze_video_for_query demo_world "shelf.mp4"
                        question 4 s0))) by (vm_compute; reflexivity).
  split; [exact H|].
  exact (RunFacts.run_in_order demo_world "shelf.mp4" question 4
           found_every_fourth s0 _ H).
Defined.


Lemma missing_credentials_run_witness :
  (AZURE_OPENAI_ENDPOINT keyless_world = None
   \/ AZURE_OPENAI_DEPLOYMENT_NAME keyless_world = None
   \/ AZURE_OPENAI_API_VERSION keyless_world = None
   \/ AZURE_OPENAI_API_KEY keyless_world = None)
  /\ analyze_video_for_query keyless_world "shelf.mp4" question 4 s0
     = (Ok found_without_key,
        snd (analyze_video_for_query keyless_world "shelf.mp4" question 4
               s0))
  /\ timestamps found_without_key = []
  /\ (exists tr,
         trace (snd (analyze_video_for_query keyless_world "shelf.mp4"
                       question 4 s0)) = trace s0 ++ tr
         /\ Forall (fun e => is_vision_request e = false) tr)
  /\ exists total_frames v s1 l,
       sample_frames keyless_world question 4
         (cap_get cap_fps (VideoCapture keyless_world "shelf.mp4"))
         total_frames (VideoCapture keyless_world "shelf.mp4") s0
       = (Ok v, s1)
       /\ frame_responses v = map fa_entry l
       /\ Forall (fun a => fa_response a = credentials_error) l.
Proof.
  assert (Hc : AZURE_OPENAI_ENDPOINT keyless_world = None
               \/ AZURE_OPENAI_DEPLOYMENT_NAME keyless_world = None
               \/ AZURE_OPENAI_API_VERSION keyless_world = None
               \/ AZURE_OPENAI_API_KEY keyless_world = None)
    by (right; right; right; reflexivity).
  assert (H : analyze_video_for_query keyless_world "shelf.mp4" question 4 s0
              = (Ok found_without_key,
                 snd (analyze_video_for_query keyless_world "shelf.mp4"
                        question 4 s0))) by (vm_compute; reflexivity).
  split; [exact Hc|]. split; [exact H|].
  exact (RunFacts.missing_credentials_run keyless_world "shelf.mp4" question
           4 found_without_key s0 _ Hc H).
Defined.

Lemma responses_counted_witness :
  0 < 4
  /\ sample_frames demo_world question 4 f1 10 shelf_video s0 = (Ok v4, s4)
  /\ frame_index v4 = Z.of_nat (length (frames_read shelf_video))
  /\ Z.of_nat (length (frame_responses v4))
     = (Z.of_nat (length (frames_read shelf_video)) + 4 - 1) / 4.
Proof.
  assert (Hk : 0 < 4) by lia.
  assert (H : sample_frames demo_world question 4 f1 10 shelf_video s0
              = (Ok v4, s4)) by (vm_compute; reflexivity).
  split; [exact Hk|]. split; [exact H|].
  exact (EdgeFacts.responses_counted demo_world question 4 f1 10 shelf_video
           v4 s0 s4 Hk H).
Defined.

Lemma zero_interval_witness :
  cap_opened (VideoCapture demo_world "shelf.mp4") = true
  /\ cap_frames (VideoCapture demo_world "shelf.mp4")
     = "f0" :: ["f1"; "f2"; "f3"; "f4"; "f5"; "f6"; "f7"; "f8"; "f9"]
  /\ PyFloat.int_of_float
       (cap_frame_count (VideoCapture demo_world "shelf.mp4")) = Ok 10
  /\ exists e,
       analyze_video_for_query demo_world "shelf.mp4" question 0 s0
       = (Raise e, s0)
       /\ exn_type e = "ZeroDivisionError".
Proof.
  split; [reflexivity|]. split; [reflexivity|].
  split; [vm_compute; reflexivity|].
  apply (EdgeFacts.zero_interval demo_world question "shelf.mp4" s0 "f0"
           ["f1"; "f2"; "f3"; "f4"; "f5"; "f6"; "f7"; "f8"; "f9"] 10).
  - reflexivity.
  - reflexivity.
  - vm_compute; reflexivity.
Defined.

Lemma zero_frame_rate_witness :
  cap_opened (VideoCapture still_world "still.mp4") = true
  /\ cap_fps (VideoCapture still_world "still.mp4") = S754_zero false
  /\ cap_frames (VideoCapture still_world "still.mp4") = ["f0"]
  /\ PyFloat.int_of_float
       (cap_frame_count (VideoCapture still_world "still.mp4")) = Ok 10
  /\ 1 <> 0
  /\ tmpfs s0 !! fresh (dom (tmpfs s0)) = None
  /\ exists e,
       analyze_video_for_query still_world "still.mp4" question 1 s0
       = (Raise e,
          State (<[fresh (dom (tmpfs s0)) := "f0"]> (tmpfs s0))
                (trace s0 ++ [EvTmpCreate (fresh (dom (tmpfs s0)))]))
       /\ exn_type e = "ZeroDivisionError".
Proof.
  split; [reflexivity|]. split; [reflexivity|]. split; [reflexivity|].
  split; [vm_compute; reflexivity|]. split; [lia|].
  apply (EdgeFacts.zero_frame_rate still_world question "still.mp4" 1 s0
           "f0" [] 10 false).
  - reflexivity.
  - reflexivity.
  - reflexivity.
  - vm_compute; reflexivity.
  - lia.
Defined.

Lemma failed_frames_are_not_evidence_witness :
  analysis_of_frame flaky_world question f1 10 3 "f3" = Ok skipped_frame_3
  /\ (credentials_loaded flaky_world = false
      \/ exists e,
           chat_completions_create flaky_world
             (VisionReq (Some (3, fa_timestamp skipped_frame_3)) question
                "f3") = Raise e
           /\ (PyStr.contains "timeout" (PyStr.lower (exn_msg e)) = true
               \/ PyStr.contains "connect" (PyStr.lower (exn_msg e)) = true
               \/ PyStr.contains "network" (PyStr.lower (exn_msg e)) = true))
  /\ fa_positive skipped_frame_3 = false
  /\ fa_evidence skipped_frame_3 = None.
Proof.
  assert (Ha : analysis_of_frame flaky_world question f1 10 3 "f3"
               = Ok skipped_frame_3) by (vm_compute; reflexivity).
  assert (H : credentials_loaded flaky_world = false
              \/ exists e,
                   chat_completions_create flaky_world
                     (VisionReq (Some (3, fa_timestamp skipped_frame_3))
                        question "f3") = Raise e
                   /\ (PyStr.contains "timeout" (PyStr.lower (exn_msg e))
                       = true
                       \/ PyStr.contains "connect" (PyStr.lower (exn_msg e))
                          = true
                       \/ PyStr.contains "network" (PyStr.lower (exn_msg e))
                          = true)).
  { right. exists timeout_error. split; [reflexivity|]. left. reflexivity. }
  split; [exact Ha|]. split; [exact H|].
  exact (PlaceholderFacts.failed_frames_are_not_evidence flaky_world question
           f1 10 3 "f3" skipped_frame_3 Ha H).
Defined.

Lemma more_text_keeps_products_witness :
  first_description (annotated "Dove") = Some "Dove"
  /\ first_description (annotated "TIDE and dove soap")
     = Some "TIDE and dove soap"
  /\ PyStr.contains (PyStr.lower "Dove") (PyStr.lower "TIDE and dove soap")
     = true
  /\ exists l1 l2,
       _extract_products_from_text PyStr.lower (annotated "Dove") = Ok l1
       /\ _extract_products_from_text PyStr.lower
            (annotated "TIDE and dove soap") = Ok l2
       /\ l1 `sublist_of` l2.
Proof.
  split; [reflexivity|]. split; [reflexivity|]. split; [reflexivity|].
  apply (TextFacts.more_text_keeps_products PyStr.lower (annotated "Dove")
           (annotated "TIDE and dove soap") "Dove" "TIDE and dove soap");
    reflexivity.
Defined.

Lemma query_without_name_words_witness :
  Forall (no_common_word latin1_lower "nestlé food") [coke; nestle_milk]
  /\ find_similar_products latin1_lower [coke; nestle_milk] "nestlé food"
     = Ok (map (set_confidence f0_7)
               (List.filter (brand_and_category_in latin1_lower "nestlé food")
                            [coke; nestle_milk])).
Proof.
  assert (H : Forall (no_common_word latin1_lower "nestlé food")
                [coke; nestle_milk]).
  { constructor; [vm_compute; reflexivity|].
    constructor; [vm_compute; reflexivity|]. constructor. }
  split; [exact H|].
  exact (SimilarFacts.query_without_name_words latin1_lower
           [coke; nestle_milk] "nestlé food" H).
Defined.

(** With the accented capital lower-cased, brand and category both match. *)
Example accented_brand_sample :
  find_similar_products latin1_lower [coke; nestle_milk] "nestlé food"
  = Ok [set_confidence f0_7 nestle_milk].
Proof. vm_compute. reflexivity. Qed.

(** With one of the two query words in the name as well, the score is
    0.4 + 0.3 + 0.3 * (1 / 2), which is 0.85 in binary64. *)
Example accented_name_sample :
  find_similar_products latin1_lower [nestle_named] "nestlé food"
  = Ok [set_confidence (Prim2SF 0x1.b333333333333p-1%float) nestle_named].
Proof. vm_compute. reflexivity. Qed.

End MoreSampleFacts.
